(** * DataViento dashboard: the active-location refresh pipeline

    A shallow embedding of the browser code that refreshes the dashboard
    widgets: the API client ([WeatherApiClient], apps/web/js/auth.js), the
    loaders and [refreshAllCharts] (dashboard script) and the chart update
    functions (weather-charts script); and of what stands around it: the
    location selector, the creation of the charts, the general request
    helper [apiRequest], the token storage and the password checks of
    apps/web/js/auth.js, the compass points and the weekly sampling of the
    climate projection.

    JavaScript values that come out of [JSON.parse] are modelled by [JsVal];
    the page (module-level variables, [localStorage], the DOM containers, the
    Chart.js instances, the requests in flight) is an explicit record that is
    threaded through a small state-and-exception monad. *)

From Stdlib Require Import ZArith QArith Ascii String List Lia DecimalString DecimalPos.
From stdpp Require Import gmap strings list fin_maps.

Local Open Scope string_scope.
Local Open Scope Z_scope.
Local Set Warnings "-register-all".

(** ** JavaScript values *)

(** A value as [JSON.parse] produces it, plus [undefined] (what reading an
    absent property gives).  Numbers are only passed along and tested for
    truthiness by the modelled code, so a rational stands for them. *)
Inductive JsVal : Type :=
| JUndefined
| JNull
| JBool (b : bool)
| JNum (q : Q)
| JStr (s : string)
| JArr (items : list JsVal)
| JObj (fields : list (string * JsVal)).

(** What the engine itself throws; the wording of these messages is the
    engine's and is kept symbolic. *)
Inductive EngineFault : Type :=
| PropertyOfNullish (prop : string)  (* TypeError: property access on null/undefined *)
| NotAFunction (prop : string)       (* TypeError: x.prop is not a function *)
| JsonSyntax                         (* SyntaxError of response.json() *)
| FetchFailed.                       (* TypeError of fetch(): no response at all *)

(** The [message] of a thrown [Error]. [Stringified v] is [ToString(v)] for a
    truthy non-string [v]. *)
Inductive Message : Type :=
| Text (s : string)
| Stringified (v : JsVal)
| EngineText (f : EngineFault).

Inductive Result (A : Type) : Type :=
| Ok (a : A)
| Throw (m : Message).
Arguments Ok {A} a.
Arguments Throw {A} m.

Definition rbind {A B} (r : Result A) (k : A -> Result B) : Result B :=
  match r with
  | Ok a => k a
  | Throw m => Throw m
  end.

#[global] Instance result_bind : MBind Result := fun _ _ k r => rbind r k.
#[global] Instance result_ret : MRet Result := fun _ a => Ok a.

(** [ToBoolean]. *)
Definition truthy (v : JsVal) : bool :=
  match v with
  | JUndefined | JNull => false
  | JBool b => b
  | JNum q => negb (Qnum q =? 0)
  | JStr s => negb (String.eqb s "")
  | JArr _ | JObj _ => true
  end.

(** [a || b]. *)
Definition js_or (a b : JsVal) : JsVal := if truthy a then a else b.

Fixpoint assoc (k : string) (fields : list (string * JsVal)) : option JsVal :=
  match fields with
  | [] => None
  | (k', v) :: rest => if String.eqb k k' then Some v else assoc k rest
  end.

(** [v.k] for the property names the code reads (data properties of parsed
    JSON, and [length]). *)
Definition js_get (v : JsVal) (k : string) : Result JsVal :=
  match v with
  | JUndefined | JNull => Throw (EngineText (PropertyOfNullish k))
  | JObj fields => Ok (default JUndefined (assoc k fields))
  | JArr items =>
      if String.eqb k "length" then Ok (JNum (inject_Z (Z.of_nat (length items))))
      else Ok JUndefined
  | JStr s =>
      if String.eqb k "length" then Ok (JNum (inject_Z (Z.of_nat (String.length s))))
      else Ok JUndefined
  | JBool _ | JNum _ => Ok JUndefined
  end.

(** [v === 0] *)
Definition is_zero_number (v : JsVal) : bool :=
  match v with
  | JNum q => Qnum q =? 0
  | _ => false
  end.

(** ** Strings: [split] and [parseInt] *)

(** A string is the sequence of its UTF-16 code units, one [ascii] per
    unit: the strings of the model are those whose units are all below
    256, and a string with a higher unit has no counterpart here. *)

Fixpoint split_from (sep : ascii) (cur : string) (s : string) : list string :=
  match s with
  | EmptyString => [String.rev cur]
  | String c rest =>
      if Ascii.eqb c sep then String.rev cur :: split_from sep EmptyString rest
      else split_from sep (String c cur) rest
  end.

(** [s.split(sep)] for a one-character separator. *)
Definition split (sep : ascii) (s : string) : list string :=
  split_from sep EmptyString s.

(** [v.split('-')] on a value. *)
Definition js_split (v : JsVal) : Result (list string) :=
  match v with
  | JStr s => Ok (split "-" s)
  | JUndefined | JNull => Throw (EngineText (PropertyOfNullish "split"))
  | _ => Throw (EngineText (NotAFunction "split"))
  end.

(** The white space [parseInt] skips at the front of its argument: of the
    units below 256 these are tab, line feed, vertical tab, form feed,
    carriage return, space and the no-break space U+00A0. *)
Definition is_ws (c : ascii) : bool :=
  let n := N.of_nat (nat_of_ascii c) in
  ((n =? 32) || (n =? 9) || (n =? 10) || (n =? 11) || (n =? 12) || (n =? 13)
   || (n =? 160))%N.

(** A string of ASCII characters: every unit is below 128. *)
Definition is_ascii_string (s : string) : bool :=
  forallb (fun c => (nat_of_ascii c <? 128)%nat) (list_ascii_of_string s).

Fixpoint skip_ws (s : string) : string :=
  match s with
  | String c rest => if is_ws c then skip_ws rest else s
  | EmptyString => s
  end.

Definition digit_val (radix : Z) (c : ascii) : option Z :=
  let n := Z.of_nat (nat_of_ascii c) in
  let d := if (48 <=? n) && (n <=? 57) then Some (n - 48)
           else if (97 <=? n) && (n <=? 122) then Some (n - 87)
           else if (65 <=? n) && (n <=? 90) then Some (n - 55)
           else None in
  match d with
  | Some v => if v <? radix then Some v else None
  | None => None
  end.

(** The longest prefix of digits; [None] when there is no digit at all. *)
Fixpoint parse_digits (radix : Z) (s : string) (acc : option Z) : option Z :=
  match s with
  | EmptyString => acc
  | String c rest =>
      match digit_val radix c with
      | Some d => parse_digits radix rest (Some (radix * default 0 acc + d))
      | None => acc
      end
  end.

(** [parseInt(s)] without a radix; [None] is [NaN]. An absent array element
    ([undefined]) is given as [None] and parses to [NaN]. *)
Definition parseInt (arg : option string) : option Z :=
  match arg with
  | None => None
  | Some s =>
      let s1 := skip_ws s in
      let '(neg, s2) :=
        match s1 with
        | String "-" r => (true, r)
        | String "+" r => (false, r)
        | _ => (false, s1)
        end in
      let '(radix, s3) :=
        match s2 with
        | String "0" (String "x" r) => (16, r)
        | String "0" (String "X" r) => (16, r)
        | _ => (10, s2)
        end in
      match parse_digits radix s3 None with
      | Some n => Some (if neg then - n else n)
      | None => None
      end
  end.

(** ** Dates: [Date.UTC] and [toLocaleDateString] *)

Definition msPerDay : Z := 86400000.

Definition DayFromYear (y : Z) : Z :=
  365 * (y - 1970) + (y - 1969) / 4 - (y - 1901) / 100 + (y - 1601) / 400.

Definition InLeapYear (y : Z) : bool :=
  ((y mod 4 =? 0) && negb (y mod 100 =? 0)) || (y mod 400 =? 0).

(** Days before month [mn] (0-based) in a common year. *)
Definition month_start (mn : Z) : Z :=
  match mn with
  | 0 => 0 | 1 => 31 | 2 => 59 | 3 => 90 | 4 => 120 | 5 => 151
  | 6 => 181 | 7 => 212 | 8 => 243 | 9 => 273 | 10 => 304 | _ => 334
  end.

(** [MakeDay(year, month, date)] on integers. *)
Definition MakeDay (year month date : Z) : Z :=
  let ym := year + month / 12 in
  let mn := month mod 12 in
  DayFromYear ym + month_start mn
  + (if InLeapYear ym && (2 <=? mn) then 1 else 0)
  + date - 1.

(** [TimeClip]; [None] is [NaN]. *)
Definition TimeClip (t : Z) : option Z :=
  if Z.abs t <=? 8640000000000000 then Some t else None.

(** [Date.UTC(year, month, date)]: a year from 0 to 99 means 1900 + year. *)
Definition Date_UTC (year month date : option Z) : option Z :=
  match year, month, date with
  | Some y, Some m, Some d =>
      let yr := if (0 <=? y) && (y <=? 99) then 1900 + y else y in
      TimeClip (MakeDay yr m d * msPerDay)
  | _, _, _ => None
  end.

(** [new Date(tv)]: a time value, or the invalid date. *)
Inductive JsDate : Type :=
| InvalidDate
| DateAt (tv : Z).

Definition new_Date (tv : option Z) : JsDate :=
  match tv with
  | Some t => match TimeClip t with Some t' => DateAt t' | None => InvalidDate end
  | None => InvalidDate
  end.

(** [YearFromTime], on day numbers: the year [y] with
    [DayFromYear y <= day < DayFromYear (y + 1)]. The quotient by the mean
    length of a year is at most one off. *)
Definition YearFromDay (day : Z) : Z :=
  let y0 := 1970 + (400 * day) / 146097 in
  if day <? DayFromYear y0 then y0 - 1
  else if DayFromYear (y0 + 1) <=? day then y0 + 1
  else y0.

(** [MonthFromTime] (here 1-based) and [DateFromTime], from the day within
    the year and 1 or 0 for a leap or a common year. *)
Definition MonthDateFromDay (leap dayWithinYear : Z) : Z * Z :=
  let t := dayWithinYear in
  if t <? 31 then (1, t + 1)
  else if t <? 59 + leap then (2, t - 30)
  else if t <? 90 + leap then (3, t - 58 - leap)
  else if t <? 120 + leap then (4, t - 89 - leap)
  else if t <? 151 + leap then (5, t - 119 - leap)
  else if t <? 181 + leap then (6, t - 150 - leap)
  else if t <? 212 + leap then (7, t - 180 - leap)
  else if t <? 243 + leap then (8, t - 211 - leap)
  else if t <? 273 + leap then (9, t - 242 - leap)
  else if t <? 304 + leap then (10, t - 272 - leap)
  else if t <? 334 + leap then (11, t - 303 - leap)
  else (12, t - 333 - leap).

(** Year, month (1-based) and day of month of a day number counted from
    1970-01-01, in the proleptic Gregorian calendar. *)
Definition civil_from_days (day : Z) : Z * Z * Z :=
  let y := YearFromDay day in
  let leap := if InLeapYear y then 1 else 0 in
  let '(m, d) := MonthDateFromDay leap (day - DayFromYear y) in
  (y, m, d).

Definition month_short (m : Z) : string :=
  match m with
  | 1 => "Jan" | 2 => "Feb" | 3 => "Mar" | 4 => "Apr" | 5 => "May" | 6 => "Jun"
  | 7 => "Jul" | 8 => "Aug" | 9 => "Sep" | 10 => "Oct" | 11 => "Nov" | _ => "Dec"
  end.

Definition dec (z : Z) : string := NilZero.string_of_int (Z.to_int z).

(** The [timeZone] option of [toLocaleDateString]: absent, the zone of the
    browser applies. *)
Inductive TimeZoneOpt : Type :=
| TzDefault
| TzUTC.

(** [date.toLocaleDateString("en-US", {month: "short", day: "numeric",
    timeZone})]; [local_offset] is the offset of the browser's zone from UTC,
    in minutes. *)
Definition toLocaleDateString (local_offset : Z) (tz : TimeZoneOpt) (date : JsDate) : string :=
  match date with
  | InvalidDate => "Invalid Date"
  | DateAt tv =>
      let shift := match tz with TzUTC => 0 | TzDefault => local_offset * 60000 end in
      let '(_, m, d) := civil_from_days ((tv + shift) / msPerDay) in
      month_short m ++ " " ++ dec d
  end.

(** The label of one daily record, as every daily update function computes
    it from [day.valid_date]. *)
Definition date_label (local_offset : Z) (valid_date : JsVal) : Result string :=
  dateParts ← js_split valid_date;
   let year := parseInt (dateParts !! 0%nat) in
   let month := option_map (fun m => m - 1) (parseInt (dateParts !! 1%nat)) in
   let dayNum := parseInt (dateParts !! 2%nat) in
   let date := new_Date (Date_UTC year month dayNum) in
   Ok (toLocaleDateString local_offset TzUTC date).


(** The days of a month of the calendar. *)
Definition days_in_month (y m : Z) : Z :=
  match m with
  | 2 => if InLeapYear y then 29 else 28
  | 4 | 6 | 9 | 11 => 30
  | _ => 31
  end.

(** [sep] does not occur in [s]. *)
Fixpoint free_of (sep : ascii) (s : string) : bool :=
  match s with
  | EmptyString => true
  | String c rest => negb (Ascii.eqb c sep) && free_of sep rest
  end.

(** ** The page *)

(** An entry of [userLocations] (loaded by the settings script). *)
Record UserLocation : Type := {
  user_location_id : Z;
  location_id : Z;
  is_primary : bool
}.

(** One dataset of a Chart.js instance: its [data], and the per-point
    directions some hourly charts attach ([windDirections],
    [waveDirections]; [JUndefined] until assigned). *)
Record Dataset : Type := {
  ds_data : JsVal;
  ds_directions : JsVal
}.

(** [chart.data] of a Chart.js instance. *)
Record Chart : Type := {
  labels : list string;
  datasets : list Dataset
}.

(** The module-level chart variables that have an update function. *)
Inductive ChartVar : Type :=
| weatherDailyChart | weatherPrecipChart | weatherWindChart | weatherUvChart
| weatherHourlyTempChart | weatherHourlyPrecipChart | weatherHourlyWindChart
| airQualityAqiChart | airQualityPollutantsChart | airQualitySecondaryChart
| marineDailyWaveChart | marineDailyPeriodChart
| marineHourlyWaveChart | marineHourlyPeriodChart
| satelliteDailyRadiationChart | satelliteDailyIrradianceChart
| climateTempTrendsChart | climatePrecipHumidityChart | climateWindRadiationChart.

Definition chart_name (c : ChartVar) : string :=
  match c with
  | weatherDailyChart => "weatherDailyChart"
  | weatherPrecipChart => "weatherPrecipChart"
  | weatherWindChart => "weatherWindChart"
  | weatherUvChart => "weatherUvChart"
  | weatherHourlyTempChart => "weatherHourlyTempChart"
  | weatherHourlyPrecipChart => "weatherHourlyPrecipChart"
  | weatherHourlyWindChart => "weatherHourlyWindChart"
  | airQualityAqiChart => "airQualityAqiChart"
  | airQualityPollutantsChart => "airQualityPollutantsChart"
  | airQualitySecondaryChart => "airQualitySecondaryChart"
  | marineDailyWaveChart => "marineDailyWaveChart"
  | marineDailyPeriodChart => "marineDailyPeriodChart"
  | marineHourlyWaveChart => "marineHourlyWaveChart"
  | marineHourlyPeriodChart => "marineHourlyPeriodChart"
  | satelliteDailyRadiationChart => "satelliteDailyRadiationChart"
  | satelliteDailyIrradianceChart => "satelliteDailyIrradianceChart"
  | climateTempTrendsChart => "climateTempTrendsChart"
  | climatePrecipHumidityChart => "climatePrecipHumidityChart"
  | climateWindRadiationChart => "climateWindRadiationChart"
  end.

(** The id of the canvas a chart is created on. *)
Definition canvas_id (c : ChartVar) : string :=
  match c with
  | weatherDailyChart => "weatherTempChart"
  | _ => chart_name c
  end.

(** How many datasets the create function of a chart declares. *)
Definition dataset_count (c : ChartVar) : nat :=
  match c with
  | weatherHourlyWindChart => 1
  | airQualityPollutantsChart => 4
  | marineDailyWaveChart | marineHourlyWaveChart
  | satelliteDailyRadiationChart | satelliteDailyIrradianceChart
  | climateTempTrendsChart => 3
  | _ => 2
  end%nat.

(** What [innerHTML] of a container holds: the markup the page ships with,
    nothing, the cards an [update...Cards] function built from a payload, or
    the red spinner of a [show...Error] function with its message. *)
Inductive Html : Type :=
| InitialMarkup
| NoMarkup
| Cards (data : JsVal)
| ErrorSpinner (m : Message).

(** The loaders of the dashboard script, one per endpoint. *)
Inductive Loader : Type :=
| CurrentWeather | DailyWeather | HourlyWeather
| CurrentAirQuality | HourlyAirQuality
| CurrentMarine | DailyMarine | HourlyMarine
| DailySatellite
| ClimateProjection.

(** What [fetchData] hands to [fetch]: the URL and the options (the method
    and the two headers). There is no body and no query string of its own. *)
Record Request : Type := {
  req_url : string;
  req_method : string;
  req_authorization : string;
  req_content_type : string
}.

(** A fetch that has not settled, and the loader suspended on it. *)
Record Pending : Type := {
  awaiting : Loader;
  request : Request
}.

Record Page : Type := {
  activeLocationId : option Z;          (* null, or the selected user_location_id *)
  userLocations : list UserLocation;
  access_token : option string;         (* localStorage *)
  refresh_token : option string;
  location_href : string;               (* window.location.href *)
  containers : gmap string Html;        (* elements written through innerHTML, by id *)
  canvases : gset string;               (* canvas elements present, by id *)
  refreshBtn : option bool;             (* the refresh button: has class rotating? *)
  charts : gmap string Chart;           (* chart variables; absent is null *)
  inflight : list Pending;              (* fetches not yet settled, oldest first *)
  timeouts : nat;                       (* pending setTimeout callbacks of refreshAllCharts *)
  uncaught : list Message               (* uncaught exceptions and unhandled rejections *)
}.

Definition set_charts (f : gmap string Chart -> gmap string Chart) (p : Page) : Page :=
  {| activeLocationId := activeLocationId p; userLocations := userLocations p;
     access_token := access_token p; refresh_token := refresh_token p;
     location_href := location_href p; containers := containers p;
     canvases := canvases p; refreshBtn := refreshBtn p;
     charts := f (charts p); inflight := inflight p; timeouts := timeouts p;
     uncaught := uncaught p |}.

Definition set_containers (f : gmap string Html -> gmap string Html) (p : Page) : Page :=
  {| activeLocationId := activeLocationId p; userLocations := userLocations p;
     access_token := access_token p; refresh_token := refresh_token p;
     location_href := location_href p; containers := f (containers p);
     canvases := canvases p; refreshBtn := refreshBtn p;
     charts := charts p; inflight := inflight p; timeouts := timeouts p;
     uncaught := uncaught p |}.

Definition set_inflight (f : list Pending -> list Pending) (p : Page) : Page :=
  {| activeLocationId := activeLocationId p; userLocations := userLocations p;
     access_token := access_token p; refresh_token := refresh_token p;
     location_href := location_href p; containers := containers p;
     canvases := canvases p; refreshBtn := refreshBtn p;
     charts := charts p; inflight := f (inflight p); timeouts := timeouts p;
     uncaught := uncaught p |}.

Definition set_activeLocationId (a : option Z) (p : Page) : Page :=
  {| activeLocationId := a; userLocations := userLocations p;
     access_token := access_token p; refresh_token := refresh_token p;
     location_href := location_href p; containers := containers p;
     canvases := canvases p; refreshBtn := refreshBtn p;
     charts := charts p; inflight := inflight p; timeouts := timeouts p;
     uncaught := uncaught p |}.

Definition set_refreshBtn (f : option bool -> option bool) (n : nat -> nat) (p : Page) : Page :=
  {| activeLocationId := activeLocationId p; userLocations := userLocations p;
     access_token := access_token p; refresh_token := refresh_token p;
     location_href := location_href p; containers := containers p;
     canvases := canvases p; refreshBtn := f (refreshBtn p);
     charts := charts p; inflight := inflight p; timeouts := n (timeouts p);
     uncaught := uncaught p |}.

Definition report_uncaught (m : Message) (p : Page) : Page :=
  {| activeLocationId := activeLocationId p; userLocations := userLocations p;
     access_token := access_token p; refresh_token := refresh_token p;
     location_href := location_href p; containers := containers p;
     canvases := canvases p; refreshBtn := refreshBtn p;
     charts := charts p; inflight := inflight p; timeouts := timeouts p;
     uncaught := (uncaught p ++ [m])%list |}.

(** The 401 branch of [fetchData]: both tokens removed, the page sent to the
    login form. *)
Definition expire_session (p : Page) : Page :=
  {| activeLocationId := activeLocationId p; userLocations := userLocations p;
     access_token := None; refresh_token := None;
     location_href := "/login.html"; containers := containers p;
     canvases := canvases p; refreshBtn := refreshBtn p;
     charts := charts p; inflight := inflight p; timeouts := timeouts p;
     uncaught := uncaught p |}.

(** ** Computations on the page: state and exceptions *)

(** A piece of JavaScript run against the page: it leaves a page, and either
    returns or throws. What it wrote before throwing stays written. *)
Definition M (A : Type) : Type := Page -> Page * Result A.

Definition mret {A} (a : A) : M A := fun p => (p, Ok a).

Definition mbind' {A B} (c : M A) (k : A -> M B) : M B :=
  fun p => match c p with
           | (p', Ok a) => k a p'
           | (p', Throw m) => (p', Throw m)
           end.

#[global] Instance M_ret : MRet M := @mret.
#[global] Instance M_bind : MBind M := fun _ _ k c => mbind' c k.

Definition throw {A} (m : Message) : M A := fun p => (p, Throw m).

Definition lift {A} (r : Result A) : M A := fun p => (p, r).

(** [try { body } catch (error) { handler(error.message) }] *)
Definition try_catch {A} (body : M A) (handler : Message -> M A) : M A :=
  fun p => match body p with
           | (p', Ok a) => (p', Ok a)
           | (p', Throw m) => handler m p'
           end.

(** A call of an [async] function, or the resumption of one: it never
    throws into its caller; what escapes it is an unhandled rejection. *)
Definition async (body : M unit) : M unit :=
  fun p => match body p with
           | (p', Ok _) => (p', Ok tt)
           | (p', Throw m) => (report_uncaught m p', Ok tt)
           end.

Definition modify (f : Page -> Page) : M unit := fun p => (f p, Ok tt).

(** [new Error(x)]: the message is [x] itself when it is a string. *)
Definition error_message (x : JsVal) : Message :=
  match x with
  | JStr s => Text s
  | _ => Stringified x
  end.

(** ** The chart update functions (weather-charts script) *)

(** What an update function hands to its chart: the labels and, per dataset
    in order, the data and (where the function assigns them) the
    directions. *)
Record Series : Type := {
  s_labels : list string;
  s_datasets : list (JsVal * option JsVal)
}.

(** [chart.data.datasets[i].data = ...] for [i], [i+1], ... in turn: an
    absent dataset makes the assignment throw, and what was assigned before
    stays. *)
Fixpoint assign_datasets (i : nat) (sets : list (JsVal * option JsVal))
    (ds : list Dataset) : list Dataset * Result unit :=
  match sets with
  | [] => (ds, Ok tt)
  | (d, dirs) :: rest =>
      match ds !! i with
      | None => (ds, Throw (EngineText (PropertyOfNullish "data")))
      | Some old =>
          let new := {| ds_data := d;
                        ds_directions := default (ds_directions old) dirs |} in
          assign_datasets (S i) rest (<[i := new]> ds)
      end
  end.

(** The assignments that end every update function:
    [chart.data.labels = labels; chart.data.datasets[0].data = ...; ...;
    chart.update()]. *)
Definition assign_series (s : Series) (ch : Chart) : Chart * Result unit :=
  let '(ds, r) := assign_datasets 0 (s_datasets s) (datasets ch) in
  ({| labels := s_labels s; datasets := ds |}, r).

(** The shape of payload an update function expects, which decides its
    second guard. *)
Inductive PayloadShape : Type :=
| DailyRecords        (* !apiData || apiData.length === 0 *)
| HourlyParameters    (* !apiData || !apiData.parameters *)
| ClimateDailyData.   (* !apiData || !apiData.daily_data || apiData.daily_data.length === 0 *)

Definition payload_shape (c : ChartVar) : PayloadShape :=
  match c with
  | weatherDailyChart | weatherPrecipChart | weatherWindChart | weatherUvChart
  | marineDailyWaveChart | marineDailyPeriodChart
  | satelliteDailyRadiationChart | satelliteDailyIrradianceChart => DailyRecords
  | climateTempTrendsChart | climatePrecipHumidityChart
  | climateWindRadiationChart => ClimateDailyData
  | _ => HourlyParameters
  end.

(** The second guard of an update function: [true] when it returns early
    with a "no data" warning on the console. *)
Definition nothing_to_plot (shape : PayloadShape) (apiData : JsVal) : Result bool :=
  if negb (truthy apiData) then Ok true
  else match shape with
       | DailyRecords =>
           len ← js_get apiData "length"; Ok (is_zero_number len)
       | HourlyParameters =>
           ps ← js_get apiData "parameters"; Ok (negb (truthy ps))
       | ClimateDailyData =>
           dd ← js_get apiData "daily_data";
           if negb (truthy dd) then Ok true
           else len ← js_get dd "length"; Ok (is_zero_number len)
       end.

(** [apiData.forEach(f)], collecting what [f] pushes. *)
Definition js_forEach {A} (apiData : JsVal) (f : JsVal -> Result A) : Result (list A) :=
  match apiData with
  | JArr items => mapM f items
  | _ => Throw (EngineText (NotAFunction "forEach"))
  end.

(** [day.field || fallback] *)
Definition field_or (day : JsVal) (field : string * JsVal) : Result JsVal :=
  v ← js_get day field.1; Ok (js_or v field.2).

(** The fields a daily update function plots, each with the fallback its
    [||] gives. *)
Definition plotted_fields (c : ChartVar) : list (string * JsVal) :=
  match c with
  | weatherDailyChart =>
      [("temperature_2m_max", JNull); ("temperature_2m_min", JNull)]
  | weatherPrecipChart =>
      [("precipitation_sum", JNum 0); ("precipitation_probability_max", JNum 0)]
  | weatherWindChart =>
      [("wind_speed_10m_max", JNum 0); ("wind_gusts_10m_max", JNum 0)]
  | marineDailyWaveChart =>
      [("wave_height_max", JNum 0); ("swell_wave_height_max", JNum 0);
       ("wind_wave_height_max", JNum 0)]
  | marineDailyPeriodChart =>
      [("wave_period_max", JNum 0); ("wave_direction_dominant", JNum 0)]
  | _ => []
  end.

(** The parameters an hourly update function takes from
    [apiData.parameters] and requires. *)
Definition required_parameters (c : ChartVar) : list string :=
  match c with
  | weatherHourlyTempChart => ["temp_2m"; "humidity_2m"]
  | weatherHourlyPrecipChart => ["precip"; "precip_prob"]
  | weatherHourlyWindChart => ["wind_speed_10m"; "wind_dir_10m"]
  | airQualityAqiChart => ["aqi_european"; "aqi_us"]
  | airQualityPollutantsChart => ["pm2_5"; "pm10"; "no2"; "o3"]
  | airQualitySecondaryChart => ["so2"; "co"]
  | marineHourlyWaveChart => ["wave_height"; "swell_wave_height"; "wind_wave_height"]
  | marineHourlyPeriodChart => ["wave_period"; "sea_temp"]
  | _ => []
  end.

(** The third guard, which only the hourly update functions have
    ([if (!temp || !humidity) return;] and alike): [true] when one of the
    required parameters is falsy and the function returns with a warning on
    the console. *)
Definition parameter_missing (c : ChartVar) (apiData : JsVal) : Result bool :=
  match payload_shape c with
  | HourlyParameters =>
      ps ← js_get apiData "parameters";
      values ← mapM (js_get ps) (required_parameters c);
      Ok (existsb (fun v => negb (truthy v)) values)
  | _ => Ok false
  end.

(** Transposition of the pushed rows into one array per dataset. *)
Definition column (rows : list (list JsVal)) (j : nat) : JsVal :=
  JArr (map (fun row => default JUndefined (row !! j)) rows).

Section Dashboard.

(** The offset of the browser's time zone (minutes), the transformers of the
    charts whose arithmetic is not modelled (those that sort, sample or
    round their records, and the hourly ones past their third guard), and
    whether building the cards of a container throws on a payload. *)
Variable local_offset : Z.
Variable other_series : ChartVar -> JsVal -> Result Series.
Variable cards_fault : string -> JsVal -> option Message.

(** The callback of [apiData.forEach] in a daily update function: the label
    pushed and the values pushed. *)
Definition daily_row (fields : list (string * JsVal)) (day : JsVal)
    : Result (string * list JsVal) :=
  valid_date ← js_get day "valid_date";
  label ← date_label local_offset valid_date;
  values ← mapM (field_or day) fields;
  Ok (label, values).

Definition daily_series (fields : list (string * JsVal)) (apiData : JsVal)
    : Result Series :=
  rows ← js_forEach apiData (daily_row fields);
  Ok {| s_labels := map fst rows;
        s_datasets := map (fun j => (column (map snd rows) j, None))
                          (seq 0 (length fields)) |}.

(** The part of an update function after its guards. *)
Definition series_of (c : ChartVar) (apiData : JsVal) : Result Series :=
  match c with
  | weatherDailyChart | weatherPrecipChart | weatherWindChart
  | marineDailyWaveChart | marineDailyPeriodChart =>
      daily_series (plotted_fields c) apiData
  | _ => other_series c apiData
  end.

(** An update function: return if the chart variable is null, return if
    there is nothing to plot, return (an hourly one) if a parameter is
    missing, else compute the series and assign it. *)
Definition update_chart (c : ChartVar) (apiData : JsVal) : M unit :=
  fun p =>
    match charts p !! chart_name c with
    | None => (p, Ok tt)
    | Some ch =>
        match nothing_to_plot (payload_shape c) apiData with
        | Throw m => (p, Throw m)
        | Ok true => (p, Ok tt)
        | Ok false =>
            match parameter_missing c apiData with
            | Throw m => (p, Throw m)
            | Ok true => (p, Ok tt)
            | Ok false =>
                match series_of c apiData with
                | Throw m => (p, Throw m)
                | Ok s =>
                    let '(ch', r) := assign_series s ch in
                    (set_charts (insert (chart_name c) ch') p, r)
                end
            end
        end
    end.

Definition updateWeatherDailyChart := update_chart weatherDailyChart.
Definition updateWeatherPrecipChart := update_chart weatherPrecipChart.
Definition updateWeatherUvChart := update_chart weatherUvChart.
Definition updateWeatherWindChart := update_chart weatherWindChart.
Definition updateWeatherHourlyTempChart := update_chart weatherHourlyTempChart.
Definition updateWeatherHourlyPrecipChart := update_chart weatherHourlyPrecipChart.
Definition updateWeatherHourlyWindChart := update_chart weatherHourlyWindChart.
Definition updateAirQualityAqiChart := update_chart airQualityAqiChart.
Definition updateAirQualityPollutantsChart := update_chart airQualityPollutantsChart.
Definition updateAirQualitySecondaryChart := update_chart airQualitySecondaryChart.
Definition updateMarineDailyWaveChart := update_chart marineDailyWaveChart.
Definition updateMarineDailyPeriodChart := update_chart marineDailyPeriodChart.
Definition updateMarineHourlyWaveChart := update_chart marineHourlyWaveChart.
Definition updateMarineHourlyPeriodChart := update_chart marineHourlyPeriodChart.
Definition updateSatelliteDailyRadiationChart := update_chart satelliteDailyRadiationChart.
Definition updateSatelliteDailyIrradianceChart := update_chart satelliteDailyIrradianceChart.
Definition updateClimateTempTrendsChart := update_chart climateTempTrendsChart.
Definition updateClimatePrecipHumidityChart := update_chart climatePrecipHumidityChart.
Definition updateClimateWindRadiationChart := update_chart climateWindRadiationChart.

(** A create function: nothing without its canvas; else the old instance is
    destroyed and a new one, with empty labels and data, takes its place. *)
Definition create_chart (c : ChartVar) : M unit :=
  fun p =>
    if decide (canvas_id c ∈ canvases p) then
      let fresh := {| labels := [];
                      datasets := replicate (dataset_count c)
                                    {| ds_data := JArr []; ds_directions := JUndefined |} |} in
      (set_charts (insert (chart_name c) fresh) p, Ok tt)
    else (p, Ok tt).

Definition createWeatherDailyChart := create_chart weatherDailyChart.

(** The charts [initializeWeatherCharts] creates, in its order. *)
Definition created_charts : list ChartVar :=
  [weatherDailyChart; weatherPrecipChart; weatherUvChart; weatherWindChart;
   weatherHourlyPrecipChart; weatherHourlyWindChart; weatherHourlyTempChart;
   airQualityAqiChart; airQualityPollutantsChart; airQualitySecondaryChart;
   marineDailyPeriodChart; marineDailyWaveChart;
   marineHourlyPeriodChart; marineHourlyWaveChart;
   satelliteDailyIrradianceChart; satelliteDailyRadiationChart;
   climatePrecipHumidityChart; climateTempTrendsChart;
   climateWindRadiationChart].

Definition initializeWeatherCharts : M unit :=
  mapM create_chart created_charts ≫= fun _ => mret tt.

(** ** The API client (apps/web/js/auth.js) *)

Definition API_CONFIG_baseURL : string := "http://localhost:8000".

(** [url.replace(/([^:]\/)\/+/g, "$1")]: a run of slashes that follows a
    character other than a colon and a slash is dropped. [skipping] is set
    while such a run is being consumed. *)
Fixpoint collapse_slashes (skipping : bool) (s : string) : string :=
  match s with
  | EmptyString => EmptyString
  | String c rest =>
      if skipping && Ascii.eqb c "/" then collapse_slashes true rest
      else match rest with
           | String "/" (String "/" r2) =>
               if Ascii.eqb c ":" then String c (collapse_slashes false rest)
               else String c (String "/" (collapse_slashes true r2))
           | _ => String c (collapse_slashes false rest)
           end
  end.

Definition getApiUrl (endpoint : string) : string :=
  collapse_slashes false (API_CONFIG_baseURL ++ endpoint).

(** [fetchData(endpoint)] up to its [await fetch(...)]: without a token it
    throws before [fetch] is reached; with one, the request goes out and the
    caller ([who]) is suspended on it. *)
Definition fetchData (who : Loader) (endpoint : string) : M unit :=
  fun p =>
    let token := default "" (access_token p) in
    if negb (truthy (JStr token)) then
      (p, Throw (Text "No authentication token found"))
    else
      let req := {| req_url := getApiUrl endpoint;
                    req_method := "GET";
                    req_authorization := "Bearer " ++ token;
                    req_content_type := "application/json" |} in
      (set_inflight (fun q => (q ++ [{| awaiting := who; request := req |}])%list) p, Ok tt).

Definition fetchDailyForecast who (locationId : Z) :=
  fetchData who ("/weather/daily/" ++ dec locationId).
Definition fetchCurrentData who (locationId : Z) :=
  fetchData who ("/weather/current/" ++ dec locationId).
Definition fetchHourlyData who (locationId : Z) :=
  fetchData who ("/weather/hourly/" ++ dec locationId).
Definition fetchAirQualityCurrentData who (locationId : Z) :=
  fetchData who ("/air-quality/current/" ++ dec locationId).
Definition fetchAirQualityHourlyData who (locationId : Z) :=
  fetchData who ("/air-quality/hourly/" ++ dec locationId).
Definition fetchMarineCurrentData who (locationId : Z) :=
  fetchData who ("/marine/current/" ++ dec locationId).
Definition fetchMarineHourlyData who (locationId : Z) :=
  fetchData who ("/marine/hourly/" ++ dec locationId).
Definition fetchMarineDailyData who (locationId : Z) :=
  fetchData who ("/marine/daily/" ++ dec locationId).
Definition fetchSatelliteDailyData who (locationId : Z) :=
  fetchData who ("/satellite/daily/" ++ dec locationId).

(** [fetchClimateProjection(locationId)] declares one parameter; whatever
    else a call passes ([more]) is bound to nothing. *)
Definition fetchClimateProjection who (locationId : Z) (more : list JsVal) :=
  fetchData who ("/climate/projection/" ++ dec locationId).

(** How a fetch settles: no response at all, or a status line and a body
    that [response.json()] parses or not. *)
Inductive Body : Type :=
| Json (v : JsVal)
| NotJson.

Inductive FetchOutcome : Type :=
| NoResponse
| Response (status : Z) (statusText : string) (body : Body).

(** [response.ok] *)
Definition response_ok (status : Z) : bool := (200 <=? status) && (status <=? 299).

(** [fetchData] from the point where its [fetch] settles. *)
Definition fetchData_resume (o : FetchOutcome) : M JsVal :=
  match o with
  | NoResponse => throw (EngineText FetchFailed)
  | Response status statusText body =>
      if negb (response_ok status) then
        if status =? 401 then
          modify expire_session ≫= fun _ => throw (Text "Authentication failed")
        else
          let errorData := match body with Json v => v | NotJson => JObj [] end in
          detail ← lift (js_get errorData "detail");
          throw (error_message
                   (js_or detail
                      (JStr ("HTTP " ++ dec status ++ ": " ++ statusText))))
      else
        match body with
        | NotJson => throw (EngineText JsonSyntax)
        | Json data =>
            success ← lift (js_get data "success");
            if negb (truthy success) then
              detail ← lift (js_get data "detail");
              throw (error_message
                       (js_or detail (JStr "API returned unsuccessful response")))
            else mret data
        end
  end.

(** ** The loaders and [refreshAllCharts] (dashboard script) *)

(** [document.getElementById(id)] then [container.innerHTML = ...] with the
    red spinner markup: the [show...Error] functions. *)
Definition show_error (container : string) (m : Message) : M unit :=
  fun p =>
    match containers p !! container with
    | None => (p, Ok tt)
    | Some _ => (set_containers (insert container (ErrorSpinner m)) p, Ok tt)
    end.

Definition showCurrentWeatherError := show_error "currentWeatherCards".
Definition showCurrentAirQualityError := show_error "currentAirQualityCards".
Definition showCurrentMarineError := show_error "currentMarineCards".
Definition showClimateError := show_error "climateModelInfo".

(** The [update...Cards] functions and [updateClimateModelInfo]: nothing
    without the container; else it is cleared and the cards are built and
    appended, unless building them throws. *)
Definition update_cards (container : string) (data : JsVal) : M unit :=
  fun p =>
    match containers p !! container with
    | None => (p, Ok tt)
    | Some _ =>
        match cards_fault container data with
        | Some m => (set_containers (insert container NoMarkup) p, Throw m)
        | None => (set_containers (insert container (Cards data)) p, Ok tt)
        end
    end.

Definition updateCurrentWeatherCards := update_cards "currentWeatherCards".
Definition updateCurrentAirQualityCards := update_cards "currentAirQualityCards".
Definition updateCurrentMarineCards := update_cards "currentMarineCards".
Definition updateClimateModelInfo := update_cards "climateModelInfo".

(** The call a loader makes on the client. *)
Definition call_client (l : Loader) (locationId : Z) : M unit :=
  match l with
  | CurrentWeather => fetchCurrentData l locationId
  | DailyWeather => fetchDailyForecast l locationId
  | HourlyWeather => fetchHourlyData l locationId
  | CurrentAirQuality => fetchAirQualityCurrentData l locationId
  | HourlyAirQuality => fetchAirQualityHourlyData l locationId
  | CurrentMarine => fetchMarineCurrentData l locationId
  | DailyMarine => fetchMarineDailyData l locationId
  | HourlyMarine => fetchMarineHourlyData l locationId
  | DailySatellite => fetchSatelliteDailyData l locationId
  | ClimateProjection =>
      fetchClimateProjection l locationId
        [JStr "EC_Earth3P_HR"; JStr "2022-01-01"; JStr "2026-12-31"]
  end.

(** The [if (response && response.data)] branch of a loader. *)
Definition on_data (l : Loader) (data : JsVal) : M unit :=
  match l with
  | CurrentWeather => updateCurrentWeatherCards data
  | DailyWeather =>
      updateWeatherDailyChart data ;;
      updateWeatherPrecipChart data ;;
      updateWeatherUvChart data ;;
      updateWeatherWindChart data
  | HourlyWeather =>
      updateWeatherHourlyTempChart data ;;
      updateWeatherHourlyPrecipChart data ;;
      updateWeatherHourlyWindChart data
  | CurrentAirQuality => updateCurrentAirQualityCards data
  | HourlyAirQuality =>
      updateAirQualityAqiChart data ;;
      updateAirQualityPollutantsChart data ;;
      updateAirQualitySecondaryChart data
  | CurrentMarine => updateCurrentMarineCards data
  | DailyMarine =>
      updateMarineDailyWaveChart data ;;
      updateMarineDailyPeriodChart data
  | HourlyMarine =>
      updateMarineHourlyWaveChart data ;;
      updateMarineHourlyPeriodChart data
  | DailySatellite =>
      updateSatelliteDailyRadiationChart data ;;
      updateSatelliteDailyIrradianceChart data
  | ClimateProjection =>
      updateClimateModelInfo data ;;
      updateClimateTempTrendsChart data ;;
      updateClimatePrecipHumidityChart data ;;
      updateClimateWindRadiationChart data
  end.

(** Its [else] branch: a console warning, and for four loaders a message
    in their own container. *)
Definition on_no_data (l : Loader) : M unit :=
  match l with
  | CurrentWeather => showCurrentWeatherError (Text "No data available")
  | CurrentAirQuality => showCurrentAirQualityError (Text "No data available")
  | CurrentMarine => showCurrentMarineError (Text "No data available")
  | ClimateProjection => showClimateError (Text "No data available for this location")
  | _ => mret tt
  end.

(** The [catch (error)] block of a loader: the console, and for the same
    four loaders [error.message] in their own container. *)
Definition on_error (l : Loader) (m : Message) : M unit :=
  match l with
  | CurrentWeather => showCurrentWeatherError m
  | CurrentAirQuality => showCurrentAirQualityError m
  | CurrentMarine => showCurrentMarineError m
  | ClimateProjection => showClimateError m
  | _ => mret tt
  end.

(** [!activeLocationId] *)
Definition no_active_location (a : option Z) : bool :=
  match a with
  | None => true
  | Some id => id =? 0
  end.

(** [userLocations.find(ul => ul.user_location_id === activeLocationId)] *)
Definition find_userLoc (p : Page) : option UserLocation :=
  match activeLocationId p with
  | None => None
  | Some id => find (fun ul => user_location_id ul =? id) (userLocations p)
  end.

(** A loader from its call to the point where it is suspended on its fetch
    (or has returned). A client call that throws before its fetch rejects the
    awaited promise; the [catch] block then runs before any other event is
    handled, and is run here at once. *)
Definition load_begin (l : Loader) : M unit :=
  async (fun p =>
    if no_active_location (activeLocationId p) then (p, Ok tt)
    else
      try_catch
        (fun p =>
           match find_userLoc p with
           | None => (p, Ok tt)
           | Some userLoc => call_client l (location_id userLoc) p
           end)
        (on_error l) p).

(** A loader from the point where its fetch settles. The two awaits of
    [fetchData] ([fetch], [response.json()]) are taken in one step: nothing
    between them reads the page. *)
Definition load_resume (l : Loader) (o : FetchOutcome) : M unit :=
  async (try_catch
    (response ← fetchData_resume o;
     if truthy response then
       data ← lift (js_get response "data");
       if truthy data then on_data l data else on_no_data l
     else on_no_data l)
    (on_error l)).

Definition all_loaders : list Loader :=
  [CurrentWeather; DailyWeather; HourlyWeather; CurrentAirQuality;
   HourlyAirQuality; CurrentMarine; DailyMarine; HourlyMarine;
   DailySatellite; ClimateProjection].

(** [refreshAllCharts()]: the button starts rotating, the ten loaders are
    called one after the other (each returns at its first await), and a
    one-second timeout is set that stops the rotation. *)
Definition refreshAllCharts : M unit :=
  modify (set_refreshBtn (fmap (fun _ => true)) id) ;;
  mapM load_begin all_loaders ;;
  modify (set_refreshBtn id S).

(** The callback of that timeout. *)
Definition rotation_timeout : M unit :=
  modify (set_refreshBtn (fmap (fun _ => false)) Nat.pred).

(** [handleLocationChange()], given [select.value]. *)
Definition handleLocationChange (value : string) : M unit :=
  match parseInt (Some value) with
  | None => mret tt
  | Some selectedId =>
      if selectedId =? 0 then mret tt
      else modify (set_activeLocationId (Some selectedId)) ;; refreshAllCharts
  end.

(** ** The event loop *)

(** What the browser can deliver to the page once it is initialised: a click
    on the refresh button or an interval tick (both call
    [refreshAllCharts]), a change of the location selector, a fetch that
    settles, the timeout of a refresh. *)
Inductive Event : Type :=
| RefreshTrigger
| LocationChange (value : string)
| Settle (i : nat) (o : FetchOutcome)
| RotationTimeout.

Definition handle (e : Event) : M unit :=
  match e with
  | RefreshTrigger => refreshAllCharts
  | LocationChange value => handleLocationChange value
  | Settle i o =>
      fun p =>
        match inflight p !! i with
        | None => (p, Ok tt)
        | Some pending =>
            load_resume (awaiting pending) o (set_inflight (delete i) p)
        end
  | RotationTimeout =>
      fun p => if decide (timeouts p = 0%nat) then (p, Ok tt) else rotation_timeout p
  end.

(** An exception that escapes a handler is reported and the loop goes on. *)
Definition dispatch (p : Page) (e : Event) : Page :=
  match handle e p with
  | (p', Ok _) => p'
  | (p', Throw m) => report_uncaught m p'
  end.

(** A run: the events are handled in order. *)
Definition run (events : list Event) (p : Page) : Page :=
  foldl dispatch p events.

(** ** Domains *)

(** The five forecast domains, and the domain each loader and each card
    container of the dashboard belongs to. *)
Inductive Domain : Type :=
| Weather | AirQuality | Marine | Satellite | Climate.

Definition domain (l : Loader) : Domain :=
  match l with
  | CurrentWeather | DailyWeather | HourlyWeather => Weather
  | CurrentAirQuality | HourlyAirQuality => AirQuality
  | CurrentMarine | DailyMarine | HourlyMarine => Marine
  | DailySatellite => Satellite
  | ClimateProjection => Climate
  end.

Definition container_domain (id : string) : option Domain :=
  if String.eqb id "currentWeatherCards" then Some Weather
  else if String.eqb id "currentAirQualityCards" then Some AirQuality
  else if String.eqb id "currentMarineCards" then Some Marine
  else if String.eqb id "climateModelInfo" then Some Climate
  else None.


(** The loaders that fill a card container (the others only update
    charts). *)
Definition fills_cards (l : Loader) : bool :=
  match l with
  | CurrentWeather | CurrentAirQuality | CurrentMarine | ClimateProjection => true
  | _ => false
  end.

(** A daily record that carries a [valid_date] string. *)
Definition well_dated (day : JsVal) : Prop :=
  exists s, js_get day "valid_date" = Ok (JStr s).

(** The envelope [{success: true, data: ...}] of a successful response. *)
Definition success_body (data : JsVal) : Body :=
  Json (JObj [("success", JBool true); ("data", data)]).

(** [stable d p p']: from [p] to [p'] no chart changed, nothing escaped, and
    the only containers written belong to domain [d]. *)
Definition stable (d : Domain) (p p' : Page) : Prop :=
  charts p' = charts p /\ uncaught p' = uncaught p /\
  forall id, container_domain id <> Some d -> containers p' !! id = containers p !! id.

(** ** The location selector (dashboard script) *)

(** An entry of [availableLocations], and an [option] element of the
    selector: its value, its text, and whether the script set
    [option.selected = true] on it. *)
Record Location : Type := {
  loc_location_id : Z;
  loc_name : string
}.

Record SelectOption : Type := {
  option_value : string;
  option_text : string;
  option_selected : bool
}.

(** The callback of [userLocations.forEach] in [populateLocationSelector],
    on the options appended so far and [activeLocationId]: an entry whose
    location is not among [availableLocations] is skipped; a primary entry is
    marked selected and becomes the active location. [custom_name] gives the
    [custom_name] field of an entry. *)
Definition add_location_option (availableLocations : list Location)
    (custom_name : UserLocation -> string)
    (acc : list SelectOption * option Z) (userLoc : UserLocation)
    : list SelectOption * option Z :=
  match find (fun loc => loc_location_id loc =? location_id userLoc) availableLocations with
  | None => acc
  | Some location =>
      let opt :=
        {| option_value := dec (user_location_id userLoc);
           option_text := custom_name userLoc ++ " (" ++ loc_name location ++ ")";
           option_selected := is_primary userLoc |} in
      ((acc.1 ++ [opt])%list,
       if is_primary userLoc then Some (user_location_id userLoc) else acc.2)
  end.

(** [populateLocationSelector()]. [select] holds the options of the
    selector, or is [None] when the page has no such element; the function
    returns the options the selector holds afterwards. *)
Definition populateLocationSelector (select : option (list SelectOption))
    (availableLocations : list Location) (custom_name : UserLocation -> string)
    : Page -> Page * option (list SelectOption) :=
  fun p =>
    match select with
    | None => (p, None)
    | Some _ =>
        match userLocations p with
        | [] =>
            (p, Some [{| option_value := "";
                         option_text := "No locations added yet";
                         option_selected := false |}])
        | _ =>
            let result :=
              foldl (add_location_option availableLocations custom_name)
                    ([], activeLocationId p) (userLocations p) in
            (set_activeLocationId result.2 p, Some result.1)
        end
    end.

(** The user locations that get an option, and among them the primary
    ones. *)
Definition listed (availableLocations : list Location) (userLoc : UserLocation) : bool :=
  match find (fun loc => loc_location_id loc =? location_id userLoc) availableLocations with
  | Some _ => true
  | None => false
  end.

Definition listed_primary (availableLocations : list Location) (userLoc : UserLocation)
    : bool :=
  listed availableLocations userLoc && is_primary userLoc.

(** ** The general request helper [apiRequest] (apps/web/js/auth.js) *)

(** The object [apiRequest] throws; [err_fullError] is [JUndefined] where
    the thrown object has no such field. *)
Record ApiError : Type := {
  err_status : Z;
  err_message : JsVal;
  err_errors : JsVal;
  err_fullError : JsVal
}.

(** What reaches the [catch] block of [apiRequest]: an [Error] of the
    engine (it has no [status]), or an object its [try] block threw. *)
Inductive Caught : Type :=
| ErrorObject (m : Message)
| Thrown (e : ApiError).

(** How the promise of [apiRequest] settles. *)
Inductive Settled : Type :=
| Fulfilled (data : JsVal)
| Rejected (e : ApiError).

Definition network_error : ApiError :=
  {| err_status := 0;
     err_message := JStr "Network error. Please check your connection.";
     err_errors := JNull;
     err_fullError := JUndefined |}.

(** The object thrown for a response that is not ok. *)
Definition error_of_response (status : Z) (data : JsVal) : Result ApiError :=
  detail ← js_get data "detail";
  message ← js_get data "message";
  errors ← js_get data "errors";
  validation_errors ← js_get data "validation_errors";
  Ok {| err_status := status;
        err_message := js_or detail (js_or message (JStr "An error occurred"));
        err_errors := js_or errors (js_or validation_errors JNull);
        err_fullError := data |}.

(** The [try] block of [apiRequest] from the point where its [fetch]
    settles. *)
Definition apiRequest_try (o : FetchOutcome) : Caught + JsVal :=
  match o with
  | NoResponse => inl (ErrorObject (EngineText FetchFailed))
  | Response status statusText NotJson =>
      inl (Thrown {| err_status := status;
                     err_message := JStr "Invalid response from server";
                     err_errors := JNull;
                     err_fullError := JUndefined |})
  | Response status statusText (Json data) =>
      if negb (response_ok status) then
        match error_of_response status data with
        | Ok e => inl (Thrown e)
        | Throw m => inl (ErrorObject m)
        end
      else inr data
  end.

(** Its [catch] block: [if (!error.status) throw {status: 0, ...}; throw
    error]. *)
Definition apiRequest_catch (error : Caught) : ApiError :=
  match error with
  | ErrorObject _ => network_error
  | Thrown e => if err_status e =? 0 then network_error else e
  end.

(** [apiRequest] from the point where its [fetch] settles. *)
Definition apiRequest_resume (o : FetchOutcome) : Settled :=
  match apiRequest_try o with
  | inr data => Fulfilled data
  | inl error => Rejected (apiRequest_catch error)
  end.

(** ** Token storage (apps/web/js/auth.js) *)

(** [localStorage] is a map from keys to strings. A token as the callers
    pass it is a string of the response, or [undefined] or [null] where the
    response has none; [setItem] stores the text of its argument. *)
Inductive TokenArg : Type :=
| TokenString (s : string)
| TokenUndefined
| TokenNull.

Definition token_text (a : TokenArg) : string :=
  match a with
  | TokenString s => s
  | TokenUndefined => "undefined"
  | TokenNull => "null"
  end.

Definition token_truthy (a : TokenArg) : bool :=
  match a with
  | TokenString s => negb (String.eqb s "")
  | TokenUndefined | TokenNull => false
  end.

Definition storeTokens (accessToken refreshToken : TokenArg) (st : gmap string string)
    : gmap string string :=
  let st1 := <["access_token" := token_text accessToken]> st in
  if token_truthy refreshToken
  then <["refresh_token" := token_text refreshToken]> st1
  else st1.

Definition storeToken (token : TokenArg) (st : gmap string string)
    : gmap string string :=
  <["access_token" := token_text token]> st.

Definition getToken (st : gmap string string) : option string := st !! "access_token".

Definition getAuthToken (st : gmap string string) : option string := getToken st.

(** [!!getToken()] *)
Definition isAuthenticated (st : gmap string string) : bool :=
  match getToken st with
  | Some token => negb (String.eqb token "")
  | None => false
  end.

Definition clearAuthData (st : gmap string string) : gmap string string :=
  delete "remember_me" (delete "user" (delete "refresh_token" (delete "access_token" st))).

(** [logoutUser()]: the storage it leaves and the new [location.href]. *)
Definition logoutUser (st : gmap string string) : gmap string string * string :=
  (delete "user" (delete "refresh_token" (delete "access_token" st)), "/login.html").

(** ** Password checks (apps/web/js/auth.js) *)

Definition code_between (lo hi : nat) (c : ascii) : bool :=
  (lo <=? nat_of_ascii c)%nat && (nat_of_ascii c <=? hi)%nat.

(** The character classes [[A-Z]], [[a-z]], [[0-9]] and the class of the
    special characters (the character of code 34 is the double quote). *)
Definition is_upper (c : ascii) : bool := code_between 65 90 c.
Definition is_lower (c : ascii) : bool := code_between 97 122 c.
Definition is_digit (c : ascii) : bool := code_between 48 57 c.
Definition is_special (c : ascii) : bool :=
  existsb (Ascii.eqb c)
    ["!"; "@"; "#"; "$"; "%"; "^"; "&"; "*"; "("; ")"; ","; "."; "?";
     ascii_of_nat 34; ":"; "{"; "}"; "|"; "<"; ">"]%char.

(** [/[class]/.test(s)]: some character of [s] is in the class. A password
    is the string of its code units; for the characters of the four
    classes, which are all ASCII, these are its characters. *)
Fixpoint has_char (class : ascii -> bool) (s : string) : bool :=
  match s with
  | EmptyString => false
  | String c rest => class c || has_char class rest
  end.

Record PasswordChecks : Type := {
  length_ok : bool;
  hasUpperCase : bool;
  hasLowerCase : bool;
  hasNumber : bool;
  hasSpecialChar : bool
}.

Definition validatePassword (password : string) : PasswordChecks :=
  {| length_ok := (8 <=? String.length password)%nat;
     hasUpperCase := has_char is_upper password;
     hasLowerCase := has_char is_lower password;
     hasNumber := has_char is_digit password;
     hasSpecialChar := has_char is_special password |}.

Definition password_score (checks : PasswordChecks) : nat :=
  ((if length_ok checks then 1 else 0)
   + (if hasUpperCase checks then 1 else 0)
   + (if hasLowerCase checks then 1 else 0)
   + (if hasNumber checks then 1 else 0)
   + (if hasSpecialChar checks then 1 else 0))%nat.

Definition getPasswordStrength (password : string) : string :=
  let score := password_score (validatePassword password) in
  if (score <=? 2)%nat then "weak"
  else if (score <=? 4)%nat then "medium"
  else "strong".

(** The three strengths in order. *)
Definition strength_rank (strength : string) : nat :=
  if String.eqb strength "weak" then 0
  else if String.eqb strength "medium" then 1
  else 2.

(** ** Compass points (weather-charts script, dashboard script) *)

Definition compass_points : list string :=
  ["N"; "NNE"; "NE"; "ENE"; "E"; "ESE"; "SE"; "SSE";
   "S"; "SSW"; "SW"; "WSW"; "W"; "WNW"; "NW"; "NNW"].

(** [Math.round(degrees / 22.5)] for a whole number of degrees.
    [Math.round] is the floor of its argument plus one half; the exact
    quotient is at least 1/90 away from every half-integer, so for a
    direction of ordinary magnitude the rounding of the floating-point
    division does not change the result. *)
Definition round_to_sector (degrees : Z) : Z := (4 * degrees + 45) / 90.

(** [getWindDirection(degrees)] and [getCompassDirection(degrees)]: the
    remainder keeps the sign of the rounded quotient, and a negative index
    reads [undefined] ([None]). *)
Definition getWindDirection (degrees : Z) : option string :=
  let index := Z.rem (round_to_sector degrees) 16 in
  if index <? 0 then None else compass_points !! Z.to_nat index.

Definition getCompassDirection (degrees : Z) : option string :=
  getWindDirection degrees.

(** ** Weekly sampling of the climate projection (weather-charts script) *)

(** [array.filter((_, index) => keep(index))], the first element having
    index [from]. *)
Fixpoint filter_by_index {A} (keep : nat -> bool) (from : nat) (l : list A) : list A :=
  match l with
  | [] => []
  | x :: rest =>
      if keep from then x :: filter_by_index keep (S from) rest
      else filter_by_index keep (S from) rest
  end.

(** [apiData.daily_data.filter((_, index) => index % 7 === 0)] *)
Definition sampledData (daily_data : list JsVal) : list JsVal :=
  filter_by_index (fun index => (index mod 7 =? 0)%nat) 0 daily_data.

(** ** Charts as they are created *)

#[global] Instance ChartVar_eq_dec : EqDecision ChartVar.
Proof. solve_decision. Defined.

(** [chart.data] of a chart that was just created with [n] datasets. *)
Definition empty_chart (n : nat) : Chart :=
  {| labels := [];
     datasets := replicate n {| ds_data := JArr []; ds_directions := JUndefined |} |}.

(** ** Doubled slashes *)

Definition two_slashes_ahead (s : string) : bool :=
  match s with
  | String a (String b _) => Ascii.eqb a "/" && Ascii.eqb b "/"
  | _ => false
  end.

(** Some character other than a colon is followed by two slashes. *)
Fixpoint has_doubled_slash (s : string) : bool :=
  match s with
  | EmptyString => false
  | String c rest =>
      (negb (Ascii.eqb c ":") && two_slashes_ahead rest) || has_doubled_slash rest
  end.



(** ** What a handler leaves in place *)

(** The number of datasets of every chart variable that holds a chart. *)
Definition dataset_counts (p : Page) : gmap string nat :=
  (fun ch => length (datasets ch)) <$> charts p.

(** The token is as it was, or gone. *)
Definition kept_or_removed (before after : option string) : Prop :=
  after = before \/ after = None.

(** [settled p p']: what the resumption of a loader can do to the page. It
    may write containers and the data of existing charts, and expire the
    session; the rest is as it was. *)
Record settled (p p' : Page) : Prop := {
  settled_activeLocationId : activeLocationId p' = activeLocationId p;
  settled_userLocations : userLocations p' = userLocations p;
  settled_canvases : canvases p' = canvases p;
  settled_refreshBtn : refreshBtn p' = refreshBtn p;
  settled_inflight : inflight p' = inflight p;
  settled_timeouts : timeouts p' = timeouts p;
  settled_uncaught : uncaught p' = uncaught p;
  settled_dataset_counts : dataset_counts p' = dataset_counts p;
  settled_access_token : kept_or_removed (access_token p) (access_token p');
  settled_refresh_token : kept_or_removed (refresh_token p) (refresh_token p')
}.

(** [launched p p']: what the loaders do to the page up to their first
    await. They may hand requests to [fetch] (none without a token) and show
    an error in a container; the rest is as it was. *)
Record launched (p p' : Page) : Prop := {
  launched_activeLocationId : activeLocationId p' = activeLocationId p;
  launched_userLocations : userLocations p' = userLocations p;
  launched_access_token : access_token p' = access_token p;
  launched_refresh_token : refresh_token p' = refresh_token p;
  launched_location_href : location_href p' = location_href p;
  launched_canvases : canvases p' = canvases p;
  launched_refreshBtn : refreshBtn p' = refreshBtn p;
  launched_charts : charts p' = charts p;
  launched_timeouts : timeouts p' = timeouts p;
  launched_uncaught : uncaught p' = uncaught p;
  launched_inflight :
    exists added, inflight p' = (inflight p ++ added)%list /\
                  (access_token p = None -> added = [])
}.

(** [evolved p p']: what any event can do to the page, whatever else it
    does. *)
Record evolved (p p' : Page) : Prop := {
  evolved_userLocations : userLocations p' = userLocations p;
  evolved_canvases : canvases p' = canvases p;
  evolved_uncaught : uncaught p' = uncaught p;
  evolved_dataset_counts : dataset_counts p' = dataset_counts p;
  evolved_access_token : kept_or_removed (access_token p) (access_token p');
  evolved_refresh_token : kept_or_removed (refresh_token p) (refresh_token p')
}.

(** A computation that only does what [settled] allows, and one that never
    throws. *)
Definition quiet {A} (c : M A) : Prop := forall p, settled p (c p).1.
Definition returns {A} (c : M A) : Prop := forall p, exists a, (c p).2 = Ok a.

(** ** A page to evaluate on *)

(** The dashboard of a user with two saved locations (7, the primary one,
    bound to backend location 3, and 8, bound to 4), logged in, with every
    container and canvas in place, before and after
    [initializeWeatherCharts]. *)
Definition example_page : Page :=
  {| activeLocationId := Some 7;
     userLocations :=
       [{| user_location_id := 7; location_id := 3; is_primary := true |};
        {| user_location_id := 8; location_id := 4; is_primary := false |}];
     access_token := Some "token";
     refresh_token := Some "refresh";
     location_href := "/dashboard.html";
     containers :=
       list_to_map
         [("currentWeatherCards", InitialMarkup);
          ("currentAirQualityCards", InitialMarkup);
          ("currentMarineCards", InitialMarkup);
          ("climateModelInfo", InitialMarkup)];
     canvases := list_to_set (map canvas_id created_charts);
     refreshBtn := Some false;
     charts := ∅;
     inflight := [];
     timeouts := 0;
     uncaught := [] |}.

Definition ready_page : Page := (initializeWeatherCharts example_page).1.

(** The same page with ten fetches in flight, and the page of a user whose
    token is gone. *)
Definition refreshed_page : Page := (refreshAllCharts ready_page).1.

Definition logged_out_page : Page :=
  {| activeLocationId := Some 7;
     userLocations := userLocations example_page;
     access_token := None;
     refresh_token := None;
     location_href := "/dashboard.html";
     containers := containers example_page;
     canvases := canvases example_page;
     refreshBtn := Some false;
     charts := ∅;
     inflight := [];
     timeouts := 0;
     uncaught := [] |}.

(** Stand-ins for the functions the model leaves open, to run examples:
    transformers that plot nothing, card builders that never throw. *)
Definition plain_series : ChartVar -> JsVal -> Result Series :=
  fun _ _ => Ok {| s_labels := []; s_datasets := [] |}.
Definition plain_cards : string -> JsVal -> option Message :=
  fun _ _ => None.

(** Daily weather records for the examples. *)
Definition nov12 : JsVal :=
  JObj [("valid_date", JStr "2025-11-12");
        ("temperature_2m_max", JNum (214 # 10));
        ("temperature_2m_min", JNum (110 # 10))].
Definition nov13_no_readings : JsVal :=
  JObj [("valid_date", JStr "2025-11-13")].
Definition jul01 : JsVal :=
  JObj [("valid_date", JStr "2025-07-01");
        ("temperature_2m_max", JNum (305 # 10));
        ("temperature_2m_min", JNum (198 # 10))].

(** Requests of the first refresh of the example page, and charts as the
    example responses leave them. *)
Definition pending_for (l : Loader) (url : string) : Pending :=
  {| awaiting := l;
     request := {| req_url := url; req_method := "GET";
                   req_authorization := "Bearer token";
                   req_content_type := "application/json" |} |}.

Definition temperature_chart (label : string) (tmax tmin : Q) : Chart :=
  {| labels := [label];
     datasets := [{| ds_data := JArr [JNum tmax]; ds_directions := JUndefined |};
                  {| ds_data := JArr [JNum tmin]; ds_directions := JUndefined |}] |}.

Definition empty_temperature_chart : Chart :=
  {| labels := [];
     datasets := [{| ds_data := JArr []; ds_directions := JUndefined |};
                  {| ds_data := JArr []; ds_directions := JUndefined |}] |}.

(** Responses for the examples. *)
Definition ok_with (data : JsVal) : FetchOutcome :=
  Response 200 "OK" (success_body data).
Definition unavailable_503 : FetchOutcome :=
  Response 503 "Service Unavailable"
    (Json (JObj [("detail", JStr "service unavailable")])).

(** More to evaluate on: a record without a date, one whose date does
    not parse and one of a day at 0 degrees, two available locations, a name for every saved location,
    and the example page with no location selected. *)
Definition undated_record : JsVal :=
  JObj [("temperature_2m_max", JNum (214 # 10))].
Definition misdated_record : JsVal :=
  JObj [("valid_date", JStr "soon")].

Definition freezing_day : JsVal :=
  JObj [("valid_date", JStr "2025-01-15");
        ("temperature_2m_max", JNum 0);
        ("temperature_2m_min", JNum (-(51 # 10)))].

Definition lisbon : Location := {| loc_location_id := 4; loc_name := "Lisbon" |}.
Definition saved_name (userLoc : UserLocation) : string :=
  if is_primary userLoc then "Home" else "Office".

Definition unselected_page : Page := set_activeLocationId None ready_page.


(** ** Properties *)

(** *** Unfolding the monad *)

Ltac unfold_M :=
  unfold mbind, M_bind, mbind', mret, M_ret, mret, throw, lift, modify,
    try_catch, async in *.

(** Evaluation of the month tables at a given month. *)
Ltac eval_month_tables :=
  repeat match goal with
  | H : context [month_start (?a - 1)] |- _ =>
      let v := eval vm_compute in (month_start (a - 1)) in
      change (month_start (a - 1)) with v in H
  | H : context [2 <=? ?a - 1] |- _ =>
      let v := eval vm_compute in (2 <=? a - 1) in
      change (2 <=? a - 1) with v in H
  | H : context [days_in_month ?y ?a] |- _ => unfold days_in_month in H
  end;
  cbv beta iota in *.

(** *** Dates *)

Lemma DayFromYear_step4 (y : Z) :
  (y + 1 - 1969) / 4 = (y - 1969) / 4 + (if y mod 4 =? 0 then 1 else 0).
Proof. destruct (Z.eqb_spec (y mod 4) 0); Z.div_mod_to_equations; lia. Qed.

Lemma DayFromYear_step100 (y : Z) :
  (y + 1 - 1901) / 100 = (y - 1901) / 100 + (if y mod 100 =? 0 then 1 else 0).
Proof. destruct (Z.eqb_spec (y mod 100) 0); Z.div_mod_to_equations; lia. Qed.

Lemma DayFromYear_step400 (y : Z) :
  (y + 1 - 1601) / 400 = (y - 1601) / 400 + (if y mod 400 =? 0 then 1 else 0).
Proof. destruct (Z.eqb_spec (y mod 400) 0); Z.div_mod_to_equations; lia. Qed.

Lemma mod_100_4 (y : Z) : y mod 100 = 0 -> y mod 4 = 0.
Proof. intros. Z.div_mod_to_equations. lia. Qed.

Lemma mod_400_100 (y : Z) : y mod 400 = 0 -> y mod 100 = 0.
Proof. intros. Z.div_mod_to_equations. lia. Qed.

(** A year has 365 days, or 366 when it is a leap year. *)
Lemma DayFromYear_succ (y : Z) :
  DayFromYear (y + 1) = DayFromYear y + (if InLeapYear y then 366 else 365).
Proof.
  unfold DayFromYear, InLeapYear.
  rewrite DayFromYear_step4, DayFromYear_step100, DayFromYear_step400.
  pose proof (mod_100_4 y). pose proof (mod_400_100 y).
  destruct (Z.eqb_spec (y mod 4) 0), (Z.eqb_spec (y mod 100) 0), (Z.eqb_spec (y mod 400) 0);
    cbn [andb orb negb]; lia.
Qed.

(** The quotient by the mean length of a year is the year, or next to it. *)
Lemma year_estimate (y day : Z) :
  DayFromYear y <= day < DayFromYear (y + 1) ->
  y - 1 <= 1970 + (400 * day) / 146097 <= y + 1.
Proof.
  intros H. rewrite DayFromYear_succ in H.
  assert (DayFromYear y <= day < DayFromYear y + 366) by (destruct (InLeapYear y); lia).
  clear H. unfold DayFromYear in *.
  Z.div_mod_to_equations; lia.
Qed.

(** [YearFromDay] finds the year a day lies in. *)
Lemma YearFromDay_spec (y day : Z) :
  DayFromYear y <= day < DayFromYear (y + 1) -> YearFromDay day = y.
Proof.
  intros H. pose proof (year_estimate y day H) as Hest.
  unfold YearFromDay.
  set (y0 := 1970 + 400 * day / 146097) in *. clearbody y0.
  assert (Hcases : y0 = y - 1 \/ y0 = y \/ y0 = y + 1) by lia.
  pose proof (DayFromYear_succ (y - 1)) as Hprev.
  replace (y - 1 + 1) with y in Hprev by lia.
  pose proof (DayFromYear_succ (y + 1)) as Hnext.
  assert (DayFromYear (y - 1) < DayFromYear y) by (destruct (InLeapYear (y - 1)); lia).
  assert (DayFromYear (y + 1) < DayFromYear (y + 1 + 1)) by (destruct (InLeapYear (y + 1)); lia).
  destruct Hcases as [-> | [-> | ->]].
  - replace (y - 1 + 1) with y by lia.
    destruct (Z.ltb_spec day (DayFromYear (y - 1))); [lia|].
    destruct (Z.leb_spec (DayFromYear y) day); lia.
  - destruct (Z.ltb_spec day (DayFromYear y)); [lia|].
    destruct (Z.leb_spec (DayFromYear (y + 1)) day); lia.
  - destruct (Z.ltb_spec day (DayFromYear (y + 1))); [lia|]. lia.
Qed.

(** The day within its year of a calendar date, and what it is bounded by. *)
Lemma day_within_year (y m d : Z) :
  1 <= m <= 12 -> 1 <= d <= days_in_month y m ->
  let leap := if InLeapYear y then 1 else 0 in
  let t := month_start (m - 1) + (if 2 <=? m - 1 then leap else 0) + d - 1 in
  MakeDay y (m - 1) d = DayFromYear y + t /\
  0 <= t < 365 + leap /\
  MonthDateFromDay leap t = (m, d).
Proof.
  intros Hm Hd leap t.
  assert (Hmake : MakeDay y (m - 1) d = DayFromYear y + t).
  { unfold MakeDay, t, leap.
    rewrite (Z.div_small (m - 1) 12), (Z.mod_small (m - 1) 12), Z.add_0_r by lia.
    destruct (InLeapYear y), (2 <=? m - 1); cbn [andb]; lia. }
  split; [exact Hmake|]. clear Hmake.
  assert (Hleap : leap = 0 \/ leap = 1) by (unfold leap; destruct (InLeapYear y); lia).
  assert (Hdim : days_in_month y 2 = 28 + leap)
    by (unfold days_in_month, leap; destruct (InLeapYear y); reflexivity).
  assert (Hcases : m = 1 \/ m = 2 \/ m = 3 \/ m = 4 \/ m = 5 \/ m = 6 \/
                   m = 7 \/ m = 8 \/ m = 9 \/ m = 10 \/ m = 11 \/ m = 12) by lia.
  assert (Ht : t = month_start (m - 1) + (if 2 <=? m - 1 then leap else 0) + d - 1)
    by reflexivity.
  clearbody t leap. unfold MonthDateFromDay.
  destruct Hcases as [->|[->|[->|[->|[->|[->|[->|[->|[->|[->|[->| ->]]]]]]]]]]];
    try rewrite Hdim in Hd; eval_month_tables;
    (split; [lia|]);
    repeat match goal with
           | |- context [?a <? ?b] => destruct (Z.ltb_spec a b); try lia
           end;
    f_equal; lia.
Qed.

(** The day number [Date.UTC] computes for a calendar date reads back as
    that date, in every year. *)
Lemma civil_from_MakeDay (y m d : Z) :
  1 <= m <= 12 -> 1 <= d <= days_in_month y m ->
  civil_from_days (MakeDay y (m - 1) d) = (y, m, d).
Proof.
  intros Hm Hd.
  destruct (day_within_year y m d Hm Hd) as (Hmake & Ht & Hmd).
  set (leap := if InLeapYear y then 1 else 0) in *.
  set (t := month_start (m - 1) + (if 2 <=? m - 1 then leap else 0) + d - 1) in *.
  clearbody t. rewrite Hmake. unfold civil_from_days.
  assert (Hyear : YearFromDay (DayFromYear y + t) = y).
  { apply YearFromDay_spec. rewrite DayFromYear_succ. fold leap.
    replace (if InLeapYear y then 366 else 365) with (365 + leap)
      by (unfold leap; destruct (InLeapYear y); lia).
    lia. }
  rewrite Hyear. fold leap.
  replace (DayFromYear y + t - DayFromYear y) with t by lia.
  rewrite Hmd. reflexivity.
Qed.

Lemma append_nil_r (s : string) : s ++ "" = s.
Proof. induction s as [|c s IH]; [done|]. change (String c (s ++ "") = String c s). by rewrite IH. Qed.


Lemma rev_app_append (s1 : string) :
  forall s2 a, String.rev_app s1 s2 ++ a = String.rev_app s1 (s2 ++ a).
Proof.
  induction s1 as [|c s1 IH]; intros s2 a; [done|].
  cbn [String.rev_app]. by rewrite IH.
Qed.

Lemma rev_String (c : ascii) (cur a : string) :
  String.rev (String c cur) ++ a = String.rev cur ++ String c a.
Proof.
  unfold String.rev. cbn [String.rev_app]. by rewrite !rev_app_append.
Qed.

Lemma split_from_free (sep : ascii) (a : string) :
  forall cur, free_of sep a = true -> split_from sep cur a = [String.rev cur ++ a].
Proof.
  induction a as [|c a IH]; intros cur Hfree; cbn [split_from free_of] in *.
  - by rewrite append_nil_r.
  - apply andb_prop in Hfree as [Hc Hfree].
    destruct (Ascii.eqb c sep); [done|].
    by rewrite IH, rev_String.
Qed.

Lemma split_from_sep (sep : ascii) (a rest : string) :
  forall cur,
    free_of sep a = true ->
    split_from sep cur (a ++ String sep rest)
    = (String.rev cur ++ a) :: split_from sep "" rest.
Proof.
  induction a as [|c a IH]; intros cur Hfree.
  - change ("" ++ String sep rest) with (String sep rest).
    cbn [split_from]. by rewrite Ascii.eqb_refl, append_nil_r.
  - change (String c a ++ String sep rest) with (String c (a ++ String sep rest)).
    cbn [split_from free_of] in *.
    apply andb_prop in Hfree as [Hc Hfree].
    destruct (Ascii.eqb c sep); [done|].
    by rewrite IH, rev_String.
Qed.

Lemma split_date (sy sm sd : string) :
  free_of "-" sy = true -> free_of "-" sm = true -> free_of "-" sd = true ->
  split "-" (sy ++ "-" ++ sm ++ "-" ++ sd) = [sy; sm; sd].
Proof.
  intros Hy Hm Hd. unfold split.
  change (sy ++ "-" ++ sm ++ "-" ++ sd)
    with (sy ++ String "-" (sm ++ String "-" sd)).
  rewrite (split_from_sep "-" sy) by done.
  rewrite (split_from_sep "-" sm) by done.
  rewrite (split_from_free "-" sd) by done. reflexivity.
Qed.

Lemma days_in_month_le (y m : Z) : days_in_month y m <= 31.
Proof.
  unfold days_in_month. destruct (InLeapYear y);
    repeat match goal with
           | |- context [match ?x with _ => _ end] => destruct x
           end; lia.
Qed.

Lemma MakeDay_bounds (y m d : Z) :
  100 <= y <= 9999 -> 1 <= m <= 12 -> 1 <= d <= 31 ->
  -700000 <= MakeDay y (m - 1) d <= 3000000.
Proof.
  intros Hy Hm Hd. unfold MakeDay.
  rewrite (Z.div_small (m - 1) 12), (Z.mod_small (m - 1) 12), Z.add_0_r by lia.
  assert (0 <= month_start (m - 1) <= 334).
  { assert (Hcases : m = 1 \/ m = 2 \/ m = 3 \/ m = 4 \/ m = 5 \/ m = 6 \/
                     m = 7 \/ m = 8 \/ m = 9 \/ m = 10 \/ m = 11 \/ m = 12) by lia.
    destruct Hcases as [->|[->|[->|[->|[->|[->|[->|[->|[->|[->|[->| ->]]]]]]]]]]];
      simpl; lia. }
  assert (0 <= (if InLeapYear y && (2 <=? m - 1) then 1 else 0) <= 1)
    by (destruct (InLeapYear y && (2 <=? m - 1)); lia).
  unfold DayFromYear.
  pose proof (Z.div_mod (y - 1969) 4). pose proof (Z.mod_pos_bound (y - 1969) 4).
  pose proof (Z.div_mod (y - 1901) 100). pose proof (Z.mod_pos_bound (y - 1901) 100).
  pose proof (Z.div_mod (y - 1601) 400). pose proof (Z.mod_pos_bound (y - 1601) 400).
  lia.
Qed.

Lemma date_label_eq (s : string) :
  date_label local_offset (JStr s)
  = Ok (toLocaleDateString local_offset TzUTC
          (new_Date
             (Date_UTC (parseInt (split "-" s !! 0%nat))
                (option_map (fun m => m - 1) (parseInt (split "-" s !! 1%nat)))
                (parseInt (split "-" s !! 2%nat))))).
Proof. reflexivity. Qed.

(** The label of a calendar date. For a [valid_date] of the form
    year-month-day that names a day of the calendar (years 100 to 9999), the
    label is the short name of that month and that day of the month: the
    UTC day itself, whatever the browser's time zone. *)
Lemma date_label_is_the_utc_day (sy sm sd : string) (y m d : Z) :
  free_of "-" sy = true -> free_of "-" sm = true -> free_of "-" sd = true ->
  parseInt (Some sy) = Some y ->
  parseInt (Some sm) = Some m ->
  parseInt (Some sd) = Some d ->
  100 <= y <= 9999 -> 1 <= m <= 12 -> 1 <= d <= days_in_month y m ->
  date_label local_offset (JStr (sy ++ "-" ++ sm ++ "-" ++ sd))
  = Ok (month_short m ++ " " ++ dec d).
Proof.
  intros Fy Fm Fd Py Pm Pd Hy Hm Hd.
  assert (Hd31 : 1 <= d <= 31).
  { pose proof (days_in_month_le y m). lia. }
  pose proof (MakeDay_bounds y m d Hy Hm Hd31) as Hb.
  rewrite date_label_eq, split_date by done.
  change ([sy; sm; sd] !! 0%nat) with (Some sy).
  change ([sy; sm; sd] !! 1%nat) with (Some sm).
  change ([sy; sm; sd] !! 2%nat) with (Some sd).
  rewrite Py, Pm, Pd. cbn [option_map]. unfold Date_UTC.
  replace ((0 <=? y) && (y <=? 99)) with false by lia.
  assert (Hclip : TimeClip (MakeDay y (m - 1) d * msPerDay)
                  = Some (MakeDay y (m - 1) d * msPerDay)).
  { unfold TimeClip, msPerDay.
    replace (Z.abs (MakeDay y (m - 1) d * 86400000) <=? 8640000000000000)
      with true by lia.
    reflexivity. }
  rewrite Hclip. unfold new_Date. rewrite Hclip.
  unfold toLocaleDateString.
  rewrite Z.add_0_r, Z.div_mul by (unfold msPerDay; lia).
  by rewrite civil_from_MakeDay by done.
Qed.

(** *** Chart updates *)

(** C10. Every chart update function is a no-op while its chart variable is
    null (the chart was never created): whatever the payload, it returns
    without throwing and the page is left as it was. *)
Theorem update_without_chart_is_noop (c : ChartVar) (apiData : JsVal) (p : Page) :
  charts p !! chart_name c = None ->
  update_chart c apiData p = (p, Ok tt).
Proof.
  intros Hnull. unfold update_chart. rewrite Hnull. reflexivity.
Qed.

Lemma assign_datasets_below (sets : list (JsVal * option JsVal)) :
  forall (i : nat) (ds : list Dataset) (k : nat),
    (k < i)%nat -> (assign_datasets i sets ds).1 !! k = ds !! k.
Proof.
  induction sets as [|[d dirs] rest IH]; intros i ds k Hk; simpl; [done|].
  destruct (ds !! i) as [old|] eqn:Hi; [|done].
  rewrite IH by lia. apply list_lookup_insert_ne. lia.
Qed.

Lemma assign_datasets_again (sets : list (JsVal * option JsVal)) :
  forall (i : nat) (ds : list Dataset),
    assign_datasets i sets (assign_datasets i sets ds).1 = assign_datasets i sets ds.
Proof.
  induction sets as [|[d dirs] rest IH]; intros i ds; simpl; [done|].
  destruct (ds !! i) as [old|] eqn:Hi; simpl.
  - set (new := {| ds_data := d; ds_directions := default (ds_directions old) dirs |}).
    assert (Hnew : (assign_datasets (S i) rest (<[i:=new]> ds)).1 !! i = Some new).
    { rewrite assign_datasets_below by lia.
      apply list_lookup_insert_eq. by eapply lookup_lt_Some. }
    rewrite Hnew. simpl.
    replace (default (default (ds_directions old) dirs) dirs)
      with (default (ds_directions old) dirs) by (by destruct dirs).
    fold new. rewrite (list_insert_id _ _ _ Hnew). apply IH.
  - rewrite Hi. reflexivity.
Qed.

Lemma assign_series_again (s : Series) (ch : Chart) :
  assign_series s (assign_series s ch).1 = assign_series s ch.
Proof.
  unfold assign_series.
  pose proof (assign_datasets_again (s_datasets s) 0 (datasets ch)) as H.
  destruct (assign_datasets 0 (s_datasets s) (datasets ch)) as [ds r] eqn:E.
  simpl in *. rewrite H. reflexivity.
Qed.

(** C9. Replacing a chart's data is idempotent: calling an update function
    a second time with the same payload gives the page the first call left,
    with the same outcome, so the labels and values shown are the same. *)
Theorem update_chart_idempotent (c : ChartVar) (apiData : JsVal) (p : Page) :
  update_chart c apiData (update_chart c apiData p).1 = update_chart c apiData p.
Proof.
  unfold update_chart.
  destruct (charts p !! chart_name c) as [ch|] eqn:Hch; simpl; [|by rewrite Hch].
  destruct (nothing_to_plot (payload_shape c) apiData) as [[|]|m] eqn:Hguard;
    simpl; rewrite ?Hch, ?Hguard; try reflexivity.
  destruct (parameter_missing c apiData) as [[|]|m] eqn:Hthird;
    simpl; rewrite ?Hch, ?Hguard, ?Hthird; try reflexivity.
  destruct (series_of c apiData) as [s|m] eqn:Hs; simpl;
    rewrite ?Hch, ?Hguard, ?Hthird, ?Hs; try reflexivity.
  pose proof (assign_series_again s ch) as Hagain.
  destruct (assign_series s ch) as [ch' r] eqn:Hassign. simpl in *.
  rewrite lookup_insert_eq, Hagain.
  unfold set_charts; simpl. by rewrite insert_insert_eq.
Qed.

(** *** The API client *)

(** C6. Without a stored token every fetch method of the client fails at
    once with the error "No authentication token found", and nothing is
    handed to [fetch]: the page, with its list of requests in flight, is
    unchanged. *)
Theorem fetch_without_token_fails_before_request
    (l : Loader) (locationId : Z) (p : Page) :
  access_token p = None ->
  call_client l locationId p = (p, Throw (Text "No authentication token found")).
Proof.
  intros Htok.
  destruct l; simpl;
    unfold fetchCurrentData, fetchDailyForecast, fetchHourlyData,
      fetchAirQualityCurrentData, fetchAirQualityHourlyData,
      fetchMarineCurrentData, fetchMarineDailyData, fetchMarineHourlyData,
      fetchSatelliteDailyData, fetchClimateProjection, fetchData;
    rewrite Htok; reflexivity.
Qed.

(** C7 (the code at the failing input). The climate method binds the
    location id only: whatever model and date range a call passes, the
    request is the one issued without them; on the example page the call the
    climate loader makes goes out to [/climate/projection/5] as a plain GET,
    with neither the model nor the dates in it. *)
Theorem fetchClimateProjection_ignores_model_and_dates :
  (forall (who : Loader) (locationId : Z) (more : list JsVal) (p : Page),
     fetchClimateProjection who locationId more p
     = fetchClimateProjection who locationId [] p)
  /\ fetchClimateProjection ClimateProjection 5
       [JStr "EC_Earth3P_HR"; JStr "2022-01-01"; JStr "2026-12-31"] example_page
     = (set_inflight
          (fun _ =>
             [{| awaiting := ClimateProjection;
                 request := {| req_url := "http://localhost:8000/climate/projection/5";
                               req_method := "GET";
                               req_authorization := "Bearer token";
                               req_content_type := "application/json" |} |}])
          example_page, Ok tt).
Proof.
  split; [reflexivity|]. reflexivity.
Qed.

(** *** What a handler may touch *)

Lemma stable_refl d p : stable d p p.
Proof. by repeat split. Qed.

Lemma show_error_stable (container : string) (m : Message) (d : Domain) (p : Page) :
  container_domain container = Some d ->
  exists p', show_error container m p = (p', Ok tt) /\ stable d p p'.
Proof.
  intros Hd. unfold show_error.
  destruct (containers p !! container) eqn:Hc.
  - eexists; split; [reflexivity|]. repeat split; simpl; try reflexivity.
    intros id Hid. apply lookup_insert_ne. congruence.
  - eexists; split; [reflexivity|]. apply stable_refl.
Qed.


Lemma on_no_data_stable (l : Loader) (p : Page) :
  exists p', on_no_data l p = (p', Ok tt) /\ stable (domain l) p p'.
Proof.
  destruct l; simpl;
    try (by apply show_error_stable);
    (eexists; split; [reflexivity|apply stable_refl]).
Qed.

(** Where a fetch leaves the page: as it was, unless the session expired. *)
Lemma fetchData_resume_page (o : FetchOutcome) (p : Page) :
  (fetchData_resume o p).1 = p \/
  fetchData_resume o p = (expire_session p, Throw (Text "Authentication failed")).
Proof.
  destruct o as [|status statusText body]; simpl; [by left|].
  destruct (response_ok status); simpl.
  - destruct body as [v|]; [|by left]. unfold_M.
    destruct (js_get v "success") as [sv|]; simpl; [|by left].
    destruct (truthy sv); simpl; [by left|].
    destruct (js_get v "detail"); by left.
  - destruct (status =? 401); [by right|]. unfold_M.
    destruct (js_get _ "detail"); by left.
Qed.







(** *** Triggers *)

Lemma load_begin_issues (l : Loader) (p : Page) (userLoc : UserLocation) (token : string) :
  no_active_location (activeLocationId p) = false ->
  find_userLoc p = Some userLoc ->
  access_token p = Some token ->
  token <> "" ->
  exists req,
    load_begin l p
    = (set_inflight (fun q => (q ++ [{| awaiting := l; request := req |}])%list) p, Ok tt).
Proof.
  intros Hactive Hfind Htok Hne.
  unfold load_begin, async, try_catch. rewrite Hactive, Hfind.
  assert (Htruthy : negb (truthy (JStr token)) = false).
  { simpl. destruct (String.eqb_spec token ""); [done|reflexivity]. }
  destruct l; simpl;
    unfold fetchCurrentData, fetchDailyForecast, fetchHourlyData,
      fetchAirQualityCurrentData, fetchAirQualityHourlyData,
      fetchMarineCurrentData, fetchMarineDailyData, fetchMarineHourlyData,
      fetchSatelliteDailyData, fetchClimateProjection, fetchData;
    rewrite Htok; simpl default; rewrite Htruthy; eexists; reflexivity.
Qed.

Lemma mapM_load_begin_issues (userLoc : UserLocation) (token : string) (ls : list Loader) :
  token <> "" ->
  forall p : Page,
    no_active_location (activeLocationId p) = false ->
    find_userLoc p = Some userLoc ->
    access_token p = Some token ->
    exists added us,
      mapM load_begin ls p
      = (set_inflight (fun q => (q ++ added)%list) p, Ok us) /\
      map awaiting added = ls.
Proof.
  intros Hne. induction ls as [|l ls IH]; intros p Hactive Hfind Htok.
  - exists [], []. split; [|done]. simpl. unfold_M.
    destruct p; unfold set_inflight; simpl. by rewrite app_nil_r.
  - destruct (load_begin_issues l p userLoc token Hactive Hfind Htok Hne) as [req E].
    destruct (IH (set_inflight (fun q => (q ++ [{| awaiting := l; request := req |}])%list) p)
                Hactive Hfind Htok) as (added & us & E' & Hadded).
    exists ({| awaiting := l; request := req |} :: added), (tt :: us).
    split; [|by rewrite <- Hadded].
    simpl. unfold_M. rewrite E, E'.
    unfold set_inflight; simpl. by rewrite <- app_assoc.
Qed.

(** C2 (amended). [refreshAllCharts] keeps no Idle/Refreshing state and
    coalesces nothing: with an active location that resolves and a stored
    token, every invocation hands ten new requests to [fetch], one per
    loader, whatever is still in flight from earlier invocations. *)
Theorem refreshAllCharts_always_launches
    (p : Page) (userLoc : UserLocation) (token : string) :
  no_active_location (activeLocationId p) = false ->
  find_userLoc p = Some userLoc ->
  access_token p = Some token ->
  token <> "" ->
  exists added,
    inflight (refreshAllCharts p).1 = (inflight p ++ added)%list /\
    map awaiting added = all_loaders /\
    (refreshAllCharts p).2 = Ok tt.
Proof.
  intros Hactive Hfind Htok Hne.
  destruct (mapM_load_begin_issues userLoc token all_loaders Hne
              (set_refreshBtn (fmap (fun _ : bool => true)) id p)
              Hactive Hfind Htok) as (added & us & E & Hadded).
  unfold refreshAllCharts. unfold_M. rewrite E. exists added. simpl. done.
Qed.

(** *** Empty payloads *)

Lemma update_chart_empty (c : ChartVar) (p : Page) :
  update_chart c (JArr []) p = (p, Ok tt).
Proof.
  unfold update_chart. destruct (charts p !! chart_name c); [|done].
  by destruct c.
Qed.

Lemma update_cards_stable (container : string) (data : JsVal) (d : Domain) (p : Page) :
  container_domain container = Some d ->
  stable d p (update_cards container data p).1.
Proof.
  intros Hd. unfold update_cards.
  destruct (containers p !! container); [|apply stable_refl].
  destruct (cards_fault container data); simpl;
    (repeat split; simpl; try reflexivity;
     intros id Hid; apply lookup_insert_ne; congruence).
Qed.

(** C4 (amended). A successful response whose [data] is the empty array
    changes no chart: every update function returns at its "no data" guard,
    so each widget keeps the labels and values it had (it is not emptied,
    and no placeholder is drawn). The handler returns normally and nothing
    escapes it; for the loaders that only update charts the page is left as
    it was, apart from the request that settled, so no error is shown
    either. *)
Theorem empty_data_keeps_previous_series
    (l : Loader) (status : Z) (statusText : string)
    (fields : list (string * JsVal)) (i : nat) (pending : Pending) (p : Page) :
  inflight p !! i = Some pending ->
  awaiting pending = l ->
  response_ok status = true ->
  assoc "success" fields = Some (JBool true) ->
  assoc "data" fields = Some (JArr []) ->
  exists p',
    handle (Settle i (Response status statusText (Json (JObj fields)))) p = (p', Ok tt) /\
    charts p' = charts p /\
    uncaught p' = uncaught p /\
    (fills_cards l = false -> p' = set_inflight (delete i) p).
Proof.
  intros Hi Hl Hok Hsuccess Hdata.
  unfold handle. rewrite Hi, Hl.
  set (p1 := set_inflight (delete i) p).
  unfold load_resume, async, try_catch, fetchData_resume. unfold_M.
  rewrite Hok. simpl. rewrite Hsuccess. simpl. rewrite Hdata. simpl.
  destruct l; simpl;
    unfold updateWeatherDailyChart, updateWeatherPrecipChart, updateWeatherUvChart,
      updateWeatherWindChart, updateWeatherHourlyTempChart,
      updateWeatherHourlyPrecipChart, updateWeatherHourlyWindChart,
      updateAirQualityAqiChart, updateAirQualityPollutantsChart,
      updateAirQualitySecondaryChart, updateMarineDailyWaveChart,
      updateMarineDailyPeriodChart, updateMarineHourlyWaveChart,
      updateMarineHourlyPeriodChart, updateSatelliteDailyRadiationChart,
      updateSatelliteDailyIrradianceChart, updateClimateTempTrendsChart,
      updateClimatePrecipHumidityChart, updateClimateWindRadiationChart,
      updateCurrentWeatherCards, updateCurrentAirQualityCards,
      updateCurrentMarineCards, updateClimateModelInfo,
      showCurrentWeatherError, showCurrentAirQualityError,
      showCurrentMarineError, showClimateError;
    unfold_M; rewrite ?update_chart_empty;
    try (by eexists; split; [reflexivity|]).
  all: match goal with
       | |- context [update_cards ?c ?d ?q] =>
           pose proof (update_cards_stable c d _ q eq_refl) as (Hc & Hu & _);
           destruct (update_cards c d q) as [p2 [[]|m]] eqn:E; simpl in *;
           rewrite ?update_chart_empty
       end.
  all: try (eexists; split; [reflexivity|]; by repeat split).
  all: match goal with
       | |- context [show_error ?c ?m ?q] =>
           destruct (show_error_stable c m _ q eq_refl) as (p3 & -> & (Hc' & Hu' & _))
       end.
  all: eexists; split; [reflexivity|]; repeat split; try congruence; done.
Qed.

(** *** Payloads that are applied *)

Lemma daily_records_have_no_third_guard (c : ChartVar) (apiData : JsVal) :
  payload_shape c = DailyRecords -> parameter_missing c apiData = Ok false.
Proof. intros H. unfold parameter_missing. by rewrite H. Qed.

Lemma update_chart_applies (c : ChartVar) (apiData : JsVal) (p : Page)
    (ch ch' : Chart) (s : Series) (r : Result unit) :
  charts p !! chart_name c = Some ch ->
  nothing_to_plot (payload_shape c) apiData = Ok false ->
  parameter_missing c apiData = Ok false ->
  series_of c apiData = Ok s ->
  assign_series s ch = (ch', r) ->
  update_chart c apiData p = (set_charts (insert (chart_name c) ch') p, r).
Proof.
  intros Hch Hguard Hthird Hs Hassign. unfold update_chart.
  by rewrite Hch, Hguard, Hthird, Hs, Hassign.
Qed.

Lemma update_chart_keeps (c : ChartVar) (apiData : JsVal) (p : Page)
    (k : string) (v : option Chart) :
  k <> chart_name c ->
  charts p !! k = v ->
  charts (update_chart c apiData p).1 !! k = v.
Proof.
  intros Hk Hv. unfold update_chart.
  destruct (charts p !! chart_name c) as [ch|]; [|done].
  destruct (nothing_to_plot _ _) as [[|]|]; try done.
  destruct (parameter_missing _ _) as [[|]|]; try done.
  destruct (series_of c apiData) as [s|]; [|done].
  destruct (assign_series s ch) as [ch' r]. simpl.
  by rewrite lookup_insert_ne.
Qed.

Lemma update_chart_uncaught (c : ChartVar) (apiData : JsVal) (p : Page) :
  uncaught (update_chart c apiData p).1 = uncaught p.
Proof.
  unfold update_chart.
  destruct (charts p !! chart_name c) as [ch|]; [|done].
  destruct (nothing_to_plot _ _) as [[|]|]; try done.
  destruct (parameter_missing _ _) as [[|]|]; try done.
  destruct (series_of c apiData) as [s|]; [|done].
  by destruct (assign_series s ch).
Qed.

(** Updates of other charts, in sequence, leave a chart as it is. *)
Lemma updates_keep (cs : list ChartVar) (apiData : JsVal) (k : string) (v : option Chart) :
  Forall (fun c => k <> chart_name c) cs ->
  forall p : Page,
    charts p !! k = v ->
    charts (mapM (fun c => update_chart c apiData) cs p).1 !! k = v /\
    uncaught (mapM (fun c => update_chart c apiData) cs p).1 = uncaught p.
Proof.
  induction 1 as [|c cs Hc Hcs IH]; intros p Hv; [done|].
  simpl. unfold_M.
  pose proof (update_chart_keeps c apiData p k v Hc Hv) as Hk.
  pose proof (update_chart_uncaught c apiData p) as Hu.
  destruct (update_chart c apiData p) as [p' [[]|m]]; simpl in *; [|done].
  destruct (IH p' Hk) as [Hk' Hu'].
  destruct (mapM (fun c => update_chart c apiData) cs p') as [p'' [us|m]];
    simpl in *; split; congruence.
Qed.

(** A daily weather response that carries records is applied to the
    temperature chart, whichever request it answers. *)
Lemma settle_daily_weather_applies
    (status : Z) (statusText : string) (fields : list (string * JsVal))
    (data : JsVal) (i : nat) (pending : Pending) (p : Page)
    (ch ch' : Chart) (s : Series) :
  inflight p !! i = Some pending ->
  awaiting pending = DailyWeather ->
  response_ok status = true ->
  assoc "success" fields = Some (JBool true) ->
  assoc "data" fields = Some data ->
  truthy data = true ->
  nothing_to_plot DailyRecords data = Ok false ->
  daily_series (plotted_fields weatherDailyChart) data = Ok s ->
  charts p !! "weatherDailyChart" = Some ch ->
  assign_series s ch = (ch', Ok tt) ->
  exists p',
    handle (Settle i (Response status statusText (Json (JObj fields)))) p = (p', Ok tt) /\
    charts p' !! "weatherDailyChart" = Some ch' /\
    uncaught p' = uncaught p.
Proof.
  intros Hi Hl Hok Hsuccess Hdata Htruthy Hguard Hs Hch Hassign.
  unfold handle. rewrite Hi, Hl.
  set (p1 := set_inflight (delete i) p).
  unfold load_resume, async, try_catch, fetchData_resume. unfold_M.
  rewrite Hok. simpl. rewrite Hsuccess. simpl. rewrite Hdata. simpl.
  rewrite Htruthy. unfold_M.
  unfold updateWeatherDailyChart.
  rewrite (update_chart_applies weatherDailyChart data p1 ch ch' s (Ok tt)
             Hch Hguard eq_refl Hs Hassign).
  set (p2 := set_charts _ p1).
  assert (H2 : charts p2 !! "weatherDailyChart" = Some ch') by apply lookup_insert_eq.
  assert (U2 : uncaught p2 = uncaught p) by done.
  clearbody p2.
  unfold updateWeatherPrecipChart, updateWeatherUvChart, updateWeatherWindChart.
  destruct (updates_keep [weatherPrecipChart; weatherUvChart; weatherWindChart]
              data "weatherDailyChart" (Some ch')
              ltac:(repeat constructor; discriminate) p2 H2) as [H3 U3].
  revert H3 U3. simpl. unfold_M.
  destruct (update_chart weatherPrecipChart data p2) as [p3 [[]|m3]]; simpl;
    [|intros; eexists; split; [reflexivity|split; congruence]].
  destruct (update_chart weatherUvChart data p3) as [p4 [[]|m4]]; simpl;
    [|intros; eexists; split; [reflexivity|split; congruence]].
  destruct (update_chart weatherWindChart data p4) as [p5 [[]|m5]]; simpl;
    intros; eexists; (split; [reflexivity|split; congruence]).
Qed.

(** *** The daily transformers *)

Lemma mapM_cons_Result {A B} (f : A -> Result B) (a : A) (l : list A) :
  mapM f (a :: l)
  = match f a with
    | Ok b => match mapM f l with
              | Ok bs => Ok (b :: bs)
              | Throw m => Throw m
              end
    | Throw m => Throw m
    end.
Proof. reflexivity. Qed.

Lemma mapM_Ok_lookup {A B} (f : A -> Result B) (l : list A) :
  forall ys, mapM f l = Ok ys ->
    length ys = length l /\
    forall i x, l !! i = Some x -> exists y, f x = Ok y /\ ys !! i = Some y.
Proof.
  induction l as [|a l IH]; intros ys H.
  - inversion H. split; [done|]. intros i x Hx. by destruct i.
  - rewrite mapM_cons_Result in H.
    destruct (f a) as [b|] eqn:Hb; [|done].
    destruct (mapM f l) as [bs|] eqn:Hbs; [|done].
    inversion H; subst ys. destruct (IH bs eq_refl) as [Hlen Hall].
    split; [simpl; by rewrite Hlen|].
    intros [|i] x Hx; simpl in *.
    + inversion Hx; subst. eauto.
    + by apply Hall.
Qed.

Lemma mapM_Ok_total {A B} (f : A -> Result B) (l : list A) :
  Forall (fun x => exists y, f x = Ok y) l -> exists ys, mapM f l = Ok ys.
Proof.
  induction 1 as [|a l [b Hb] _ [bs Hbs]]; [by exists []|].
  exists (b :: bs). by rewrite mapM_cons_Result, Hb, Hbs.
Qed.

Lemma js_get_total (v : JsVal) (k k' : string) (x : JsVal) :
  js_get v k = Ok x -> exists y, js_get v k' = Ok y.
Proof.
  destruct v; simpl; try done; intros _; eauto;
    destruct (String.eqb k' "length"); eauto.
Qed.

Lemma field_or_eq (day : JsVal) (f : string) (fb : JsVal) :
  field_or day (f, fb)
  = match js_get day f with
    | Ok v => Ok (js_or v fb)
    | Throw m => Throw m
    end.
Proof. reflexivity. Qed.

Lemma daily_row_eq (fields : list (string * JsVal)) (day : JsVal) :
  daily_row fields day
  = match js_get day "valid_date" with
    | Ok d =>
        match date_label local_offset d with
        | Ok label =>
            match mapM (field_or day) fields with
            | Ok values => Ok (label, values)
            | Throw m => Throw m
            end
        | Throw m => Throw m
        end
    | Throw m => Throw m
    end.
Proof. reflexivity. Qed.

Lemma daily_series_eq (fields : list (string * JsVal)) (items : list JsVal) :
  daily_series fields (JArr items)
  = match mapM (daily_row fields) items with
    | Ok rows =>
        Ok {| s_labels := map fst rows;
              s_datasets := map (fun j => (column (map snd rows) j, None))
                                (seq 0 (length fields)) |}
    | Throw m => Throw m
    end.
Proof. reflexivity. Qed.

Lemma daily_row_total (fields : list (string * JsVal)) (day : JsVal) :
  well_dated day -> exists row, daily_row fields day = Ok row.
Proof.
  intros [s Hs]. rewrite daily_row_eq, Hs. simpl.
  destruct (mapM_Ok_total (field_or day) fields) as [values Hvalues].
  { apply Forall_forall. intros [f fb] _. rewrite field_or_eq.
    destruct (js_get_total day "valid_date" f _ Hs) as [y ->]. eauto. }
  rewrite Hvalues. eauto.
Qed.

(** The row a daily update function pushes for one record. *)
Lemma daily_row_values (fields : list (string * JsVal)) (day : JsVal)
    (label : string) (values : list JsVal) :
  daily_row fields day = Ok (label, values) ->
  (exists d, js_get day "valid_date" = Ok d /\ date_label local_offset d = Ok label) /\
  length values = length fields /\
  forall j f fb, fields !! j = Some (f, fb) ->
    exists v, js_get day f = Ok v /\ values !! j = Some (js_or v fb).
Proof.
  rewrite daily_row_eq.
  destruct (js_get day "valid_date") as [d|] eqn:Hd; [|done].
  destruct (date_label local_offset d) as [lbl|] eqn:Hl; [|done].
  destruct (mapM (field_or day) fields) as [vs|] eqn:Hvs; [|done].
  intros H; inversion H; subst lbl vs.
  destruct (mapM_Ok_lookup _ _ _ Hvs) as [Hlen Hall].
  split; [eauto|]. split; [done|].
  intros j f fb Hj. destruct (Hall j (f, fb) Hj) as (y & Hy & Hyj).
  rewrite field_or_eq in Hy.
  destruct (js_get day f) as [v|]; [|done]. inversion Hy; subst y. eauto.
Qed.

(** What a daily series holds: one label per record, one array per plotted
    field, and in it, for each record, the reading or the fallback. *)
Lemma daily_series_points (fields : list (string * JsVal)) (items : list JsVal)
    (s : Series) :
  daily_series fields (JArr items) = Ok s ->
  length (s_labels s) = length items /\
  length (s_datasets s) = length fields /\
  (forall i day, items !! i = Some day ->
     exists d label, js_get day "valid_date" = Ok d /\
                     date_label local_offset d = Ok label /\
                     s_labels s !! i = Some label) /\
  (forall j f fb, fields !! j = Some (f, fb) ->
     exists col, s_datasets s !! j = Some (JArr col, None) /\
       length col = length items /\
       forall i day, items !! i = Some day ->
         exists v, js_get day f = Ok v /\ col !! i = Some (js_or v fb)).
Proof.
  rewrite daily_series_eq.
  destruct (mapM (daily_row fields) items) as [rows|] eqn:Hrows; [|done].
  intros H; inversion H; subst s; clear H. simpl.
  destruct (mapM_Ok_lookup _ _ _ Hrows) as [Hlen Hall].
  split; [by rewrite length_map|].
  split; [by rewrite length_map, length_seq|].
  split.
  - intros i day Hday. destruct (Hall i day Hday) as ([label values] & Hrow & Hi).
    destruct (daily_row_values _ _ _ _ Hrow) as ((d & Hd & Hl) & _).
    exists d, label. repeat split; try done.
    by rewrite list_lookup_fmap, Hi.
  - intros j f fb Hj.
    exists (map (fun row => default JUndefined (row !! j)) (map snd rows)).
    split.
    + rewrite list_lookup_fmap.
      rewrite lookup_seq_lt by (by eapply lookup_lt_Some). reflexivity.
    + split; [by rewrite !length_map|].
      intros i day Hday. destruct (Hall i day Hday) as ([label values] & Hrow & Hi).
      destruct (daily_row_values _ _ _ _ Hrow) as (_ & _ & Hvals).
      destruct (Hvals j f fb Hj) as (v & Hv & Hvj).
      exists v. split; [done|].
      by rewrite !list_lookup_fmap, Hi; simpl; rewrite Hvj.
Qed.

(** A reading of 0 is falsy as well: [||] replaces it by the fallback, so a
    temperature of 0 is plotted as null, like an absent one. *)
Remark zero_reading_takes_the_fallback (day : JsVal) (field : string) (fallback : JsVal) :
  js_get day field = Ok (JNum 0) ->
  field_or day (field, fallback) = Ok fallback.
Proof. intros H. rewrite field_or_eq, H. reflexivity. Qed.

Lemma daily_series_total (fields : list (string * JsVal)) (items : list JsVal) :
  Forall well_dated items -> exists s, daily_series fields (JArr items) = Ok s.
Proof.
  intros Hitems. rewrite daily_series_eq.
  destruct (mapM_Ok_total (daily_row fields) items) as [rows Hrows].
  { eapply Forall_impl; [exact Hitems|]. intros day. apply daily_row_total. }
  rewrite Hrows. eauto.
Qed.

(** C8. In the series a daily transformer builds, a field the record does
    not have becomes 0 for the precipitation sum and for the wave heights,
    and null for the two temperatures. *)
Theorem missing_reading_defaults
    (c : ChartVar) (j : nat) (field : string) (fallback : JsVal)
    (items : list JsVal) (i : nat) (record : list (string * JsVal)) (s : Series) :
  (c, j, field, fallback) ∈
    [(weatherPrecipChart, 0%nat, "precipitation_sum", JNum 0);
     (marineDailyWaveChart, 0%nat, "wave_height_max", JNum 0);
     (marineDailyWaveChart, 1%nat, "swell_wave_height_max", JNum 0);
     (marineDailyWaveChart, 2%nat, "wind_wave_height_max", JNum 0);
     (weatherDailyChart, 0%nat, "temperature_2m_max", JNull);
     (weatherDailyChart, 1%nat, "temperature_2m_min", JNull)] ->
  items !! i = Some (JObj record) ->
  assoc field record = None ->
  series_of c (JArr items) = Ok s ->
  exists points,
    s_datasets s !! j = Some (JArr points, None) /\ points !! i = Some fallback.
Proof.
  intros Hin Hday Hmissing Hs.
  assert (Hfield : plotted_fields c !! j = Some (field, fallback) /\
                   series_of c = daily_series (plotted_fields c)).
  { repeat (apply elem_of_cons in Hin as [Heq|Hin];
            [inversion Heq; subst; by split|]).
    by apply elem_of_nil in Hin. }
  destruct Hfield as [Hj Hseries]. rewrite Hseries in Hs.
  destruct (daily_series_points _ _ _ Hs) as (_ & _ & _ & Hcols).
  destruct (Hcols j field fallback Hj) as (col & Hcol & _ & Hpoints).
  destruct (Hpoints i _ Hday) as (v & Hv & Hi).
  exists col. split; [done|].
  simpl in Hv. rewrite Hmissing in Hv. inversion Hv; subst v. exact Hi.
Qed.

(** *** Daily weather responses, end to end *)

Lemma assign_datasets_ok (sets : list (JsVal * option JsVal)) :
  forall (i : nat) (ds : list Dataset),
    (i + length sets <= length ds)%nat ->
    exists ds',
      assign_datasets i sets ds = (ds', Ok tt) /\
      forall j d, sets !! j = Some d -> ds_data <$> ds' !! (i + j)%nat = Some d.1.
Proof.
  induction sets as [|[d dirs] rest IH]; intros i ds Hlen; simpl in *.
  - exists ds. split; [done|]. intros j d Hj. by destruct j.
  - destruct (lookup_lt_is_Some_2 ds i ltac:(lia)) as [old Hold]. rewrite Hold.
    set (new := {| ds_data := d; ds_directions := default (ds_directions old) dirs |}).
    destruct (IH (S i) (<[i:=new]> ds)) as (ds' & E & Hds').
    { rewrite length_insert. lia. }
    exists ds'. split; [done|].
    intros [|j] x Hj; simpl in Hj.
    + inversion Hj; subst x. rewrite Nat.add_0_r.
      replace ds' with (assign_datasets (S i) rest (<[i:=new]> ds)).1 by (by rewrite E).
      rewrite assign_datasets_below by lia.
      rewrite list_lookup_insert_eq by (by eapply lookup_lt_Some). done.
    + replace (i + S j)%nat with (S i + j)%nat by lia. by apply Hds'.
Qed.

Lemma settle_daily_weather_series
    (status : Z) (statusText : string) (items : list JsVal)
    (i : nat) (pending : Pending) (p : Page) (ch : Chart) (s : Series) :
  inflight p !! i = Some pending ->
  awaiting pending = DailyWeather ->
  response_ok status = true ->
  items <> [] ->
  daily_series (plotted_fields weatherDailyChart) (JArr items) = Ok s ->
  charts p !! "weatherDailyChart" = Some ch ->
  (2 <= length (datasets ch))%nat ->
  exists p' ch',
    handle (Settle i (Response status statusText (success_body (JArr items)))) p
    = (p', Ok tt) /\
    uncaught p' = uncaught p /\
    charts p' !! "weatherDailyChart" = Some ch' /\
    labels ch' = s_labels s /\
    forall j d, s_datasets s !! j = Some d -> ds_data <$> datasets ch' !! j = Some d.1.
Proof.
  intros Hi Hl Hok Hitems Hs Hch Hlen.
  destruct (daily_series_points _ _ _ Hs) as (_ & Hsets & _).
  destruct (assign_datasets_ok (s_datasets s) 0 (datasets ch)) as (ds' & Hassign & Hds').
  { rewrite Hsets. simpl. lia. }
  destruct (settle_daily_weather_applies status statusText
              [("success", JBool true); ("data", JArr items)] (JArr items)
              i pending p ch {| labels := s_labels s; datasets := ds' |} s)
    as (p' & Hp' & Hch' & Hu); try done.
  - simpl. destruct items; [done|reflexivity].
  - unfold assign_series. by rewrite Hassign.
  - exists p', {| labels := s_labels s; datasets := ds' |}.
    split; [done|]. split; [done|]. split; [done|]. split; [done|].
    intros j d Hj. by apply (Hds' j d).
Qed.

(** C1 (amended). Responses are applied in the order they arrive: when a
    daily weather response with records settles, its series replaces the
    data of the temperature chart, whichever invocation of
    [refreshAllCharts] issued the request and whatever location is active by
    then. Requests carry no cycle tag and nothing is discarded on arrival,
    so a response that arrives late takes the place of a newer one. *)
Theorem late_response_is_applied
    (status : Z) (statusText : string) (items : list JsVal)
    (i : nat) (pending : Pending) (p : Page) (ch : Chart) (s : Series) :
  inflight p !! i = Some pending ->
  awaiting pending = DailyWeather ->
  response_ok status = true ->
  items <> [] ->
  daily_series (plotted_fields weatherDailyChart) (JArr items) = Ok s ->
  charts p !! "weatherDailyChart" = Some ch ->
  (2 <= length (datasets ch))%nat ->
  exists ch',
    charts (dispatch p (Settle i (Response status statusText (success_body (JArr items)))))
      !! "weatherDailyChart" = Some ch' /\
    labels ch' = s_labels s /\
    forall j d, s_datasets s !! j = Some d -> ds_data <$> datasets ch' !! j = Some d.1.
Proof.
  intros Hi Hl Hok Hitems Hs Hch Hlen.
  destruct (settle_daily_weather_series status statusText items i pending p ch s)
    as (p' & ch' & Hp' & _ & Hch' & Hlabels & Hdata); try done.
  exists ch'. unfold dispatch. rewrite Hp'. done.
Qed.

(** C5. The end-to-end scenario: a daily weather response whose first
    record has [valid_date] "2025-11-12" and [temperature_2m_max] 21.4 (the
    other records carrying a date each) puts "Nov 12" as the first label of
    the temperature chart and 21.4 as the first point of its max series.
    The label is the UTC calendar day in short month/day form: the offset of
    the browser's zone, [local_offset], plays no part. *)
Theorem daily_temperature_first_point
    (status : Z) (statusText : string)
    (first : list (string * JsVal)) (rest : list JsVal)
    (i : nat) (pending : Pending) (p : Page) (ch : Chart) :
  inflight p !! i = Some pending ->
  awaiting pending = DailyWeather ->
  response_ok status = true ->
  charts p !! "weatherDailyChart" = Some ch ->
  (2 <= length (datasets ch))%nat ->
  assoc "valid_date" first = Some (JStr "2025-11-12") ->
  assoc "temperature_2m_max" first = Some (JNum (214 # 10)) ->
  Forall well_dated rest ->
  exists p' ch' maxTemps,
    handle (Settle i (Response status statusText
                        (success_body (JArr (JObj first :: rest))))) p = (p', Ok tt) /\
    charts p' !! "weatherDailyChart" = Some ch' /\
    labels ch' !! 0%nat = Some "Nov 12" /\
    ds_data <$> datasets ch' !! 0%nat = Some (JArr maxTemps) /\
    maxTemps !! 0%nat = Some (JNum (214 # 10)).
Proof.
  intros Hi Hl Hok Hch Hlen Hdate Hmax Hrest.
  assert (Hfirst : well_dated (JObj first)).
  { exists "2025-11-12". simpl. by rewrite Hdate. }
  destruct (daily_series_total (plotted_fields weatherDailyChart)
              (JObj first :: rest)) as [s Hs]; [by constructor|].
  destruct (settle_daily_weather_series status statusText (JObj first :: rest)
              i pending p ch s) as (p' & ch' & Hp' & _ & Hch' & Hlabels & Hdata);
    try done.
  destruct (daily_series_points _ _ _ Hs) as (_ & _ & Hlbl & Hcols).
  destruct (Hlbl 0%nat (JObj first) eq_refl) as (d & label & Hd & Hlabel & Hl0).
  simpl in Hd. rewrite Hdate in Hd. inversion Hd; subst d.
  assert (label = "Nov 12") by (vm_compute in Hlabel; by inversion Hlabel). subst label.
  destruct (Hcols 0%nat "temperature_2m_max" JNull eq_refl)
    as (col & Hcol & _ & Hpoints).
  destruct (Hpoints 0%nat (JObj first) eq_refl) as (v & Hv & Hv0).
  simpl in Hv. rewrite Hmax in Hv. inversion Hv; subst v.
  exists p', ch', col.
  split; [done|]. split; [done|]. split; [by rewrite Hlabels|].
  split; [by rewrite (Hdata 0%nat _ Hcol)|done].
Qed.

(** *** What every event leaves in place *)

Lemma kept_or_removed_trans (a b c : option string) :
  kept_or_removed a b -> kept_or_removed b c -> kept_or_removed a c.
Proof. intros [-> | ->] [-> | ->]; (by left) || (by right). Qed.

Lemma settled_refl (p : Page) : settled p p.
Proof. by split; try left. Qed.

Lemma settled_trans (p1 p2 p3 : Page) : settled p1 p2 -> settled p2 p3 -> settled p1 p3.
Proof.
  intros [] []. split; try congruence; by eapply kept_or_removed_trans.
Qed.

Lemma evolved_refl (p : Page) : evolved p p.
Proof. by split; try left. Qed.

Lemma evolved_trans (p1 p2 p3 : Page) : evolved p1 p2 -> evolved p2 p3 -> evolved p1 p3.
Proof.
  intros [] []. split; try congruence; by eapply kept_or_removed_trans.
Qed.

Lemma settled_evolved (p p' : Page) : settled p p' -> evolved p p'.
Proof. intros []. by split. Qed.

Lemma quiet_ret {A} (a : A) : quiet (mret a).
Proof. intros p. apply settled_refl. Qed.

Lemma quiet_lift {A} (r : Result A) : quiet (lift r).
Proof. intros p. apply settled_refl. Qed.

Lemma quiet_throw {A} (m : Message) : quiet (@throw A m).
Proof. intros p. apply settled_refl. Qed.

Lemma quiet_bind {A B} (c : M A) (k : A -> M B) :
  quiet c -> (forall a, quiet (k a)) -> quiet (c ≫= k).
Proof.
  intros Hc Hk p. unfold mbind, M_bind, mbind'. specialize (Hc p).
  destruct (c p) as [p' [a|m]]; simpl in *; [|exact Hc].
  eapply settled_trans; [exact Hc|apply Hk].
Qed.

Lemma quiet_try_catch {A} (body : M A) (handler : Message -> M A) :
  quiet body -> (forall m, quiet (handler m)) -> quiet (try_catch body handler).
Proof.
  intros Hb Hh p. unfold try_catch. specialize (Hb p).
  destruct (body p) as [p' [a|m]]; simpl in *; [exact Hb|].
  eapply settled_trans; [exact Hb|apply Hh].
Qed.

Lemma returns_try_catch {A} (body : M A) (handler : Message -> M A) :
  (forall m, returns (handler m)) -> returns (try_catch body handler).
Proof.
  intros Hh p. unfold try_catch.
  destruct (body p) as [p' [a|m]]; [by exists a|apply Hh].
Qed.

Lemma quiet_async (body : M unit) : quiet body -> returns body -> quiet (async body).
Proof.
  intros Hb Hr p. unfold async. specialize (Hb p). destruct (Hr p) as [a Ha].
  destruct (body p) as [p' [x|m]]; simpl in *; [exact Hb|discriminate].
Qed.

Lemma async_returns (body : M unit) (p : Page) : (async body p).2 = Ok tt.
Proof. unfold async. by destruct (body p) as [p' [x|m]]. Qed.

Lemma assign_datasets_length (sets : list (JsVal * option JsVal)) :
  forall (i : nat) (ds : list Dataset),
    length (assign_datasets i sets ds).1 = length ds.
Proof.
  induction sets as [|[d dirs] rest IH]; intros i ds; simpl; [done|].
  destruct (ds !! i); [|done]. by rewrite IH, length_insert.
Qed.

Lemma quiet_update_chart (c : ChartVar) (apiData : JsVal) : quiet (update_chart c apiData).
Proof.
  intros p. unfold update_chart.
  destruct (charts p !! chart_name c) as [ch|] eqn:Hch; [|apply settled_refl].
  destruct (nothing_to_plot _ _) as [[]|]; try apply settled_refl.
  destruct (parameter_missing _ _) as [[]|]; try apply settled_refl.
  destruct (series_of c apiData) as [s|]; [|apply settled_refl].
  unfold assign_series.
  pose proof (assign_datasets_length (s_datasets s) 0 (datasets ch)) as Hlen.
  destruct (assign_datasets 0 (s_datasets s) (datasets ch)) as [ds r]. simpl in *.
  split; simpl; try reflexivity; try (by left).
  unfold dataset_counts. simpl. rewrite fmap_insert. apply insert_id.
  rewrite lookup_fmap, Hch. simpl. by rewrite Hlen.
Qed.

Lemma quiet_update_cards (container : string) (data : JsVal) :
  quiet (update_cards container data).
Proof.
  intros p. unfold update_cards.
  destruct (containers p !! container); [|apply settled_refl].
  destruct (cards_fault container data); by split; try left.
Qed.

Lemma show_error_writes (container : string) (m : Message) (p : Page) :
  exists ks, show_error container m p = (set_containers (fun _ => ks) p, Ok tt).
Proof.
  unfold show_error. destruct (containers p !! container).
  - by eexists.
  - exists (containers p). by destruct p.
Qed.

Lemma on_error_writes (l : Loader) (m : Message) (p : Page) :
  exists ks, on_error l m p = (set_containers (fun _ => ks) p, Ok tt).
Proof.
  destruct l; simpl; try apply show_error_writes;
    exists (containers p); by destruct p.
Qed.

Lemma quiet_on_error (l : Loader) (m : Message) : quiet (on_error l m).
Proof.
  intros p. destruct (on_error_writes l m p) as [ks ->]. by split; try left.
Qed.

Lemma returns_on_error (l : Loader) (m : Message) : returns (on_error l m).
Proof. intros p. destruct (on_error_writes l m p) as [ks ->]. by exists tt. Qed.

Lemma quiet_on_no_data (l : Loader) : quiet (on_no_data l).
Proof.
  intros p.
  assert (exists ks, on_no_data l p = (set_containers (fun _ => ks) p, Ok tt)) as [ks ->].
  { destruct l; simpl; try apply show_error_writes;
      exists (containers p); by destruct p. }
  by split; try left.
Qed.

Lemma quiet_on_data (l : Loader) (data : JsVal) : quiet (on_data l data).
Proof.
  destruct l; simpl;
    repeat (apply quiet_bind; [|intros _]);
    first [apply quiet_update_chart | apply quiet_update_cards].
Qed.

Lemma quiet_fetchData_resume (o : FetchOutcome) : quiet (fetchData_resume o).
Proof.
  intros p. destruct (fetchData_resume_page o p) as [-> | ->].
  - apply settled_refl.
  - split; simpl; try reflexivity; by right.
Qed.

Lemma load_resume_settled (l : Loader) (o : FetchOutcome) (p : Page) :
  exists p', load_resume l o p = (p', Ok tt) /\ settled p p'.
Proof.
  assert (Hq : quiet (load_resume l o)).
  { unfold load_resume. apply quiet_async.
    - apply quiet_try_catch; [|apply quiet_on_error].
      apply quiet_bind; [apply quiet_fetchData_resume|]. intros response.
      destruct (truthy response); [|apply quiet_on_no_data].
      apply quiet_bind; [apply quiet_lift|]. intros data.
      destruct (truthy data); [apply quiet_on_data|apply quiet_on_no_data].
    - apply returns_try_catch. apply returns_on_error. }
  specialize (Hq p). pose proof (async_returns
    (try_catch
       (response ← fetchData_resume o;
        if truthy response then
          data ← lift (js_get response "data");
          if truthy data then on_data l data else on_no_data l
        else on_no_data l)
       (on_error l)) p) as Hr.
  fold (load_resume l o) in Hr.
  destruct (load_resume l o p) as [p' r]. simpl in *. subst r. by exists p'.
Qed.

Lemma launched_refl (p : Page) : launched p p.
Proof. split; try reflexivity. exists []. by rewrite app_nil_r. Qed.

Lemma launched_trans (p1 p2 p3 : Page) :
  launched p1 p2 -> launched p2 p3 -> launched p1 p3.
Proof.
  intros [? ? Ht ? ? ? ? ? ? ? (a1 & E1 & N1)] [? ? ? ? ? ? ? ? ? ? (a2 & E2 & N2)].
  split; try congruence.
  exists (a1 ++ a2)%list. split; [by rewrite E2, E1, app_assoc|].
  intros Hn. rewrite N1 by done. rewrite N2; [done|]. by rewrite Ht.
Qed.

Lemma load_begin_launched (l : Loader) (p : Page) :
  exists p', load_begin l p = (p', Ok tt) /\ launched p p'.
Proof.
  unfold load_begin, async, try_catch.
  destruct (no_active_location (activeLocationId p));
    [eexists; split; [reflexivity|apply launched_refl]|].
  destruct (find_userLoc p) as [userLoc|];
    [|eexists; split; [reflexivity|apply launched_refl]].
  assert (Hcall : call_client l (location_id userLoc) p
                  = (p, Throw (Text "No authentication token found"))
                  \/ exists req token,
                       access_token p = Some token /\
                       call_client l (location_id userLoc) p
                       = (set_inflight
                            (fun q => (q ++ [{| awaiting := l; request := req |}])%list) p,
                          Ok tt)).
  { destruct l; simpl;
      unfold fetchCurrentData, fetchDailyForecast, fetchHourlyData,
        fetchAirQualityCurrentData, fetchAirQualityHourlyData,
        fetchMarineCurrentData, fetchMarineDailyData, fetchMarineHourlyData,
        fetchSatelliteDailyData, fetchClimateProjection, fetchData;
      (destruct (access_token p) as [token|]; simpl;
       [destruct (negb _);
        [by left | right; eexists _, token; split; reflexivity]
       | by left]). }
  destruct Hcall as [-> | (req & token & Htok & ->)].
  - destruct (on_error_writes l (Text "No authentication token found") p) as [ks ->].
    eexists; split; [reflexivity|]. split; try reflexivity.
    exists []. by rewrite app_nil_r.
  - eexists; split; [reflexivity|]. split; try reflexivity. simpl.
    eexists; split; [reflexivity|]. intros Hn. congruence.
Qed.

Lemma mapM_load_begin_launched (ls : list Loader) :
  forall p : Page, exists p' us, mapM load_begin ls p = (p', Ok us) /\ launched p p'.
Proof.
  induction ls as [|l ls IH]; intros p.
  - exists p, []. split; [done|apply launched_refl].
  - destruct (load_begin_launched l p) as (p1 & E1 & L1).
    destruct (IH p1) as (p2 & us & E2 & L2).
    exists p2, (tt :: us). split; [|by eapply launched_trans].
    simpl. unfold_M. by rewrite E1, E2.
Qed.

Lemma refreshAllCharts_launched (p : Page) :
  exists p1,
    launched (set_refreshBtn (fmap (fun _ : bool => true)) id p) p1 /\
    refreshAllCharts p = (set_refreshBtn id S p1, Ok tt).
Proof.
  destruct (mapM_load_begin_launched all_loaders
              (set_refreshBtn (fmap (fun _ : bool => true)) id p)) as (p1 & us & E & L).
  exists p1. split; [done|]. unfold refreshAllCharts. unfold_M. by rewrite E.
Qed.

(** What an event does, whichever it is: its handler returns, the page has
    evolved, and without a token no request is added. *)
Lemma handle_evolved (e : Event) (p : Page) :
  exists p',
    handle e p = (p', Ok tt) /\ evolved p p' /\
    (access_token p = None ->
     access_token p' = None /\ inflight p' `sublist_of` inflight p).
Proof.
  assert (Hrefresh : forall q : Page,
            exists q', refreshAllCharts q = (q', Ok tt) /\ evolved q q' /\
              (access_token q = None ->
               access_token q' = None /\ inflight q' `sublist_of` inflight q)).
  { intros q. destruct (refreshAllCharts_launched q) as (q1 & [] & ->).
    destruct launched_inflight0 as (added & Hadded & Hnone). simpl in *.
    eexists; split; [reflexivity|]. split.
    - split; simpl; try congruence; try (left; congruence).
      unfold dataset_counts. simpl. congruence.
    - intros Hn. simpl. split; [congruence|].
      rewrite Hadded, (Hnone Hn), app_nil_r. done. }
  destruct e as [|value|i o|]; simpl.
  - apply Hrefresh.
  - unfold handleLocationChange.
    destruct (parseInt (Some value)) as [selectedId|];
      [|exists p; split; [done|]; split; [apply evolved_refl|done]].
    destruct (selectedId =? 0);
      [exists p; split; [done|]; split; [apply evolved_refl|done]|].
    unfold_M. simpl.
    destruct (Hrefresh (set_activeLocationId (Some selectedId) p))
      as (q' & -> & [] & Hq'). simpl in *.
    exists q'. split; [done|]. split; [by split|done].
  - destruct (inflight p !! i) as [pending|] eqn:Hi;
      [|exists p; split; [done|]; split; [apply evolved_refl|done]].
    destruct (load_resume_settled (awaiting pending) o (set_inflight (delete i) p))
      as (p' & -> & []). simpl in *.
    exists p'. split; [done|]. split; [by split|].
    intros Hn. split.
    + destruct settled_access_token0 as [E | E]; congruence.
    + rewrite settled_inflight0. apply sublist_delete.
  - destruct (decide (timeouts p = 0%nat));
      exists (if decide (timeouts p = 0%nat) then p else (rotation_timeout p).1);
      destruct (decide (timeouts p = 0%nat)); try done;
      (split; [done|]; split; [by split; try left|done]).
Qed.

Lemma dispatch_evolved (e : Event) (p : Page) :
  evolved p (dispatch p e) /\
  (access_token p = None ->
   access_token (dispatch p e) = None /\
   inflight (dispatch p e) `sublist_of` inflight p).
Proof.
  unfold dispatch. destruct (handle_evolved e p) as (p' & -> & H). exact H.
Qed.

Lemma run_cons (e : Event) (events : list Event) (p : Page) :
  run (e :: events) p = run events (dispatch p e).
Proof. reflexivity. Qed.

Lemma run_evolved (events : list Event) :
  forall p : Page, evolved p (run events p).
Proof.
  induction events as [|e events IH]; intros p; [apply evolved_refl|].
  rewrite run_cons. eapply evolved_trans; [apply dispatch_evolved|apply IH].
Qed.

Lemma run_without_token (events : list Event) :
  forall p : Page,
    access_token p = None ->
    access_token (run events p) = None /\
    inflight (run events p) `sublist_of` inflight p.
Proof.
  induction events as [|e events IH]; intros p Hn; [done|].
  rewrite run_cons.
  destruct (dispatch_evolved e p) as (_ & Hd). destruct (Hd Hn) as (Hn' & Hsub).
  destruct (IH _ Hn') as (Hn'' & Hsub'). split; [done|].
  by etrans.
Qed.

Lemma delete_beyond {A} (l : list A) :
  forall i : nat, (length l <= i)%nat -> delete i l = l.
Proof.
  induction l as [|x l IH]; intros [|i] Hlen; simpl in *; try done; try lia.
  f_equal. apply IH. lia.
Qed.

(** X1. No exception escapes: whatever events arrive, in whatever order and with
    whatever responses, no handler throws into the event loop and no loader
    leaves an unhandled rejection. *)
Theorem no_exception_escapes_a_run (events : list Event) (p : Page) :
  uncaught (run events p) = uncaught p.
Proof. by destruct (run_evolved events p). Qed.

(** X2. The set of charts and the number of datasets of each are fixed once the
    charts are created: no event creates or destroys a chart, or adds or
    removes a dataset. In particular a chart variable that is null (its
    canvas was missing at creation) stays null, so its widget never shows
    data. *)
Theorem run_keeps_charts_and_dataset_counts
    (events : list Event) (p : Page) (k : string) :
  (charts p !! k = None -> charts (run events p) !! k = None) /\
  (forall ch, charts p !! k = Some ch ->
     exists ch', charts (run events p) !! k = Some ch' /\
                 length (datasets ch') = length (datasets ch)).
Proof.
  destruct (run_evolved events p) as [_ _ _ Hcounts _ _].
  assert (Hk : dataset_counts (run events p) !! k = dataset_counts p !! k)
    by (by rewrite Hcounts).
  unfold dataset_counts in Hk. rewrite !lookup_fmap in Hk.
  split.
  - intros Hnone. rewrite Hnone in Hk.
    by destruct (charts (run events p) !! k).
  - intros ch Hch. rewrite Hch in Hk.
    destruct (charts (run events p) !! k) as [ch'|]; [|done].
    exists ch'. split; [done|]. simpl in Hk. congruence.
Qed.

(** X3. A response is consumed once and nothing is retried: when a fetch
    settles, whatever its outcome, the requests in flight afterwards are the
    ones before without the settled one. The handler issues no request, and
    leaves the active location, the button and the pending timeouts as they
    were. *)
Theorem response_is_consumed_without_retry (i : nat) (o : FetchOutcome) (p : Page) :
  inflight (dispatch p (Settle i o)) = delete i (inflight p) /\
  activeLocationId (dispatch p (Settle i o)) = activeLocationId p /\
  refreshBtn (dispatch p (Settle i o)) = refreshBtn p /\
  timeouts (dispatch p (Settle i o)) = timeouts p.
Proof.
  unfold dispatch, handle.
  destruct (inflight p !! i) as [pending|] eqn:Hi.
  - destruct (load_resume_settled (awaiting pending) o (set_inflight (delete i) p))
      as (p' & -> & []). simpl in *. done.
  - split; [|done]. symmetry. apply delete_beyond. by apply lookup_ge_None.
Qed.

(** X6. A 401 ends the session for good: when any fetch settles with status
    401, both tokens are removed and the page is sent to the login form;
    from then on, whatever events follow, the token stays absent and no
    request is handed to [fetch] again. *)
Theorem unauthorized_response_ends_the_session
    (i : nat) (pending : Pending) (statusText : string) (body : Body) (p : Page) :
  inflight p !! i = Some pending ->
  let p' := dispatch p (Settle i (Response 401 statusText body)) in
  access_token p' = None /\
  refresh_token p' = None /\
  location_href p' = "/login.html" /\
  forall events : list Event,
    access_token (run events p') = None /\
    inflight (run events p') `sublist_of` delete i (inflight p).
Proof.
  intros Hi p'.
  assert (Hp' : exists ks,
            p' = set_containers (fun _ => ks)
                   (expire_session (set_inflight (delete i) p))).
  { subst p'. unfold dispatch, handle. rewrite Hi.
    unfold load_resume, async, try_catch. unfold_M. simpl.
    destruct (on_error_writes (awaiting pending) (Text "Authentication failed")
                (expire_session (set_inflight (delete i) p))) as [ks ->].
    by exists ks. }
  destruct Hp' as [ks Hp']. clearbody p'. subst p'.
  split; [done|]. split; [done|]. split; [done|].
  intros events.
  apply (run_without_token events
           (set_containers (fun _ => ks) (expire_session (set_inflight (delete i) p)))).
  done.
Qed.

Lemma refreshAllCharts_unresolved (p : Page) :
  no_active_location (activeLocationId p) = true \/ find_userLoc p = None ->
  refreshAllCharts p = (set_refreshBtn (fmap (fun _ : bool => true)) S p, Ok tt).
Proof.
  intros Hloc.
  set (p0 := set_refreshBtn (fmap (fun _ : bool => true)) id p).
  assert (H0 : no_active_location (activeLocationId p0) = true \/ find_userLoc p0 = None)
    by exact Hloc.
  assert (Hbegin : forall l, load_begin l p0 = (p0, Ok tt)).
  { intros l. unfold load_begin, async, try_catch.
    destruct (no_active_location (activeLocationId p0)) eqn:Ha; [done|].
    destruct H0 as [H0 | H0]; [done|]. by rewrite H0. }
  assert (Hall : forall ls, exists us, mapM load_begin ls p0 = (p0, Ok us)).
  { induction ls as [|l ls [us IH]]; [by exists []|].
    exists (tt :: us). simpl. unfold_M. by rewrite Hbegin, IH. }
  destruct (Hall all_loaders) as [us E].
  unfold refreshAllCharts. unfold_M. fold p0. by rewrite E.
Qed.

(** X7. Without a location that resolves nothing is loaded and nothing is
    shown: when no location is active, or the active id is not one of the
    user's locations, a refresh (button, interval tick) only turns the
    button and sets its timeout. All ten loaders return at their guards: no
    request is issued, no chart or container changes, no error appears. *)
Theorem refresh_without_location_launches_nothing (p : Page) :
  no_active_location (activeLocationId p) = true \/ find_userLoc p = None ->
  let p' := dispatch p RefreshTrigger in
  inflight p' = inflight p /\
  charts p' = charts p /\
  containers p' = containers p /\
  uncaught p' = uncaught p /\
  refreshBtn p' = (fun _ => true) <$> refreshBtn p /\
  timeouts p' = S (timeouts p).
Proof.
  intros Hloc p'. subst p'. unfold dispatch. simpl.
  by rewrite (refreshAllCharts_unresolved p Hloc).
Qed.

(** X8. Selecting an id that is not one of the user's locations: the id becomes
    the active location all the same, and the refresh that follows loads
    nothing. The widgets keep what they showed for the previous location,
    and no error is displayed. *)
Theorem unknown_selection_is_activated_but_loads_nothing
    (value : string) (selectedId : Z) (p : Page) :
  parseInt (Some value) = Some selectedId ->
  selectedId <> 0 ->
  find (fun ul => user_location_id ul =? selectedId) (userLocations p) = None ->
  handleLocationChange value p
  = (set_refreshBtn (fmap (fun _ : bool => true)) S
       (set_activeLocationId (Some selectedId) p), Ok tt).
Proof.
  intros Hparse Hnz Hfind. unfold handleLocationChange. rewrite Hparse.
  destruct (Z.eqb_spec selectedId 0); [done|].
  set (p0 := set_activeLocationId (Some selectedId) p).
  set (p1 := set_refreshBtn (fmap (fun _ : bool => true)) id p0).
  assert (Hbegin : forall l, load_begin l p1 = (p1, Ok tt)).
  { intros l. unfold load_begin, async, try_catch.
    destruct (no_active_location (activeLocationId p1)); [done|].
    replace (find_userLoc p1) with (@None UserLocation); done. }
  assert (Hall : forall ls, exists us, mapM load_begin ls p1 = (p1, Ok us)).
  { induction ls as [|l ls [us IH]]; [by exists []|].
    exists (tt :: us). simpl. unfold_M. by rewrite Hbegin, IH. }
  destruct (Hall all_loaders) as [us E].
  unfold_M. simpl. fold p0. unfold refreshAllCharts. unfold_M. fold p1.
  by rewrite E.
Qed.

Lemma dispatch_refresh (p : Page) :
  exists q,
    launched (set_refreshBtn (fmap (fun _ : bool => true)) id p) q /\
    dispatch p RefreshTrigger = set_refreshBtn id S q.
Proof.
  destruct (refreshAllCharts_launched p) as (q & L & E).
  exists q. split; [done|]. unfold dispatch. simpl. by rewrite E.
Qed.

(** X10. The rotation of the refresh button is not tied to the fetches: a second
    refresh started before the timeout of the first has fired loses its
    rotation to that timeout, with the requests of both still in flight and
    one timeout still pending. *)
Theorem first_timeout_stops_the_rotation_of_a_second_refresh (p : Page) :
  let p2 := run [RefreshTrigger; RefreshTrigger] p in
  let p3 := dispatch p2 RotationTimeout in
  refreshBtn p2 = (fun _ => true) <$> refreshBtn p /\
  refreshBtn p3 = (fun _ => false) <$> refreshBtn p /\
  timeouts p3 = S (timeouts p) /\
  inflight p3 = inflight p2.
Proof.
  intros p2 p3.
  assert (H2 : refreshBtn p2 = (fun _ => true) <$> refreshBtn p /\
               timeouts p2 = S (S (timeouts p))).
  { subst p2. change (run [RefreshTrigger; RefreshTrigger] p)
      with (dispatch (dispatch p RefreshTrigger) RefreshTrigger).
    destruct (dispatch_refresh p) as (q1 & [] & ->).
    destruct (dispatch_refresh (set_refreshBtn id S q1)) as (q2 & [] & ->).
    simpl in *. split.
    - rewrite launched_refreshBtn1, launched_refreshBtn0.
      by destruct (refreshBtn p).
    - by rewrite launched_timeouts1, launched_timeouts0. }
  destruct H2 as [Hb Ht]. clearbody p2.
  subst p3. unfold dispatch. simpl.
  destruct (decide (timeouts p2 = 0%nat)) as [E|_]; [by rewrite Ht in E|].
  simpl. rewrite Hb, Ht. split; [done|]. split; [|done].
  by destruct (refreshBtn p).
Qed.

(** *** The URL of a request *)

Lemma append_cons (c : ascii) (s t : string) : String c s ++ t = String c (s ++ t).
Proof. reflexivity. Qed.

Lemma append_nil_l (t : string) : "" ++ t = t.
Proof. reflexivity. Qed.

Lemma collapse_slashes_skip (rest : string) :
  collapse_slashes true (String "/" rest) = collapse_slashes true rest.
Proof. reflexivity. Qed.

Lemma collapse_slashes_ahead (c : ascii) (b : bool) (r2 : string) :
  b && Ascii.eqb c "/" = false ->
  collapse_slashes b (String c (String "/" (String "/" r2)))
  = if Ascii.eqb c ":" then String c (collapse_slashes false (String "/" (String "/" r2)))
    else String c (String "/" (collapse_slashes true r2)).
Proof. intros H. cbn [collapse_slashes]. by rewrite H. Qed.

Lemma collapse_slashes_plain (c : ascii) (b : bool) (rest : string) :
  b && Ascii.eqb c "/" = false ->
  two_slashes_ahead rest = false ->
  collapse_slashes b (String c rest) = String c (collapse_slashes false rest).
Proof.
  intros H Hrest. cbn [collapse_slashes]. rewrite H.
  destruct rest as [|a [|a' r]]; try reflexivity.
  - by destruct a as [[|] [|] [|] [|] [|] [|] [|] [|]].
  - destruct a as [[|] [|] [|] [|] [|] [|] [|] [|]]; try reflexivity.
    destruct a' as [[|] [|] [|] [|] [|] [|] [|] [|]]; try reflexivity.
    discriminate Hrest.
Qed.

Lemma two_slashes_ahead_inv (s : string) :
  two_slashes_ahead s = true -> exists r2, s = String "/" (String "/" r2).
Proof.
  destruct s as [|a [|a' r]]; try done. simpl. intros H.
  apply andb_prop in H as [Ha Ha'].
  apply Ascii.eqb_eq in Ha, Ha'. subst. by exists r.
Qed.

Lemma collapse_slashes_keeps_head (b : bool) (c : ascii) (rest : string) :
  b && Ascii.eqb c "/" = false ->
  exists t, collapse_slashes b (String c rest) = String c t.
Proof.
  intros H. destruct (two_slashes_ahead rest) eqn:E.
  - destruct (two_slashes_ahead_inv _ E) as [r2 ->].
    rewrite collapse_slashes_ahead by done. destruct (Ascii.eqb c ":"); eauto.
  - rewrite collapse_slashes_plain by done. eauto.
Qed.

(** What follows a collapsed run does not start with a slash. *)
Lemma collapse_slashes_skipping_head (s : string) :
  two_slashes_ahead (String "/" (collapse_slashes true s)) = false.
Proof.
  induction s as [|c rest IH]; [done|].
  destruct (Ascii.eqb c "/") eqn:Hc.
  - apply Ascii.eqb_eq in Hc. subst c. by rewrite collapse_slashes_skip.
  - destruct (collapse_slashes_keeps_head true c rest) as [t ->]; [by rewrite Hc|].
    simpl. by rewrite Hc.
Qed.

Lemma no_slash_ahead (u : string) :
  two_slashes_ahead (String "/" u) = false -> two_slashes_ahead u = false.
Proof.
  destruct u as [|a [|a' r]]; try done. simpl. intros H. by rewrite H.
Qed.

Lemma collapse_slashes_head (s : string) :
  two_slashes_ahead (collapse_slashes false s) = true -> two_slashes_ahead s = true.
Proof.
  destruct s as [|c rest]; [done|].
  destruct (two_slashes_ahead rest) eqn:E.
  - destruct (two_slashes_ahead_inv _ E) as [r2 ->].
    rewrite collapse_slashes_ahead by done.
    destruct (Ascii.eqb c ":") eqn:Hcolon.
    + apply Ascii.eqb_eq in Hcolon. subst c.
      by destruct (collapse_slashes false (String "/" (String "/" r2))) as [|x t].
    + cbn [two_slashes_ahead]. by rewrite Ascii.eqb_refl, !andb_true_r.
  - rewrite collapse_slashes_plain by done.
    destruct rest as [|a r']; [done|].
    destruct (collapse_slashes_keeps_head false a r' eq_refl) as [t ->]. done.
Qed.

Lemma collapse_slashes_clean (n : nat) :
  forall (s : string) (b : bool),
    (String.length s <= n)%nat -> has_doubled_slash (collapse_slashes b s) = false.
Proof.
  induction n as [|n IH]; intros s b Hlen;
    destruct s as [|c rest]; try done; simpl in Hlen; try lia.
  destruct (b && Ascii.eqb c "/") eqn:Hskip.
  - apply andb_prop in Hskip as [-> Hc]. apply Ascii.eqb_eq in Hc. subst c.
    rewrite collapse_slashes_skip. apply IH. lia.
  - destruct (two_slashes_ahead rest) eqn:E.
    + destruct (two_slashes_ahead_inv _ E) as [r2 ->].
      rewrite collapse_slashes_ahead by done.
      destruct (Ascii.eqb c ":") eqn:Hcolon.
      * cbn [has_doubled_slash]. rewrite Hcolon. simpl negb.
        rewrite andb_false_l, orb_false_l. apply IH. lia.
      * cbn [has_doubled_slash].
        rewrite collapse_slashes_skipping_head.
        rewrite (no_slash_ahead _ (collapse_slashes_skipping_head r2)).
        rewrite !andb_false_r, !orb_false_l. apply IH. simpl in Hlen. lia.
    + rewrite collapse_slashes_plain by done. cbn [has_doubled_slash].
      destruct (two_slashes_ahead (collapse_slashes false rest)) eqn:E'.
      * apply collapse_slashes_head in E'. congruence.
      * rewrite andb_false_r, orb_false_l. apply IH. lia.
Qed.

Lemma collapse_slashes_fixes_clean (s : string) :
  has_doubled_slash s = false -> collapse_slashes false s = s.
Proof.
  induction s as [|c rest IH]; [done|].
  cbn [has_doubled_slash]. intros H. apply orb_false_elim in H as [H1 H2].
  destruct (two_slashes_ahead rest) eqn:E.
  - rewrite andb_true_r in H1. apply negb_false_iff in H1.
    destruct (two_slashes_ahead_inv _ E) as [r2 ->].
    rewrite collapse_slashes_ahead by done. rewrite H1. f_equal. by apply IH.
  - rewrite collapse_slashes_plain by done. f_equal. by apply IH.
Qed.

(** X11. [getApiUrl] normalises and does no more: in its result no character
    other than a colon is followed by two slashes; the base URL, with the
    two slashes of its scheme, is kept at the front; and a URL that has no
    doubled slash comes back as it is. *)
Theorem getApiUrl_normalises (endpoint : string) :
  has_doubled_slash (getApiUrl endpoint) = false /\
  (exists rest, getApiUrl endpoint = API_CONFIG_baseURL ++ rest) /\
  (has_doubled_slash (API_CONFIG_baseURL ++ endpoint) = false ->
   getApiUrl endpoint = API_CONFIG_baseURL ++ endpoint).
Proof.
  split; [|split].
  - unfold getApiUrl. by eapply collapse_slashes_clean.
  - unfold getApiUrl, API_CONFIG_baseURL. rewrite !append_cons, ?append_nil_l.
    rewrite !collapse_slashes_plain by reflexivity.
    rewrite collapse_slashes_ahead by reflexivity. cbn [Ascii.eqb Bool.eqb].
    rewrite !collapse_slashes_plain by reflexivity.
    rewrite (collapse_slashes_plain "0" false (String "0" endpoint))
      by (try reflexivity; by destruct endpoint).
    destruct (collapse_slashes_keeps_head false "0" endpoint eq_refl) as [t ->].
    exists t. reflexivity.
  - unfold getApiUrl. apply collapse_slashes_fixes_clean.
Qed.











(** *** What a response is taken for *)

(** [fetchData] resolves exactly on a 2xx response whose body parses to an
    envelope with a truthy [success]; it then returns the parsed body and
    leaves the page as it was. *)
Lemma fetchData_resolves_exactly_on_success
    (o : FetchOutcome) (p p' : Page) (data : JsVal) :
  fetchData_resume o p = (p', Ok data) <->
  p' = p /\
  exists status statusText success,
    o = Response status statusText (Json data) /\
    response_ok status = true /\
    js_get data "success" = Ok success /\
    truthy success = true.
Proof.
  split.
  - destruct o as [|status statusText body]; simpl; [done|].
    destruct (response_ok status) eqn:Hok; simpl.
    + destruct body as [v|]; [|done]. unfold_M.
      destruct (js_get v "success") as [sv|] eqn:Hs; simpl; [|done].
      destruct (truthy sv) eqn:Ht; simpl.
      * intros E. inversion E; subst. split; [done|].
        exists status, statusText, sv. done.
      * by destruct (js_get v "detail").
    + destruct (status =? 401); [done|]. unfold_M.
      by destruct (js_get _ "detail").
  - intros (-> & status & statusText & success & -> & Hok & Hs & Ht).
    simpl. rewrite Hok. simpl. unfold_M. rewrite Hs. simpl. by rewrite Ht.
Qed.

Lemma settle_failure (l : Loader) (o : FetchOutcome) (m : Message)
    (i : nat) (pending : Pending) (p : Page) :
  inflight p !! i = Some pending ->
  awaiting pending = l ->
  fetchData_resume o (set_inflight (delete i) p)
  = (set_inflight (delete i) p, Throw m) ->
  handle (Settle i o) p = on_error l m (set_inflight (delete i) p).
Proof.
  intros Hi Hl E. unfold handle. rewrite Hi, Hl.
  unfold load_resume, async, try_catch. unfold_M. rewrite E.
  by destruct (on_error_writes l m (set_inflight (delete i) p)) as [ks ->].
Qed.

Lemma show_error_shows (container : string) (m : Message) (p : Page) :
  exists p',
    show_error container m p = (p', Ok tt) /\
    charts p' = charts p /\
    forall id, containers p' !! id = containers p !! id \/
               exists m', containers p' !! id = Some (ErrorSpinner m').
Proof.
  unfold show_error. destruct (containers p !! container) eqn:Hc.
  - eexists. split; [reflexivity|]. split; [done|]. intros id. simpl.
    destruct (decide (container = id)) as [<-|Hne].
    + right. exists m. apply lookup_insert_eq.
    + left. by apply lookup_insert_ne.
  - exists p. split; [done|]. split; [done|]. by left.
Qed.

Lemma on_error_shows (l : Loader) (m : Message) (p : Page) :
  exists p',
    on_error l m p = (p', Ok tt) /\
    charts p' = charts p /\
    forall id, containers p' !! id = containers p !! id \/
               exists m', containers p' !! id = Some (ErrorSpinner m').
Proof.
  destruct l; simpl; try apply show_error_shows;
    (exists p; split; [done|]; split; [done|]; by left).
Qed.

Lemma on_no_data_shows (l : Loader) (p : Page) :
  exists p',
    on_no_data l p = (p', Ok tt) /\
    charts p' = charts p /\
    forall id, containers p' !! id = containers p !! id \/
               exists m', containers p' !! id = Some (ErrorSpinner m').
Proof.
  destruct l; simpl; try apply show_error_shows;
    (exists p; split; [done|]; split; [done|]; by left).
Qed.

(** X4. Only a successful envelope reaches the widgets. When a fetch
    settles, either the response has a 2xx status and a body that parses
    to an envelope with a truthy [success] and a truthy [data], or nothing
    is drawn from it: no chart changes, and a container that changes holds
    an error message, never cards. *)
Theorem only_a_successful_envelope_reaches_the_widgets
    (i : nat) (pending : Pending) (o : FetchOutcome) (p : Page) :
  inflight p !! i = Some pending ->
  let p' := dispatch p (Settle i o) in
  (exists status statusText body data,
     o = Response status statusText (Json body) /\
     response_ok status = true /\
     (exists success, js_get body "success" = Ok success /\ truthy success = true) /\
     js_get body "data" = Ok data /\
     truthy data = true) \/
  (charts p' = charts p /\
   forall id, containers p' !! id = containers p !! id \/
              exists m, containers p' !! id = Some (ErrorSpinner m)).
Proof.
  intros Hi p'. subst p'. unfold dispatch, handle. rewrite Hi.
  set (l := awaiting pending). set (p1 := set_inflight (delete i) p).
  unfold load_resume, async, try_catch. unfold_M.
  destruct (fetchData_resume o p1) as [p2 [response|m]] eqn:E.
  - apply fetchData_resolves_exactly_on_success in E
      as (-> & status & statusText & success & -> & Hok & Hs & Ht).
    assert (Hobj : exists fields, response = JObj fields).
    { destruct response as [| |b|q|s|items|fields]; simpl in Hs;
        try discriminate Hs; try (by eexists);
        inversion Hs; subst success; discriminate Ht. }
    destruct Hobj as [fields ->]. cbn [truthy lift js_get].
    destruct (truthy (default JUndefined (assoc "data" fields))) eqn:Hd.
    + left. exists status, statusText, (JObj fields),
        (default JUndefined (assoc "data" fields)).
      split; [done|]. split; [done|]. split; [by exists success|]. done.
    + right. destruct (on_no_data_shows l p1) as (p3 & -> & Hc & Hk). done.
  - right.
    assert (H2 : charts p2 = charts p /\ containers p2 = containers p).
    { destruct (fetchData_resume_page o p1) as [E' | E']; rewrite E in E'.
      - simpl in E'. by subst p2.
      - inversion E'. done. }
    destruct H2 as [Hc2 Hk2].
    destruct (on_error_shows l m p2) as (p3 & -> & Hc & Hk).
    split; [congruence|]. intros id. rewrite <- Hk2. apply Hk.
Qed.

(** X5. The message of an HTTP error. For a status outside 200..299 other than
    401 the loader's [catch] block receives: the body's [detail] when the
    body is a JSON object with a non-empty string there; the line
    "HTTP <status>: <statusText>" when the body does not parse or is an
    object without [detail]; and the engine's TypeError when the body is
    the JSON value [null] (the fallback object only replaces a body that
    fails to parse). *)
Theorem http_error_message
    (l : Loader) (i : nat) (pending : Pending)
    (status : Z) (statusText : string) (body : Body) (p : Page) :
  inflight p !! i = Some pending ->
  awaiting pending = l ->
  response_ok status = false ->
  status <> 401 ->
  let caught m :=
    handle (Settle i (Response status statusText body)) p
    = on_error l m (set_inflight (delete i) p) in
  (forall fields d,
     body = Json (JObj fields) -> assoc "detail" fields = Some (JStr d) -> d <> "" ->
     caught (Text d)) /\
  (body = NotJson \/ (exists fields, body = Json (JObj fields) /\
                                     assoc "detail" fields = None) ->
   caught (Text ("HTTP " ++ dec status ++ ": " ++ statusText))) /\
  (body = Json JNull -> caught (EngineText (PropertyOfNullish "detail"))).
Proof.
  intros Hi Hl Hok H401 caught. subst caught. cbv beta.
  assert (Hne : (status =? 401) = false) by (by apply Z.eqb_neq).
  split; [|split].
  - intros fields d -> Hd Hnonempty. apply (settle_failure l _ _ i pending p Hi Hl).
    simpl. rewrite Hok, Hne. simpl. unfold_M. simpl. rewrite Hd. simpl.
    unfold js_or. simpl.
    destruct (String.eqb_spec d ""); [done|]. reflexivity.
  - intros [-> | (fields & -> & Hd)];
      apply (settle_failure l _ _ i pending p Hi Hl);
      simpl; rewrite Hok, Hne; simpl; unfold_M; simpl; rewrite ?Hd; reflexivity.
  - intros ->. apply (settle_failure l _ _ i pending p Hi Hl).
    simpl. rewrite Hok, Hne. reflexivity.
Qed.

(** *** Daily series, from creation to update *)

Lemma mapM_Throw {A B} (f : A -> Result B) (l : list A) (x : A) :
  x ∈ l -> (exists m, f x = Throw m) -> exists m, mapM f l = Throw m.
Proof.
  intros Hx [m Hm]. induction l as [|a l IH]; [by apply elem_of_nil in Hx|].
  rewrite mapM_cons_Result. apply elem_of_cons in Hx as [<- | Hx].
  - rewrite Hm. eauto.
  - destruct (f a); [|eauto]. destruct (IH Hx) as [m' ->]. eauto.
Qed.

Lemma daily_chart_shape (c : ChartVar) :
  plotted_fields c <> [] ->
  payload_shape c = DailyRecords /\
  (forall apiData, series_of c apiData = daily_series (plotted_fields c) apiData) /\
  (length (plotted_fields c) <= dataset_count c)%nat.
Proof. destruct c; simpl; intros H; try done; repeat split; lia. Qed.

Lemma records_to_plot (items : list JsVal) :
  items <> [] -> nothing_to_plot DailyRecords (JArr items) = Ok false.
Proof. intros H. simpl. by destruct items. Qed.

(** X13. A chart takes the series of its own update function as soon as it is
    created: the create function declares at least as many datasets as the
    update function assigns, so for records that carry a date the update
    returns normally, and afterwards the chart has one label per record and
    one point per record in every plotted dataset. *)
Theorem created_chart_takes_the_daily_series
    (c : ChartVar) (items : list JsVal) (p : Page) :
  plotted_fields c <> [] ->
  canvas_id c ∈ canvases p ->
  items <> [] ->
  Forall well_dated items ->
  exists p' ch,
    (create_chart c ;; update_chart c (JArr items)) p = (p', Ok tt) /\
    charts p' !! chart_name c = Some ch /\
    length (labels ch) = length items /\
    length (datasets ch) = dataset_count c /\
    forall j, (j < length (plotted_fields c))%nat ->
      exists col, ds_data <$> datasets ch !! j = Some (JArr col) /\
                  length col = length items.
Proof.
  intros Hc Hcanvas Hitems Hdated.
  destruct (daily_chart_shape c Hc) as (Hshape & Hseries & Hcount).
  destruct (daily_series_total (plotted_fields c) items Hdated) as [s Hs].
  destruct (daily_series_points _ _ _ Hs) as (Hlabels & Hsets & _ & Hcols).
  set (fresh := {| labels := [];
                   datasets := replicate (dataset_count c)
                                 {| ds_data := JArr []; ds_directions := JUndefined |} |}).
  set (p1 := set_charts (insert (chart_name c) fresh) p).
  assert (Hcreate : create_chart c p = (p1, Ok tt)).
  { unfold create_chart. by rewrite decide_True. }
  destruct (assign_datasets_ok (s_datasets s) 0 (datasets fresh)) as (ds' & Hassign & Hds').
  { simpl. rewrite length_replicate, Hsets. exact Hcount. }
  assert (Hlen : length ds' = dataset_count c).
  { replace ds' with (assign_datasets 0 (s_datasets s) (datasets fresh)).1
      by (by rewrite Hassign).
    rewrite assign_datasets_length. simpl. apply length_replicate. }
  assert (Hupdate : update_chart c (JArr items) p1
                    = (set_charts (insert (chart_name c)
                                     {| labels := s_labels s; datasets := ds' |}) p1,
                       Ok tt)).
  { apply (update_chart_applies c (JArr items) p1 fresh _ s).
    - apply lookup_insert_eq.
    - rewrite Hshape. by apply records_to_plot.
    - by apply daily_records_have_no_third_guard.
    - by rewrite Hseries.
    - unfold assign_series. by rewrite Hassign. }
  eexists _, {| labels := s_labels s; datasets := ds' |}.
  split; [|split; [|split; [|split]]].
  - unfold_M. rewrite Hcreate, Hupdate. reflexivity.
  - apply lookup_insert_eq.
  - done.
  - done.
  - intros j Hj. simpl.
    destruct (lookup_lt_is_Some_2 (plotted_fields c) j Hj) as [[f fb] Hf].
    destruct (Hcols j f fb Hf) as (col & Hcol & Hcollen & _).
    exists col. split; [|done]. exact (Hds' j _ Hcol).
Qed.

Lemma update_chart_throws (c : ChartVar) (apiData : JsVal) (p : Page)
    (ch : Chart) (m : Message) :
  charts p !! chart_name c = Some ch ->
  nothing_to_plot (payload_shape c) apiData = Ok false ->
  parameter_missing c apiData = Ok false ->
  series_of c apiData = Throw m ->
  update_chart c apiData p = (p, Throw m).
Proof.
  intros Hch Hguard Hthird Hs. unfold update_chart.
  by rewrite Hch, Hguard, Hthird, Hs.
Qed.

(** X14. One record without a date drops the whole response: when a daily
    weather response holds a record that has no [valid_date], the first
    update function throws before it assigns anything, the three update
    functions after it are not run, and the loader's [catch] block only
    logs. The page is left as it was (but for the request that settled):
    the four charts keep their previous series and no error is shown. *)
Theorem undated_record_drops_the_daily_weather_response
    (status : Z) (statusText : string) (items : list JsVal) (bad : JsVal)
    (i : nat) (pending : Pending) (p : Page) (ch : Chart) :
  inflight p !! i = Some pending ->
  awaiting pending = DailyWeather ->
  response_ok status = true ->
  charts p !! "weatherDailyChart" = Some ch ->
  bad ∈ items ->
  js_get bad "valid_date" = Ok JUndefined ->
  handle (Settle i (Response status statusText (success_body (JArr items)))) p
  = (set_inflight (delete i) p, Ok tt).
Proof.
  intros Hi Hl Hok Hch Hbad Hdate.
  destruct (mapM_Throw (daily_row (plotted_fields weatherDailyChart)) items bad Hbad)
    as [m Hm].
  { rewrite daily_row_eq, Hdate. simpl. eauto. }
  assert (Hs : series_of weatherDailyChart (JArr items) = Throw m).
  { change (series_of weatherDailyChart (JArr items))
      with (daily_series (plotted_fields weatherDailyChart) (JArr items)).
    rewrite daily_series_eq. by rewrite Hm. }
  assert (Hitems : items <> []).
  { intros ->. by apply elem_of_nil in Hbad. }
  unfold handle. rewrite Hi, Hl.
  set (p1 := set_inflight (delete i) p).
  unfold load_resume, async, try_catch, fetchData_resume. unfold_M.
  rewrite Hok. simpl. unfold_M.
  unfold updateWeatherDailyChart.
  rewrite (update_chart_throws weatherDailyChart (JArr items) p1 ch m Hch
             (records_to_plot items Hitems) eq_refl Hs).
  reflexivity.
Qed.

(** X15. The label of a record is its calendar day: for every daily chart and
    every record whose [valid_date] is a year, a month and a day of the
    calendar separated by dashes, the label at the record's position is the
    short month name and the day number, whatever the browser's time zone
    and whatever follows the digits of the day. *)
Theorem daily_label_is_the_calendar_day
    (c : ChartVar) (items : list JsVal) (i : nat) (record : JsVal)
    (sy sm sd : string) (y m d : Z) (s : Series) :
  plotted_fields c <> [] ->
  items !! i = Some record ->
  js_get record "valid_date" = Ok (JStr (sy ++ "-" ++ sm ++ "-" ++ sd)) ->
  free_of "-" sy = true -> free_of "-" sm = true -> free_of "-" sd = true ->
  parseInt (Some sy) = Some y ->
  parseInt (Some sm) = Some m ->
  parseInt (Some sd) = Some d ->
  100 <= y <= 9999 -> 1 <= m <= 12 -> 1 <= d <= days_in_month y m ->
  series_of c (JArr items) = Ok s ->
  s_labels s !! i = Some (month_short m ++ " " ++ dec d).
Proof.
  intros Hc Hi Hdate Fy Fm Fd Py Pm Pd Ry Rm Rd Hs.
  destruct (daily_chart_shape c Hc) as (_ & Hseries & _). rewrite Hseries in Hs.
  destruct (daily_series_points _ _ _ Hs) as (_ & _ & Hlbl & _).
  destruct (Hlbl i record Hi) as (v & label & Hv & Hlabel & Hl).
  rewrite Hdate in Hv. inversion Hv; subst v.
  rewrite (date_label_is_the_utc_day sy sm sd y m d) in Hlabel by done.
  inversion Hlabel; subst label. exact Hl.
Qed.

(** X16. A date that does not parse is labelled, not rejected: when the year,
    the month or the day of a [valid_date] string of ASCII characters has
    no leading digits (or is missing), the label pushed for the record is
    "Invalid Date" and the update goes on. *)
Theorem unparsable_date_is_labelled_invalid
    (c : ChartVar) (items : list JsVal) (i : nat) (record : JsVal)
    (valid_date : string) (s : Series) :
  plotted_fields c <> [] ->
  items !! i = Some record ->
  js_get record "valid_date" = Ok (JStr valid_date) ->
  is_ascii_string valid_date = true ->
  parseInt (split "-" valid_date !! 0%nat) = None \/
  parseInt (split "-" valid_date !! 1%nat) = None \/
  parseInt (split "-" valid_date !! 2%nat) = None ->
  series_of c (JArr items) = Ok s ->
  s_labels s !! i = Some "Invalid Date".
Proof.
  intros Hc Hi Hdate _ Hparse Hs.
  destruct (daily_chart_shape c Hc) as (_ & Hseries & _). rewrite Hseries in Hs.
  destruct (daily_series_points _ _ _ Hs) as (_ & _ & Hlbl & _).
  destruct (Hlbl i record Hi) as (v & label & Hv & Hlabel & Hl).
  rewrite Hdate in Hv. inversion Hv; subst v.
  rewrite date_label_eq in Hlabel.
  assert (Hinvalid :
            Date_UTC (parseInt (split "-" valid_date !! 0%nat))
              (option_map (fun m => m - 1) (parseInt (split "-" valid_date !! 1%nat)))
              (parseInt (split "-" valid_date !! 2%nat)) = None).
  { destruct Hparse as [-> | [-> | ->]]; simpl; try done.
    - by destruct (parseInt (split "-" valid_date !! 0%nat)).
    - destruct (parseInt (split "-" valid_date !! 0%nat)); [|done].
      by destruct (option_map _ _). }
  rewrite Hinvalid in Hlabel. simpl in Hlabel. inversion Hlabel; subst label.
  exact Hl.
Qed.

(** X17. A reading of zero is plotted as a gap: [||] takes its right operand
    for every falsy value, so a day whose maximum or minimum temperature is
    0 gets [null] at its position in the temperature chart, as a day with
    no reading does. *)
Theorem zero_temperature_is_plotted_as_a_gap
    (j : nat) (field : string) (items : list JsVal) (i : nat) (record : JsVal)
    (s : Series) :
  (j, field) ∈ [(0%nat, "temperature_2m_max"); (1%nat, "temperature_2m_min")] ->
  items !! i = Some record ->
  js_get record field = Ok (JNum 0) ->
  series_of weatherDailyChart (JArr items) = Ok s ->
  exists points,
    s_datasets s !! j = Some (JArr points, None) /\ points !! i = Some JNull.
Proof.
  intros Hin Hday Hzero Hs.
  assert (Hj : plotted_fields weatherDailyChart !! j = Some (field, JNull)).
  { repeat (apply elem_of_cons in Hin as [Heq|Hin]; [by inversion Heq; subst|]).
    by apply elem_of_nil in Hin. }
  change (series_of weatherDailyChart (JArr items))
    with (daily_series (plotted_fields weatherDailyChart) (JArr items)) in Hs.
  destruct (daily_series_points _ _ _ Hs) as (_ & _ & _ & Hcols).
  destruct (Hcols j field JNull Hj) as (col & Hcol & _ & Hpoints).
  destruct (Hpoints i _ Hday) as (v & Hv & Hi).
  exists col. split; [done|].
  rewrite Hzero in Hv. inversion Hv; subst v. exact Hi.
Qed.

(** *** Creation of the charts *)

Lemma chart_name_inj (c c' : ChartVar) : chart_name c = chart_name c' -> c = c'.
Proof. destruct c, c'; simpl; intros H; first [reflexivity | discriminate H]. Qed.

Lemma create_chart_charts (c0 c : ChartVar) (p : Page) :
  create_chart c0 p = ((create_chart c0 p).1, Ok tt) /\
  canvases (create_chart c0 p).1 = canvases p /\
  (canvas_id c0 ∈ canvases p ->
   charts (create_chart c0 p).1 !! chart_name c0
   = Some (empty_chart (dataset_count c0))) /\
  (c <> c0 \/ canvas_id c0 ∉ canvases p ->
   charts (create_chart c0 p).1 !! chart_name c = charts p !! chart_name c).
Proof.
  unfold create_chart.
  destruct (decide (canvas_id c0 ∈ canvases p)) as [Hin|Hout]; simpl.
  - split; [done|]. split; [done|]. split.
    + intros _. apply lookup_insert_eq.
    + intros [Hne | Hn]; [|done]. apply lookup_insert_ne.
      intros E. apply chart_name_inj in E. by subst.
  - done.
Qed.

Lemma mapM_create_chart (cs : list ChartVar) (c : ChartVar) :
  forall p : Page,
    exists p' us,
      mapM create_chart cs p = (p', Ok us) /\
      canvases p' = canvases p /\
      (c ∈ cs -> canvas_id c ∈ canvases p ->
       charts p' !! chart_name c = Some (empty_chart (dataset_count c))) /\
      (c ∉ cs \/ canvas_id c ∉ canvases p ->
       charts p' !! chart_name c = charts p !! chart_name c).
Proof.
  induction cs as [|c0 cs IH]; intros p.
  - exists p, []. split; [done|]. split; [done|]. split; [|done].
    intros H. by apply elem_of_nil in H.
  - destruct (create_chart_charts c0 c p) as (E0 & Hcanv0 & Hnew0 & Hold0).
    destruct (IH (create_chart c0 p).1) as (p' & us & E & Hcanv & Hnew & Hold).
    exists p', (tt :: us). split; [|split; [|split]].
    + simpl. unfold_M. rewrite E0. simpl. by rewrite E.
    + congruence.
    + intros Hin Hc.
      destruct (decide (c ∈ cs)) as [Hcs|Hcs].
      * apply Hnew; [done|]. by rewrite Hcanv0.
      * apply elem_of_cons in Hin as [-> | Hin]; [|done].
        rewrite Hold by (by left). by apply Hnew0.
    + intros Hout. rewrite Hold, Hold0.
      * done.
      * destruct (decide (c = c0)) as [-> | Hne]; [|by left].
        destruct Hout as [Hout | Hout]; [|by right].
        exfalso. apply Hout, list_elem_of_here.
      * destruct Hout as [Hout | Hout]; [|right; by rewrite Hcanv0].
        left. intros Hin. by apply Hout, list_elem_of_further.
Qed.

(** X12. [initializeWeatherCharts] creates the charts that have a canvas and no
    others: it returns normally; each of the nineteen chart variables whose
    canvas is on the page holds a new chart with no labels and the number
    of datasets its create function declares, each with empty data; and a
    variable whose canvas is missing is left as it was (null on a fresh
    page, so that its update function never draws). *)
Theorem initialization_creates_the_charts_with_a_canvas (c : ChartVar) (p : Page) :
  exists p',
    initializeWeatherCharts p = (p', Ok tt) /\
    (canvas_id c ∈ canvases p ->
     charts p' !! chart_name c = Some (empty_chart (dataset_count c))) /\
    (canvas_id c ∉ canvases p ->
     charts p' !! chart_name c = charts p !! chart_name c).
Proof.
  destruct (mapM_create_chart created_charts c p) as (p' & us & E & _ & Hnew & Hold).
  exists p'. split; [|split].
  - unfold initializeWeatherCharts. unfold_M. by rewrite E.
  - intros Hc. apply Hnew; [|done].
    destruct c;
      repeat first [apply list_elem_of_here | apply list_elem_of_further].
  - intros Hc. apply Hold. by right.
Qed.

(** *** Location ids, written and read back *)








(** *** The location selector *)

Lemma add_location_option_cases (availableLocations : list Location)
    (custom_name : UserLocation -> string)
    (acc : list SelectOption * option Z) (ul : UserLocation) :
  (listed availableLocations ul = false /\
   add_location_option availableLocations custom_name acc ul = acc) \/
  (listed availableLocations ul = true /\
   exists opt,
     option_value opt = dec (user_location_id ul) /\
     option_selected opt = is_primary ul /\
     add_location_option availableLocations custom_name acc ul
     = ((acc.1 ++ [opt])%list,
        if is_primary ul then Some (user_location_id ul) else acc.2)).
Proof.
  unfold listed, add_location_option.
  destruct (find _ availableLocations) as [location|]; [right|left; done].
  split; [done|]. eexists (Build_SelectOption _ _ _). simpl.
  split; [reflexivity|]. split; reflexivity.
Qed.

Lemma add_location_options (availableLocations : list Location)
    (custom_name : UserLocation -> string) (l : list UserLocation) :
  forall acc : list SelectOption * option Z,
    let result := foldl (add_location_option availableLocations custom_name) acc l in
    map option_value result.1
    = (map option_value acc.1
       ++ map (fun ul => dec (user_location_id ul))
              (List.filter (listed availableLocations) l))%list /\
    map option_selected result.1
    = (map option_selected acc.1
       ++ map is_primary (List.filter (listed availableLocations) l))%list /\
    result.2
    = match last (List.filter (listed_primary availableLocations) l) with
      | Some ul => Some (user_location_id ul)
      | None => acc.2
      end.
Proof.
  induction l as [|ul l IH]; intros acc.
  - simpl. by rewrite !app_nil_r.
  - cbn [foldl List.filter]. unfold listed_primary at 1.
    destruct (add_location_option_cases availableLocations custom_name acc ul)
      as [(Hl & ->) | (Hl & opt & Hv & Hs & ->)]; rewrite Hl.
    + apply IH.
    + specialize (IH ((acc.1 ++ [opt])%list,
                      if is_primary ul then Some (user_location_id ul) else acc.2)).
      cbv zeta in *. destruct IH as (Hv' & Hs' & Ha').
      rewrite Hv', Hs', Ha'. cbn [fst snd andb map].
      rewrite !map_app. cbn [map]. rewrite Hv, Hs, <- !app_assoc.
      split; [done|]. split; [done|].
      destruct (is_primary ul); [|done].
      rewrite last_cons.
      by destruct (last (List.filter (listed_primary availableLocations) l)).
Qed.



(** X19. Without a primary location the dashboard starts empty: when no
    location is active yet and none of the user's locations that get an
    option is primary, [populateLocationSelector] leaves no active
    location, and the refresh that follows it at start-up (and every
    later one, until the selection changes) issues no request and shows
    nothing. *)
Theorem no_primary_location_loads_nothing
    (selector : option (list SelectOption)) (availableLocations : list Location)
    (custom_name : UserLocation -> string) (p : Page) :
  activeLocationId p = None ->
  List.filter (listed_primary availableLocations) (userLocations p) = [] ->
  let p' := (populateLocationSelector selector availableLocations custom_name p).1 in
  activeLocationId p' = None /\
  refreshAllCharts p' = (set_refreshBtn (fmap (fun _ : bool => true)) S p', Ok tt).
Proof.
  intros Hactive Hnone p'.
  assert (Hp' : activeLocationId p' = None).
  { subst p'. unfold populateLocationSelector.
    destruct selector as [old|]; [|done].
    destruct (add_location_options availableLocations custom_name (userLocations p)
                ([], activeLocationId p)) as (_ & _ & Ha).
    destruct (userLocations p) as [|ul l] eqn:E; [done|].
    cbn [fst activeLocationId set_activeLocationId]. rewrite Ha, Hnone. done. }
  split; [done|]. apply refreshAllCharts_unresolved. left. by rewrite Hp'.
Qed.



End Dashboard.

(** ** The properties on the example page *)

Lemma update_without_chart_is_noop_witness :
  charts example_page !! chart_name weatherDailyChart = None /\
  update_chart (-300) plain_series weatherDailyChart (JArr [nov12]) example_page
  = (example_page, Ok tt).
Proof.
  split; [reflexivity|].
  apply (update_without_chart_is_noop (-300) plain_series weatherDailyChart).
  reflexivity.
Defined.

Lemma fetch_without_token_fails_before_request_witness :
  access_token logged_out_page = None /\
  call_client DailyWeather 3 logged_out_page
  = (logged_out_page, Throw (Text "No authentication token found")).
Proof.
  split; [reflexivity|].
  apply (fetch_without_token_fails_before_request DailyWeather 3 logged_out_page).
  reflexivity.
Defined.

Lemma missing_reading_defaults_witness :
  [nov12; nov13_no_readings] !! 1%nat = Some (JObj [("valid_date", JStr "2025-11-13")]) /\
  assoc "temperature_2m_max" [("valid_date", JStr "2025-11-13")] = None /\
  series_of (-300) plain_series weatherDailyChart (JArr [nov12; nov13_no_readings])
  = Ok {| s_labels := ["Nov 12"; "Nov 13"];
          s_datasets := [(JArr [JNum (214 # 10); JNull], None);
                         (JArr [JNum (110 # 10); JNull], None)] |} /\
  exists points,
    [(JArr [JNum (214 # 10); JNull], @None JsVal);
     (JArr [JNum (110 # 10); JNull], None)] !! 0%nat = Some (JArr points, None) /\
    points !! 1%nat = Some JNull.
Proof.
  split; [reflexivity|]. split; [reflexivity|]. split; [vm_compute; reflexivity|].
  apply (missing_reading_defaults (-300) plain_series weatherDailyChart 0
           "temperature_2m_max" JNull [nov12; nov13_no_readings] 1
           [("valid_date", JStr "2025-11-13")]
           {| s_labels := ["Nov 12"; "Nov 13"];
              s_datasets := [(JArr [JNum (214 # 10); JNull], None);
                             (JArr [JNum (110 # 10); JNull], None)] |}).
  - do 4 apply list_elem_of_further. apply list_elem_of_here.
  - reflexivity.
  - reflexivity.
  - vm_compute. reflexivity.
Defined.

Lemma daily_temperature_first_point_witness :
  inflight refreshed_page !! 1%nat
  = Some (pending_for DailyWeather "http://localhost:8000/weather/daily/3") /\
  charts refreshed_page !! "weatherDailyChart" = Some empty_temperature_chart /\
  Forall well_dated [nov13_no_readings] /\
  exists p' ch' maxTemps,
    handle (-300) plain_series plain_cards
      (Settle 1 (Response 200 "OK"
         (success_body
            (JArr (JObj [("valid_date", JStr "2025-11-12");
                         ("temperature_2m_max", JNum (214 # 10));
                         ("temperature_2m_min", JNum (110 # 10))]
                   :: [nov13_no_readings])))))
      refreshed_page = (p', Ok tt) /\
    charts p' !! "weatherDailyChart" = Some ch' /\
    labels ch' !! 0%nat = Some "Nov 12" /\
    ds_data <$> datasets ch' !! 0%nat = Some (JArr maxTemps) /\
    maxTemps !! 0%nat = Some (JNum (214 # 10)).
Proof.
  assert (Hrest : Forall well_dated [nov13_no_readings]).
  { constructor; [|constructor]. exists "2025-11-13". reflexivity. }
  split; [vm_compute; reflexivity|]. split; [vm_compute; reflexivity|].
  split; [exact Hrest|].
  apply (daily_temperature_first_point (-300) plain_series plain_cards 200 "OK"
           [("valid_date", JStr "2025-11-12");
            ("temperature_2m_max", JNum (214 # 10));
            ("temperature_2m_min", JNum (110 # 10))]
           [nov13_no_readings] 1
           (pending_for DailyWeather "http://localhost:8000/weather/daily/3")
           refreshed_page empty_temperature_chart).
  - vm_compute; reflexivity.
  - reflexivity.
  - reflexivity.
  - vm_compute; reflexivity.
  - simpl; lia.
  - reflexivity.
  - reflexivity.
  - exact Hrest.
Defined.


Lemma refreshAllCharts_always_launches_witness :
  length (inflight refreshed_page) = 10%nat /\
  find_userLoc refreshed_page
  = Some {| user_location_id := 7; location_id := 3; is_primary := true |} /\
  access_token refreshed_page = Some "token" /\
  exists added,
    inflight (refreshAllCharts refreshed_page).1 = (inflight refreshed_page ++ added)%list /\
    map awaiting added = all_loaders /\
    (refreshAllCharts refreshed_page).2 = Ok tt.
Proof.
  split; [vm_compute; reflexivity|]. split; [vm_compute; reflexivity|].
  split; [vm_compute; reflexivity|].
  apply (refreshAllCharts_always_launches refreshed_page
           {| user_location_id := 7; location_id := 3; is_primary := true |} "token").
  - vm_compute; reflexivity.
  - vm_compute; reflexivity.
  - vm_compute; reflexivity.
  - discriminate.
Defined.

Lemma empty_data_keeps_previous_series_witness :
  inflight refreshed_page !! 1%nat
  = Some (pending_for DailyWeather "http://localhost:8000/weather/daily/3") /\
  exists p',
    handle (-300) plain_series plain_cards
      (Settle 1 (Response 200 "OK"
                   (Json (JObj [("success", JBool true); ("data", JArr [])]))))
      refreshed_page = (p', Ok tt) /\
    charts p' = charts refreshed_page /\
    uncaught p' = uncaught refreshed_page /\
    (fills_cards DailyWeather = false -> p' = set_inflight (delete 1%nat) refreshed_page).
Proof.
  split; [vm_compute; reflexivity|].
  apply (empty_data_keeps_previous_series (-300) plain_series plain_cards
           DailyWeather 200 "OK" [("success", JBool true); ("data", JArr [])] 1
           (pending_for DailyWeather "http://localhost:8000/weather/daily/3")
           refreshed_page).
  - vm_compute; reflexivity.
  - reflexivity.
  - reflexivity.
  - reflexivity.
  - reflexivity.
Defined.

Lemma late_response_is_applied_witness :
  let p := run (-300) plain_series plain_cards
             [LocationChange "8"; Settle 11 (ok_with (JArr [jul01]))] refreshed_page in
  activeLocationId p = Some 8 /\
  inflight p !! 1%nat
  = Some (pending_for DailyWeather "http://localhost:8000/weather/daily/3") /\
  charts p !! "weatherDailyChart"
  = Some (temperature_chart "Jul 1" (305 # 10) (198 # 10)) /\
  exists ch',
    charts (dispatch (-300) plain_series plain_cards p
              (Settle 1 (Response 200 "OK" (success_body (JArr [nov12])))))
      !! "weatherDailyChart" = Some ch' /\
    labels ch' = ["Nov 12"] /\
    forall j d,
      [(JArr [JNum (214 # 10)], @None JsVal); (JArr [JNum (110 # 10)], None)] !! j = Some d ->
      ds_data <$> datasets ch' !! j = Some d.1.
Proof.
  intros p.
  split; [vm_compute; reflexivity|]. split; [vm_compute; reflexivity|].
  split; [vm_compute; reflexivity|].
  apply (late_response_is_applied (-300) plain_series plain_cards 200 "OK" [nov12] 1
           (pending_for DailyWeather "http://localhost:8000/weather/daily/3") p
           (temperature_chart "Jul 1" (305 # 10) (198 # 10))
           {| s_labels := ["Nov 12"];
              s_datasets := [(JArr [JNum (214 # 10)], None);
                             (JArr [JNum (110 # 10)], None)] |}).
  - vm_compute; reflexivity.
  - reflexivity.
  - reflexivity.
  - discriminate.
  - vm_compute; reflexivity.
  - vm_compute; reflexivity.
  - simpl; lia.
Defined.

(** *** The general request helper *)

Lemma apiRequest_resolves (o : FetchOutcome) (data : JsVal) :
  apiRequest_resume o = Fulfilled data <->
  exists status statusText,
    o = Response status statusText (Json data) /\ response_ok status = true.
Proof.
  unfold apiRequest_resume, apiRequest_try. split.
  - destruct o as [|status statusText [v|]]; try done.
    destruct (response_ok status) eqn:Hok; simpl.
    + intros E. inversion E; subst. by exists status, statusText.
    + by destruct (error_of_response status v).
  - intros (status & statusText & -> & Hok). by rewrite Hok.
Qed.

Lemma error_of_response_status (status : Z) (data : JsVal) (e : ApiError) :
  error_of_response status data = Ok e -> err_status e = status.
Proof.
  unfold error_of_response. unfold mbind, result_bind, rbind.
  destruct (js_get data "detail"); [|done].
  destruct (js_get data "message"); [|done].
  destruct (js_get data "errors"); [|done].
  destruct (js_get data "validation_errors"); [|done].
  intros E. by inversion E.
Qed.

(** X21. How [apiRequest] settles. It resolves exactly on a 2xx response
    whose body parses, and then with the parsed body, whatever it holds
    (unlike [fetchData] it does not look at [success]). A rejection always
    carries a status: it is the network error (status 0) or the status of a
    response that was received. For an error status and a JSON object as
    body the message is the body's [detail] if that is truthy, else its
    [message] if that is truthy, else "An error occurred" (and likewise
    [errors], then [validation_errors], then [null]). The network error is
    also what is reported when the server did answer, with an error status
    and the JSON body [null]; and a 2xx response whose body does not parse
    is rejected with its own 2xx status. *)
Theorem apiRequest_outcomes (o : FetchOutcome) :
  (forall data,
     apiRequest_resume o = Fulfilled data <->
     exists status statusText,
       o = Response status statusText (Json data) /\ response_ok status = true) /\
  (forall e, apiRequest_resume o = Rejected e ->
     e = network_error \/
     exists status statusText body,
       o = Response status statusText body /\ status <> 0 /\ err_status e = status) /\
  apiRequest_resume NoResponse = Rejected network_error /\
  (forall status statusText fields,
     response_ok status = false -> status <> 0 ->
     apiRequest_resume (Response status statusText (Json (JObj fields)))
     = Rejected
         {| err_status := status;
            err_message :=
              js_or (default JUndefined (assoc "detail" fields))
                (js_or (default JUndefined (assoc "message" fields))
                   (JStr "An error occurred"));
            err_errors :=
              js_or (default JUndefined (assoc "errors" fields))
                (js_or (default JUndefined (assoc "validation_errors" fields)) JNull);
            err_fullError := JObj fields |}) /\
  (forall status statusText,
     response_ok status = false ->
     apiRequest_resume (Response status statusText (Json JNull)) = Rejected network_error) /\
  (forall status statusText,
     response_ok status = true ->
     apiRequest_resume (Response status statusText NotJson)
     = Rejected {| err_status := status;
                   err_message := JStr "Invalid response from server";
                   err_errors := JNull;
                   err_fullError := JUndefined |}).
Proof.
  split; [apply apiRequest_resolves|].
  split; [|split; [done|split; [|split]]].
  - intros e. unfold apiRequest_resume, apiRequest_try.
    destruct o as [|status statusText [v|]].
    + intros E. inversion E. by left.
    + destruct (response_ok status); [done|].
      destruct (error_of_response status v) as [e'|m] eqn:He.
      * simpl. intros E. inversion E. subst e.
        rewrite (error_of_response_status _ _ _ He).
        destruct (Z.eqb_spec status 0); [by left|]. right.
        exists status, statusText, (Json v).
        by rewrite (error_of_response_status _ _ _ He).
      * intros E. inversion E. by left.
    + simpl. intros E. inversion E. subst e.
      destruct (Z.eqb_spec status 0); [by left|]. right.
      by exists status, statusText, NotJson.
  - intros status statusText fields Hok Hnz.
    unfold apiRequest_resume, apiRequest_try. rewrite Hok. simpl.
    by destruct (Z.eqb_spec status 0).
  - intros status statusText Hok. unfold apiRequest_resume, apiRequest_try.
    by rewrite Hok.
  - intros status statusText Hok. unfold apiRequest_resume, apiRequest_try.
    simpl. destruct (Z.eqb_spec status 0) as [->|]; [done|reflexivity].
Qed.

(** *** Token storage *)

(** X22. A stored token is read back, and counts as a session unless it is the
    empty string. A refresh token that is absent or empty is not stored:
    the one of an earlier session stays. And a response without an access
    token leaves the text "undefined" as the token, which counts as a
    session. *)
Theorem stored_token_is_read_back
    (accessToken refreshToken : TokenArg) (st : gmap string string) :
  getToken (storeTokens accessToken refreshToken st) = Some (token_text accessToken) /\
  isAuthenticated (storeTokens accessToken refreshToken st)
  = negb (String.eqb (token_text accessToken) "") /\
  storeTokens accessToken refreshToken st !! "refresh_token"
  = (if token_truthy refreshToken then Some (token_text refreshToken)
     else st !! "refresh_token") /\
  isAuthenticated (storeTokens TokenUndefined refreshToken st) = true.
Proof.
  assert (Hget : forall a, getToken (storeTokens a refreshToken st) = Some (token_text a)).
  { intros a. unfold getToken, storeTokens. cbv zeta.
    destruct (token_truthy refreshToken).
    - rewrite lookup_insert_ne by done. apply lookup_insert_eq.
    - apply lookup_insert_eq. }
  split; [apply Hget|]. split; [|split].
  - unfold isAuthenticated. by rewrite Hget.
  - unfold storeTokens. cbv zeta. destruct (token_truthy refreshToken).
    + apply lookup_insert_eq.
    + by rewrite lookup_insert_ne.
  - unfold isAuthenticated. by rewrite Hget.
Qed.

(** X23. Clearing ends the session whatever was stored: after [clearAuthData]
    and after [logoutUser] there is no token, [isAuthenticated] is false and
    the refresh token and the user are gone. The two differ on
    [remember_me]: [clearAuthData] removes it, [logoutUser] keeps it; no
    other key is touched by either. *)
Theorem cleared_storage_has_no_session (st : gmap string string) :
  (getToken (clearAuthData st) = None /\
   isAuthenticated (clearAuthData st) = false /\
   clearAuthData st !! "refresh_token" = None /\
   clearAuthData st !! "user" = None /\
   clearAuthData st !! "remember_me" = None) /\
  (getToken (logoutUser st).1 = None /\
   isAuthenticated (logoutUser st).1 = false /\
   (logoutUser st).1 !! "refresh_token" = None /\
   (logoutUser st).1 !! "user" = None /\
   (logoutUser st).1 !! "remember_me" = st !! "remember_me" /\
   (logoutUser st).2 = "/login.html") /\
  (forall k, k <> "access_token" -> k <> "refresh_token" -> k <> "user" ->
             k <> "remember_me" ->
             clearAuthData st !! k = st !! k /\ (logoutUser st).1 !! k = st !! k).
Proof.
  assert (Hc : getToken (clearAuthData st) = None).
  { unfold getToken, clearAuthData.
    rewrite !lookup_delete_ne by done. apply lookup_delete_eq. }
  assert (Hl : getToken (logoutUser st).1 = None).
  { unfold getToken, logoutUser. simpl.
    rewrite !lookup_delete_ne by done. apply lookup_delete_eq. }
  split; [|split].
  - split; [done|]. split; [by unfold isAuthenticated; rewrite Hc|].
    unfold clearAuthData. split; [|split].
    + rewrite !lookup_delete_ne by done. apply lookup_delete_eq.
    + rewrite lookup_delete_ne by done. apply lookup_delete_eq.
    + apply lookup_delete_eq.
  - split; [done|]. split; [by unfold isAuthenticated; rewrite Hl|].
    unfold logoutUser. simpl. split; [|split; [|split]].
    + rewrite lookup_delete_ne by done. apply lookup_delete_eq.
    + apply lookup_delete_eq.
    + by rewrite !lookup_delete_ne.
    + done.
  - intros k H1 H2 H3 H4. unfold clearAuthData, logoutUser. simpl.
    by rewrite !lookup_delete_ne.
Qed.

(** *** Password strength *)

Lemma has_char_app (class : ascii -> bool) (a b : string) :
  has_char class (a ++ b) = has_char class a || has_char class b.
Proof.
  induction a as [|c a IH]; [done|].
  rewrite append_cons. simpl. by rewrite IH, orb_assoc.
Qed.

Lemma length_app (a b : string) :
  String.length (a ++ b) = (String.length a + String.length b)%nat.
Proof.
  induction a as [|c a IH]; [done|]. rewrite append_cons. simpl. by rewrite IH.
Qed.

Lemma has_char_within (class : ascii -> bool) (before password after : string) :
  has_char class password = true ->
  has_char class (before ++ password ++ after) = true.
Proof. intros H. by rewrite !has_char_app, H, orb_true_r. Qed.

Lemma password_score_within (before password after : string) :
  (password_score (validatePassword password)
   <= password_score (validatePassword (before ++ password ++ after)))%nat.
Proof.
  unfold password_score, validatePassword. cbn [length_ok hasUpperCase hasLowerCase
    hasNumber hasSpecialChar].
  assert (H1 : forall b b' : bool, (b = true -> b' = true) ->
             ((if b then 1 else 0) <= (if b' then 1 else 0))%nat).
  { intros [] [] H; try lia; by specialize (H eq_refl). }
  pose proof (H1 _ _ (has_char_within is_upper before password after)).
  pose proof (H1 _ _ (has_char_within is_lower before password after)).
  pose proof (H1 _ _ (has_char_within is_digit before password after)).
  pose proof (H1 _ _ (has_char_within is_special before password after)).
  assert (((if (8 <=? String.length password)%nat then 1 else 0)
           <= (if (8 <=? String.length (before ++ password ++ after))%nat
               then 1 else 0))%nat).
  { apply H1. intros Hlen. apply Nat.leb_le in Hlen. apply Nat.leb_le.
    rewrite !length_app. lia. }
  lia.
Qed.

Lemma password_strength_monotone (before password after : string) :
  (strength_rank (getPasswordStrength password)
   <= strength_rank (getPasswordStrength (before ++ password ++ after)))%nat.
Proof.
  pose proof (password_score_within before password after) as H.
  unfold getPasswordStrength. cbv zeta.
  destruct (Nat.leb_spec (password_score (validatePassword password)) 2);
    destruct (Nat.leb_spec (password_score (validatePassword password)) 4);
    destruct (Nat.leb_spec
                (password_score (validatePassword (before ++ password ++ after))) 2);
    destruct (Nat.leb_spec
                (password_score (validatePassword (before ++ password ++ after))) 4);
    try lia; vm_compute; lia.
Qed.

Lemma strong_password_checks (password : string) :
  getPasswordStrength password = "strong" <->
  (8 <= String.length password)%nat /\
  has_char is_upper password = true /\
  has_char is_lower password = true /\
  has_char is_digit password = true /\
  has_char is_special password = true.
Proof.
  unfold getPasswordStrength, validatePassword, password_score.
  cbn [length_ok hasUpperCase hasLowerCase hasNumber hasSpecialChar]. cbv zeta.
  rewrite <- Nat.leb_le.
  destruct (8 <=? String.length password)%nat,
    (has_char is_upper password), (has_char is_lower password),
    (has_char is_digit password), (has_char is_special password);
    vm_compute; (split; intros H; try done;
                 try (by destruct H as (? & ? & ? & ? & ?))).
Qed.

(** X24. The strength of a password grows with it: a password that
    contains another one (with anything before and after it) is rated at
    least as strong, in the order weak, medium, strong. And "strong" means
    all five checks: at least 8 characters, an upper case letter, a lower
    case letter, a digit and a special character. *)
Theorem longer_password_is_never_weaker (before password after : string) :
  (strength_rank (getPasswordStrength password)
   <= strength_rank (getPasswordStrength (before ++ password ++ after)))%nat /\
  (getPasswordStrength password = "strong" <->
   (8 <= String.length password)%nat /\
   has_char is_upper password = true /\
   has_char is_lower password = true /\
   has_char is_digit password = true /\
   has_char is_special password = true).
Proof.
  split; [apply password_strength_monotone|apply strong_password_checks].
Qed.

(** *** Compass points *)

(** X25. The point returned is the nearest one: for a whole direction from 0
    to 360 degrees a compass point is returned, and it is the point within
    11.25 degrees of the direction (point [k] stands at [22.5 * k]
    degrees; from 348.75 degrees on the point is N again, one turn
    later). *)
Theorem wind_direction_is_the_nearest_point (degrees : Z) :
  0 <= degrees <= 360 ->
  exists (k : nat) (turns : Z) (point : string),
    getWindDirection degrees = Some point /\
    compass_points !! k = Some point /\
    (k < 16)%nat /\
    0 <= turns <= 1 /\
    -45 <= 4 * degrees - 90 * Z.of_nat k - 1440 * turns < 45.
Proof.
  intros Hd. unfold getWindDirection, round_to_sector. cbv zeta.
  set (r := (4 * degrees + 45) / 90).
  assert (Hr : 0 <= r /\ -45 <= 4 * degrees - 90 * r < 45).
  { subst r. Z.to_euclidean_division_equations. lia. }
  assert (Hi : 0 <= Z.rem r 16 < 16 /\ r = 16 * Z.quot r 16 + Z.rem r 16).
  { Z.to_euclidean_division_equations. lia. }
  clearbody r. destruct Hi as [Hi Hq].
  destruct (Z.ltb_spec (Z.rem r 16) 0); [lia|].
  assert (Hk : (Z.to_nat (Z.rem r 16) < length compass_points)%nat).
  { simpl. lia. }
  destruct (lookup_lt_is_Some_2 _ _ Hk) as [point Hpoint].
  exists (Z.to_nat (Z.rem r 16)), (Z.quot r 16), point.
  split; [done|]. split; [done|]. split; [simpl in Hk; lia|].
  rewrite Z2Nat.id by lia.
  assert (0 <= Z.quot r 16 <= 1) by (Z.to_euclidean_division_equations; lia).
  lia.
Qed.

(** X26. A negative direction has no point: from -12 down to -348 degrees the
    rounded quotient is negative and so is its remainder, and the index
    reads [undefined]. *)
Theorem negative_direction_has_no_point (degrees : Z) :
  -348 <= degrees <= -12 ->
  getWindDirection degrees = None /\ getCompassDirection degrees = None.
Proof.
  intros Hd. unfold getCompassDirection, getWindDirection, round_to_sector. cbv zeta.
  assert (H : Z.rem ((4 * degrees + 45) / 90) 16 < 0).
  { Z.to_euclidean_division_equations. lia. }
  destruct (Z.ltb_spec (Z.rem ((4 * degrees + 45) / 90) 16) 0); [done|lia].
Qed.

(** *** Weekly sampling *)

Lemma filter_every_seventh {A} (l : list A) :
  forall (from q r k : nat),
    from = (7 * q + r)%nat -> (r < 7)%nat ->
    filter_by_index (fun index => (index mod 7 =? 0)%nat) from l !! k
    = l !! ((if (r =? 0)%nat then 0 else 7 - r) + 7 * k)%nat /\
    exists m,
      length (filter_by_index (fun index => (index mod 7 =? 0)%nat) from l) = m /\
      (7 * m <= length l + (if (r =? 0)%nat then 6 else r - 1) < 7 * m + 7)%nat.
Proof.
  induction l as [|x l IH]; intros from q r k Hfrom Hr.
  - simpl. split; [done|]. exists 0%nat. split; [done|]. destruct (r =? 0)%nat eqn:E.
    + lia.
    + apply Nat.eqb_neq in E. lia.
  - assert (Hmod : (from mod 7 = r)%nat).
    { subst from. rewrite Nat.add_comm, Nat.mul_comm, Nat.Div0.mod_add.
      by apply Nat.mod_small. }
    cbn [filter_by_index]. rewrite Hmod.
    destruct (Nat.eqb_spec r 0) as [-> | Hnz].
    + destruct (IH (S from) q 1%nat (pred k)) as (Hk & m & Hm & Hbound);
        [lia|lia|].
      split.
      * destruct k as [|k]; [done|]. cbn [pred] in Hk.
        change ((x :: filter_by_index (fun index => (index mod 7 =? 0)%nat) (S from) l)
                  !! S k)
          with (filter_by_index (fun index => (index mod 7 =? 0)%nat) (S from) l !! k).
        rewrite Hk. change (1 =? 0)%nat with false. cbv iota.
        replace (0 + 7 * S k)%nat with (S (7 - 1 + 7 * k)) by lia. done.
      * exists (S m). cbn [length]. split; [by rewrite Hm|].
        change (1 =? 0)%nat with false in Hbound. cbv iota in Hbound. lia.
    + destruct (decide (r = 6%nat)) as [-> | H6].
      * destruct (IH (S from) (S q) 0%nat k) as (Hk & m & Hm & Hbound); [lia|lia|].
        change (6 =? 0)%nat with false. cbv iota.
        split.
        -- rewrite Hk. change (0 =? 0)%nat with true. cbv iota.
           replace (7 - 6 + 7 * k)%nat with (S (0 + 7 * k)) by lia. done.
        -- exists m. split; [done|].
           change (0 =? 0)%nat with true in Hbound. cbv iota in Hbound.
           cbn [length]. lia.
      * destruct (IH (S from) q (S r) k) as (Hk & m & Hm & Hbound); [lia|lia|].
        destruct (Nat.eqb_spec r 0) as [|_]; [done|].
        split.
        -- rewrite Hk. change (S r =? 0)%nat with false. cbv iota.
           replace (7 - r + 7 * k)%nat with (S (7 - S r + 7 * k)) by lia. done.
        -- exists m. split; [done|].
           change (S r =? 0)%nat with false in Hbound. cbv iota in Hbound.
           cbn [length]. lia.
Qed.

(** X27. The climate charts plot every seventh record as it is: the sample
    holds the records at positions 0, 7, 14, ... of [daily_data], in
    order and unchanged (no average is taken), one for every started week
    of records. *)
Theorem climate_sample_is_every_seventh_record (daily_data : list JsVal) (k : nat) :
  sampledData daily_data !! k = daily_data !! (7 * k)%nat /\
  length (sampledData daily_data) = ((length daily_data + 6) / 7)%nat.
Proof.
  unfold sampledData.
  destruct (filter_every_seventh daily_data 0 0 0 k eq_refl ltac:(lia))
    as (Hk & m & Hm & Hbound).
  split; [exact Hk|]. rewrite Hm.
  change (0 =? 0)%nat with true in Hbound. cbv iota in Hbound.
  apply (Nat.div_unique _ 7 m (length daily_data + 6 - 7 * m)); lia.
Qed.

(** ** Further properties on the example page *)

Lemma unauthorized_response_ends_the_session_witness :
  inflight refreshed_page !! 0%nat
  = Some (pending_for CurrentWeather "http://localhost:8000/weather/current/3") /\
  let p' := dispatch (-300) plain_series plain_cards refreshed_page
              (Settle 0 (Response 401 "Unauthorized" NotJson)) in
  access_token p' = None /\
  refresh_token p' = None /\
  location_href p' = "/login.html" /\
  forall events : list Event,
    access_token (run (-300) plain_series plain_cards events p') = None /\
    inflight (run (-300) plain_series plain_cards events p')
      `sublist_of` delete 0%nat (inflight refreshed_page).
Proof.
  split; [reflexivity|].
  apply (unauthorized_response_ends_the_session (-300) plain_series plain_cards 0
           (pending_for CurrentWeather "http://localhost:8000/weather/current/3")
           "Unauthorized" NotJson refreshed_page).
  reflexivity.
Defined.

Lemma refresh_without_location_launches_nothing_witness :
  no_active_location (activeLocationId unselected_page) = true /\
  let p' := dispatch (-300) plain_series plain_cards unselected_page RefreshTrigger in
  inflight p' = inflight unselected_page /\
  charts p' = charts unselected_page /\
  containers p' = containers unselected_page /\
  uncaught p' = uncaught unselected_page /\
  refreshBtn p' = (fun _ => true) <$> refreshBtn unselected_page /\
  timeouts p' = S (timeouts unselected_page).
Proof.
  split; [reflexivity|].
  apply (refresh_without_location_launches_nothing (-300) plain_series plain_cards
           unselected_page).
  left. reflexivity.
Defined.

Lemma only_a_successful_envelope_reaches_the_widgets_witness :
  inflight refreshed_page !! 1%nat
  = Some (pending_for DailyWeather "http://localhost:8000/weather/daily/3") /\
  let p' := dispatch (-300) plain_series plain_cards refreshed_page
              (Settle 1 unavailable_503) in
  (exists status statusText body data,
     unavailable_503 = Response status statusText (Json body) /\
     response_ok status = true /\
     (exists success, js_get body "success" = Ok success /\ truthy success = true) /\
     js_get body "data" = Ok data /\
     truthy data = true) \/
  (charts p' = charts refreshed_page /\
   forall id, containers p' !! id = containers refreshed_page !! id \/
              exists m, containers p' !! id = Some (ErrorSpinner m)).
Proof.
  split; [reflexivity|].
  apply (only_a_successful_envelope_reaches_the_widgets (-300) plain_series plain_cards
           1 (pending_for DailyWeather "http://localhost:8000/weather/daily/3")
           unavailable_503 refreshed_page).
  reflexivity.
Defined.

Lemma unknown_selection_is_activated_but_loads_nothing_witness :
  parseInt (Some "9") = Some 9 /\
  find (fun ul => user_location_id ul =? 9) (userLocations ready_page) = None /\
  handleLocationChange "9" ready_page
  = (set_refreshBtn (fmap (fun _ : bool => true)) S
       (set_activeLocationId (Some 9) ready_page), Ok tt).
Proof.
  split; [reflexivity|]. split; [reflexivity|].
  apply (unknown_selection_is_activated_but_loads_nothing "9" 9 ready_page).
  - reflexivity.
  - lia.
  - reflexivity.
Defined.


Lemma http_error_message_witness :
  inflight refreshed_page !! 3%nat
  = Some (pending_for CurrentAirQuality "http://localhost:8000/air-quality/current/3") /\
  response_ok 503 = false /\
  let caught m :=
    handle (-300) plain_series plain_cards
      (Settle 3 (Response 503 "Service Unavailable"
                   (Json (JObj [("detail", JStr "service unavailable")]))))
      refreshed_page
    = on_error CurrentAirQuality m (set_inflight (delete 3%nat) refreshed_page) in
  (forall fields d,
     Json (JObj [("detail", JStr "service unavailable")]) = Json (JObj fields) ->
     assoc "detail" fields = Some (JStr d) -> d <> "" ->
     caught (Text d)) /\
  (Json (JObj [("detail", JStr "service unavailable")]) = NotJson \/
   (exists fields, Json (JObj [("detail", JStr "service unavailable")]) = Json (JObj fields) /\
                   assoc "detail" fields = None) ->
   caught (Text ("HTTP " ++ dec 503 ++ ": " ++ "Service Unavailable"))) /\
  (Json (JObj [("detail", JStr "service unavailable")]) = Json JNull ->
   caught (EngineText (PropertyOfNullish "detail"))).
Proof.
  split; [reflexivity|]. split; [reflexivity|].
  apply (http_error_message (-300) plain_series plain_cards CurrentAirQuality 3
           (pending_for CurrentAirQuality "http://localhost:8000/air-quality/current/3")
           503 "Service Unavailable"
           (Json (JObj [("detail", JStr "service unavailable")])) refreshed_page).
  - reflexivity.
  - reflexivity.
  - reflexivity.
  - lia.
Defined.

Lemma created_chart_takes_the_daily_series_witness :
  canvas_id weatherDailyChart ∈ canvases example_page /\
  Forall well_dated [nov12; nov13_no_readings] /\
  exists p' ch,
    (create_chart weatherDailyChart ;;
     update_chart (-300) plain_series weatherDailyChart (JArr [nov12; nov13_no_readings]))
      example_page = (p', Ok tt) /\
    charts p' !! chart_name weatherDailyChart = Some ch /\
    length (labels ch) = length [nov12; nov13_no_readings] /\
    length (datasets ch) = dataset_count weatherDailyChart /\
    forall j, (j < length (plotted_fields weatherDailyChart))%nat ->
      exists col, ds_data <$> datasets ch !! j = Some (JArr col) /\
                  length col = length [nov12; nov13_no_readings].
Proof.
  assert (Hcanvas : canvas_id weatherDailyChart ∈ canvases example_page).
  { apply elem_of_list_to_set. apply list_elem_of_here. }
  assert (Hdated : Forall well_dated [nov12; nov13_no_readings]).
  { repeat constructor; eexists; reflexivity. }
  split; [exact Hcanvas|]. split; [exact Hdated|].
  apply (created_chart_takes_the_daily_series (-300) plain_series weatherDailyChart
           [nov12; nov13_no_readings] example_page).
  - discriminate.
  - exact Hcanvas.
  - discriminate.
  - exact Hdated.
Defined.

Lemma undated_record_drops_the_daily_weather_response_witness :
  inflight refreshed_page !! 1%nat
  = Some (pending_for DailyWeather "http://localhost:8000/weather/daily/3") /\
  charts refreshed_page !! "weatherDailyChart" = Some empty_temperature_chart /\
  js_get undated_record "valid_date" = Ok JUndefined /\
  handle (-300) plain_series plain_cards
    (Settle 1 (Response 200 "OK" (success_body (JArr [nov12; undated_record]))))
    refreshed_page
  = (set_inflight (delete 1%nat) refreshed_page, Ok tt).
Proof.
  split; [reflexivity|]. split; [reflexivity|].
  split; [reflexivity|].
  apply (undated_record_drops_the_daily_weather_response (-300) plain_series plain_cards
           200 "OK" [nov12; undated_record] undated_record 1
           (pending_for DailyWeather "http://localhost:8000/weather/daily/3")
           refreshed_page empty_temperature_chart).
  - reflexivity.
  - reflexivity.
  - reflexivity.
  - reflexivity.
  - apply list_elem_of_further, list_elem_of_here.
  - reflexivity.
Defined.

Lemma daily_label_is_the_calendar_day_witness :
  series_of (-300) plain_series weatherDailyChart (JArr [nov12])
  = Ok {| s_labels := ["Nov 12"];
          s_datasets := [(JArr [JNum (214 # 10)], None);
                         (JArr [JNum (110 # 10)], None)] |} /\
  s_labels {| s_labels := ["Nov 12"];
              s_datasets := [(JArr [JNum (214 # 10)], @None JsVal);
                             (JArr [JNum (110 # 10)], None)] |} !! 0%nat
  = Some (month_short 11 ++ " " ++ dec 12).
Proof.
  split; [reflexivity|].
  apply (daily_label_is_the_calendar_day (-300) plain_series weatherDailyChart
           [nov12] 0 nov12 "2025" "11" "12" 2025 11 12).
  - discriminate.
  - reflexivity.
  - reflexivity.
  - reflexivity.
  - reflexivity.
  - reflexivity.
  - reflexivity.
  - reflexivity.
  - reflexivity.
  - lia.
  - lia.
  - vm_compute. split; discriminate.
  - reflexivity.
Defined.

Lemma unparsable_date_is_labelled_invalid_witness :
  is_ascii_string "soon" = true /\
  parseInt (split "-" "soon" !! 0%nat) = None /\
  series_of (-300) plain_series weatherDailyChart (JArr [misdated_record])
  = Ok {| s_labels := ["Invalid Date"];
          s_datasets := [(JArr [JNull], None); (JArr [JNull], None)] |} /\
  s_labels {| s_labels := ["Invalid Date"];
              s_datasets := [(JArr [JNull], @None JsVal); (JArr [JNull], None)] |} !! 0%nat
  = Some "Invalid Date".
Proof.
  split; [reflexivity|]. split; [reflexivity|]. split; [reflexivity|].
  apply (unparsable_date_is_labelled_invalid (-300) plain_series weatherDailyChart
           [misdated_record] 0 misdated_record "soon").
  - discriminate.
  - reflexivity.
  - reflexivity.
  - reflexivity.
  - left. reflexivity.
  - reflexivity.
Defined.

Lemma zero_temperature_is_plotted_as_a_gap_witness :
  js_get freezing_day "temperature_2m_max" = Ok (JNum 0) /\
  series_of (-300) plain_series weatherDailyChart (JArr [freezing_day])
  = Ok {| s_labels := ["Jan 15"];
          s_datasets := [(JArr [JNull], None);
                         (JArr [JNum (-(51 # 10))], None)] |} /\
  exists points,
    s_datasets {| s_labels := ["Jan 15"];
                  s_datasets := [(JArr [JNull], @None JsVal);
                                 (JArr [JNum (-(51 # 10))], None)] |} !! 0%nat
    = Some (JArr points, None) /\
    points !! 0%nat = Some JNull.
Proof.
  split; [reflexivity|]. split; [reflexivity|].
  apply (zero_temperature_is_plotted_as_a_gap (-300) plain_series 0
           "temperature_2m_max" [freezing_day] 0 freezing_day).
  - apply list_elem_of_here.
  - reflexivity.
  - reflexivity.
  - reflexivity.
Defined.


Lemma no_primary_location_loads_nothing_witness :
  activeLocationId unselected_page = None /\
  List.filter (listed_primary [lisbon]) (userLocations unselected_page) = [] /\
  let p' := (populateLocationSelector (Some []) [lisbon] saved_name unselected_page).1 in
  activeLocationId p' = None /\
  refreshAllCharts p' = (set_refreshBtn (fmap (fun _ : bool => true)) S p', Ok tt).
Proof.
  split; [reflexivity|]. split; [reflexivity|].
  apply (no_primary_location_loads_nothing (Some []) [lisbon] saved_name unselected_page).
  - reflexivity.
  - reflexivity.
Defined.


Lemma wind_direction_is_the_nearest_point_witness :
  getWindDirection 100 = Some "E" /\
  exists (k : nat) (turns : Z) (point : string),
    getWindDirection 100 = Some point /\
    compass_points !! k = Some point /\
    (k < 16)%nat /\
    0 <= turns <= 1 /\
    -45 <= 4 * 100 - 90 * Z.of_nat k - 1440 * turns < 45.
Proof.
  split; [reflexivity|].
  apply (wind_direction_is_the_nearest_point 100). lia.
Defined.

Lemma negative_direction_has_no_point_witness :
  getWindDirection 360 = Some "N" /\
  getWindDirection (-90) = None /\ getCompassDirection (-90) = None.
Proof.
  split; [reflexivity|].
  apply (negative_direction_has_no_point (-90)). lia.
Defined.

(** ** Where the code departs from the specification *)

(** C1, as stated, fails. The first refresh asks for location 3; the user
    then selects location 8 (backend location 4) and the second cycle's
    daily weather answer arrives first and is drawn ("Jul 1"); when the
    answer of the first cycle arrives, it is drawn over it ("Nov 12"),
    although location 8 is the active one. *)
Lemma stale_response_overwrites_newer :
  let p2 := run (-300) plain_series plain_cards
              [LocationChange "8"; Settle 11 (ok_with (JArr [jul01]))] refreshed_page in
  let p3 := dispatch (-300) plain_series plain_cards p2
              (Settle 1 (ok_with (JArr [nov12]))) in
  activeLocationId p3 = Some 8 /\
  inflight refreshed_page !! 1%nat
  = Some (pending_for DailyWeather "http://localhost:8000/weather/daily/3") /\
  inflight p2 !! 1%nat
  = Some (pending_for DailyWeather "http://localhost:8000/weather/daily/3") /\
  charts p2 !! "weatherDailyChart"
  = Some (temperature_chart "Jul 1" (305 # 10) (198 # 10)) /\
  charts p3 !! "weatherDailyChart"
  = Some (temperature_chart "Nov 12" (214 # 10) (110 # 10)) /\
  charts p3 !! "weatherDailyChart" <> charts p2 !! "weatherDailyChart".
Proof.
  intros p2 p3.
  assert (H2 : charts p2 !! "weatherDailyChart"
               = Some (temperature_chart "Jul 1" (305 # 10) (198 # 10)))
    by (vm_compute; reflexivity).
  assert (H3 : charts p3 !! "weatherDailyChart"
               = Some (temperature_chart "Nov 12" (214 # 10) (110 # 10)))
    by (vm_compute; reflexivity).
  split; [vm_compute; reflexivity|]. split; [vm_compute; reflexivity|].
  split; [vm_compute; reflexivity|]. split; [exact H2|]. split; [exact H3|].
  clearbody p2 p3. rewrite H2, H3. discriminate.
Qed.

(** C2, as stated, fails. A second trigger while the ten fetches of the
    first are still in flight is no no-op: ten more go out. *)
Lemma second_trigger_launches_again :
  let p1 := dispatch (-300) plain_series plain_cards ready_page RefreshTrigger in
  let p2 := dispatch (-300) plain_series plain_cards p1 RefreshTrigger in
  length (inflight p1) = 10%nat /\
  length (inflight p2) = 20%nat /\
  p2 <> p1.
Proof.
  intros p1 p2.
  assert (H1 : length (inflight p1) = 10%nat) by (vm_compute; reflexivity).
  assert (H2 : length (inflight p2) = 20%nat) by (vm_compute; reflexivity).
  clearbody p1 p2.
  split; [exact H1|]. split; [exact H2|].
  intros Heq. rewrite Heq, H1 in H2. discriminate H2.
Qed.


(** C4, as stated, fails. The temperature chart shows "Nov 12"; the next
    cycle's daily weather response has [data: []]; the chart still shows
    "Nov 12": one label, not none, and no placeholder. *)
Lemma empty_data_leaves_chart_as_it_was :
  let p1 := run (-300) plain_series plain_cards
              [Settle 1 (ok_with (JArr [nov12])); RefreshTrigger] refreshed_page in
  let p2 := dispatch (-300) plain_series plain_cards p1 (Settle 10 (ok_with (JArr []))) in
  inflight p1 !! 10%nat
  = Some (pending_for DailyWeather "http://localhost:8000/weather/daily/3") /\
  charts p1 !! "weatherDailyChart"
  = Some (temperature_chart "Nov 12" (214 # 10) (110 # 10)) /\
  charts p2 !! "weatherDailyChart"
  = Some (temperature_chart "Nov 12" (214 # 10) (110 # 10)) /\
  (length ∘ labels) <$> charts p2 !! "weatherDailyChart" <> Some 0%nat.
Proof.
  intros p1 p2.
  assert (H2 : charts p2 !! "weatherDailyChart"
               = Some (temperature_chart "Nov 12" (214 # 10) (110 # 10)))
    by (vm_compute; reflexivity).
  split; [vm_compute; reflexivity|]. split; [vm_compute; reflexivity|].
  split; [exact H2|]. clearbody p1 p2. rewrite H2. discriminate.
Qed.
